(** * DoGood: the write paths of the volunteer marketplace

    A shallow embedding of the handlers that write to the hosted store:

    - [OpportunityDetail.registerForOpportunity] with the "Get Involved" card
      that offers it (src/pages/OpportunityDetail.tsx),
    - [MyOpportunities.updateHoursCompleted] with its Save button
      (src/pages/MyOpportunities.tsx),
    - [ForOrganizations.handleSubmit], [handleEdit] and [handleDelete]
      (src/pages/ForOrganizations.tsx),
    - [Profile.handleSubmit] (src/pages/Profile.tsx) and the account data
      built by [OrganizationRegister.handleSubmit].

    Conventions.

    - A JavaScript object (a table row, an update payload, the form state
      written through a computed key) is a finite map from field names to
      values; the object spread [{...a, k: v}] is an insertion and
      [{...a, ...b}] a left-biased union with [b] on the left.
    - A JavaScript number that holds a count of hours or volunteers is an
      integer of [Z]. The columns are INTEGER columns, and all arithmetic
      done on them is addition, which is exact on doubles below 2^53.
    - A React state setter schedules the new state for the next render; a
      handler keeps reading the values of the render that created it.  A
      handler is therefore a function from the page state of its render to
      the page state of the next one, and every read inside it goes to the
      old state.
    - The store is the hosted backend, seen through the requests the pages
      send.  Whether it applies or refuses a write is the store's choice and
      an input of the model ([reply]).  A refused write changes nothing.
      Row-level policies of the backend are outside the model. *)

From stdpp Require Import gmap strings list fin_maps.
From Stdlib Require Import ZArith Ascii String DecimalString DecimalPos DecimalZ Lia.

Open Scope Z_scope.

(** ** JavaScript values and the operators the handlers use *)

Module Js.

Inductive val : Type :=
| VStr (s : string)
| VNum (n : Z)
| VBool (b : bool)
| VNull.

#[global] Instance val_eq_dec : EqDecision val.
Proof. solve_decision. Defined.

(** An absent field reads as [undefined], which is [None] here. *)
Definition truthy (o : option val) : bool :=
  match o with
  | Some (VStr s) => negb (bool_decide (s = ""%string))
  | Some (VNum n) => negb (n =? 0)
  | Some (VBool b) => b
  | Some VNull | None => false
  end.

(** [x || 0] at a numeric field: [undefined], [null] and [0] give [0]. *)
Definition or_zero (o : option val) : Z :=
  match o with
  | Some (VNum n) => n
  | _ => 0
  end.

(** A numeric field used as a number where the source writes no
    fallback: the integer it holds; [null] counts as [0] in the additions
    and comparisons made on it. *)
Definition number_of (o : option val) : Z := or_zero o.

(** [x === 'lit'] on a possibly absent field. *)
Definition is_str (lit : string) (o : option val) : bool :=
  bool_decide (o = Some (VStr lit)).

(** *** parseInt, radix left out

    White space is skipped, then an optional sign, then an optional
    [0x]/[0X] prefix that selects radix 16; the longest run of digits of
    the radix is the value; no digit at all is [NaN], here [None].  Only
    ASCII white space is modelled, and the value is kept exact where
    JavaScript rounds it to a double (beyond 2^53). *)

Definition is_white_space (c : ascii) : bool :=
  match nat_of_ascii c with
  | 9%nat | 10%nat | 11%nat | 12%nat | 13%nat | 32%nat => true
  | _ => false
  end.

Fixpoint skip_white_space (s : string) : string :=
  match s with
  | String c s' => if is_white_space c then skip_white_space s' else s
  | EmptyString => s
  end.

Definition digit_value (c : ascii) : option Z :=
  let n := Z.of_nat (nat_of_ascii c) in
  if (48 <=? n) && (n <=? 57) then Some (n - 48)
  else if (97 <=? n) && (n <=? 122) then Some (n - 87)
  else if (65 <=? n) && (n <=? 90) then Some (n - 55)
  else None.

(** The value of the longest prefix of digits; [acc] is [None] until a
    digit has been read. *)
Fixpoint digits (radix : Z) (s : string) (acc : option Z) : option Z :=
  match s with
  | String c s' =>
      match digit_value c with
      | Some d =>
          if d <? radix
          then digits radix s' (Some (default 0 acc * radix + d))
          else acc
      | None => acc
      end
  | EmptyString => acc
  end.

Definition strip_sign (s : string) : Z * string :=
  match s with
  | String "-"%char t => (-1, t)
  | String "+"%char t => (1, t)
  | _ => (1, s)
  end.

Definition strip_prefix (s : string) : Z * string :=
  match s with
  | String "0"%char (String "x"%char t) => (16, t)
  | String "0"%char (String "X"%char t) => (16, t)
  | _ => (10, s)
  end.

Definition parseInt (s : string) : option Z :=
  let '(sign, s1) := strip_sign (skip_white_space s) in
  let '(radix, s2) := strip_prefix s1 in
  Z.mul sign <$> digits radix s2 None.

(** [parseInt(s) || 0]: [NaN] and [0] both give [0]. *)
Definition parseInt_or_zero (s : string) : Z := default 0 (parseInt s).

(** [n.toString()] of an integer. *)
Definition toString (n : Z) : string := NilZero.string_of_int (Z.to_int n).

(** [a || b]: [a] when it is truthy, [b] otherwise. *)
Definition js_or (a : option val) (b : val) : val :=
  if truthy a then default b a else b.

(** A field that holds text, read as a string. *)
Definition str_of (o : option val) : string :=
  match o with
  | Some (VStr s) => s
  | _ => ""%string
  end.

(** [s.toLowerCase()] folds the letters of all of Unicode, some of them
    by their context (a capital sigma at the end of a word), and is not
    written out: the pages that call it take the folding as an argument
    named [toLowerCase].  What is written out is its restriction to texts
    of ASCII characters, on which it folds the letters A to Z and leaves
    every other character alone. *)
Definition lower_char (c : ascii) : ascii :=
  let n := nat_of_ascii c in
  if (65 <=? n)%nat && (n <=? 90)%nat then ascii_of_nat (n + 32) else c.

Fixpoint ascii_toLowerCase (s : string) : string :=
  match s with
  | String c s' => String (lower_char c) (ascii_toLowerCase s')
  | EmptyString => EmptyString
  end.

(** The text holds ASCII characters only. *)
Fixpoint is_ascii (s : string) : bool :=
  match s with
  | String c s' => (nat_of_ascii c <? 128)%nat && is_ascii s'
  | EmptyString => true
  end.

(** A folding that is [toLowerCase] on the texts of ASCII characters. *)
Definition folds_ascii (toLowerCase : string → string) : Prop :=
  ∀ s, is_ascii s = true → toLowerCase s = ascii_toLowerCase s.

(** [s.includes(t)]: [t] occurs in [s] as a run of consecutive
    characters. *)
Fixpoint includes (s t : string) : bool :=
  String.prefix t s
  || match s with
     | String _ s' => includes s' t
     | EmptyString => false
     end.

End Js.

Import Js.

Abbreviation row := (gmap string val).

(** ** The store, as the pages see it *)

Module Db.

Inductive table := Profiles | Opportunities | VolunteerRegistrations.

#[global] Instance table_eq_dec : EqDecision table.
Proof. solve_decision. Defined.

Record Store := {
  profiles : list row;
  opportunities : list row;
  volunteer_registrations : list row
}.

Definition rows (t : table) (s : Store) : list row :=
  match t with
  | Profiles => profiles s
  | Opportunities => opportunities s
  | VolunteerRegistrations => volunteer_registrations s
  end.

Definition set_rows (t : table) (l : list row) (s : Store) : Store :=
  match t with
  | Profiles =>
      {| profiles := l; opportunities := opportunities s;
         volunteer_registrations := volunteer_registrations s |}
  | Opportunities =>
      {| profiles := profiles s; opportunities := l;
         volunteer_registrations := volunteer_registrations s |}
  | VolunteerRegistrations =>
      {| profiles := profiles s; opportunities := opportunities s;
         volunteer_registrations := l |}
  end.

(** A chain of [.eq(column, value)] filters.  A comparison with null
    selects nothing. *)
Definition matches (filters : list (string * val)) (r : row) : bool :=
  forallb (fun f => bool_decide (f.2 ≠ VNull ∧ r !! f.1 = Some f.2)) filters.

Definition select (t : table) (filters : list (string * val)) (s : Store)
  : list row :=
  List.filter (matches filters) (rows t s).

(** [.single()]: data only when exactly one row is selected. *)
Definition single (l : list row) : option row :=
  match l with
  | [r] => Some r
  | _ => None
  end.

(** Column defaults of the schema in the README (CREATE TABLE ...). *)
Definition defaults (t : table) : row :=
  match t with
  | Profiles =>
      {[ "verified" := VBool false; "service_hours_goal" := VNum 100;
         "total_hours_logged" := VNum 0 ]}
  | Opportunities =>
      {[ "current_volunteers" := VNum 0; "status" := VStr "active" ]}
  | VolunteerRegistrations =>
      {[ "status" := VStr "registered"; "hours_completed" := VNum 0 ]}
  end.

Inductive request :=
| Insert (t : table) (payload : row)
| Update (t : table) (payload : row) (filters : list (string * val))
| Delete (t : table) (filters : list (string * val)).

Definition table_of (rq : request) : table :=
  match rq with
  | Insert t _ | Update t _ _ | Delete t _ => t
  end.

(** The store's answer to a write.  [Ok gen] carries the id the store
    generates for an inserted row (unused by updates and deletes). *)
Inductive reply := Ok (gen : string) | Err.

Definition apply (rq : request) (gen : string) (s : Store) : Store :=
  match rq with
  | Insert t payload =>
      set_rows t
        (rows t s ++ [payload ∪ ({[ "id" := VStr gen ]} ∪ defaults t)]) s
  | Update t payload filters =>
      set_rows t
        (map (fun r => if matches filters r then payload ∪ r else r)
             (rows t s)) s
  | Delete t filters =>
      set_rows t (List.filter (fun r => negb (matches filters r)) (rows t s)) s
  end.

(** The backend: the tables and the log of the writes sent so far. *)
Record Backend := { db : Store; issued : list request }.

(** [const { error } = await supabase.from(t)...]: the request is logged,
    applied when the store says so, and the error flag comes back. *)
Definition send (rq : request) (rp : reply) (b : Backend) : Backend * bool :=
  match rp with
  | Ok gen => ({| db := apply rq gen (db b); issued := issued b ++ [rq] |}, false)
  | Err => ({| db := db b; issued := issued b ++ [rq] |}, true)
  end.

End Db.

Import Db.

(** ** The session: [useAuth()]

    [user] is the signed-in auth user, of which only [user.id] is read;
    [userProfile] is that user's row of [profiles]. *)

Record Session := {
  user : option string;
  userProfile : option row
}.

(** [userProfile?.field] *)
Definition profile_field (ss : Session) (field : string) : option val :=
  userProfile ss ≫= (fun p => p !! field).

(** ** pages/OpportunityDetail.tsx *)

Module OpportunityDetail.

(** [interface Opportunity], the fields the handlers and the card read
    (the others are only displayed). *)
Record Opportunity := {
  opp_id : val;
  organization_id : val;
  hours_needed : Z;
  max_volunteers : Z;
  current_volunteers : Z
}.

Definition set_current_volunteers (n : Z) (o : Opportunity) : Opportunity :=
  {| opp_id := opp_id o; organization_id := organization_id o;
     hours_needed := hours_needed o; max_volunteers := max_volunteers o;
     current_volunteers := n |}.

(** The component's state; [route_id] is [useParams().id]. *)
Record Page := {
  route_id : string;
  opportunity : option Opportunity;
  isSaved : bool;
  isRegistered : bool
}.

Definition setOpportunity (o : option Opportunity) (p : Page) : Page :=
  {| route_id := route_id p; opportunity := o;
     isSaved := isSaved p; isRegistered := isRegistered p |}.

Definition setIsRegistered (v : bool) (p : Page) : Page :=
  {| route_id := route_id p; opportunity := opportunity p;
     isSaved := isSaved p; isRegistered := v |}.

(** The state of the first render. *)
Definition initial (id : string) : Page :=
  {| route_id := id; opportunity := None; isSaved := false;
     isRegistered := false |}.

(** "Transform data to match our interface" *)
Definition transformedData (data : row) : Opportunity :=
  {| opp_id := default VNull (data !! "id");
     organization_id := default VNull (data !! "organization_id");
     hours_needed := number_of (data !! "hours_needed");
     max_volunteers := number_of (data !! "max_volunteers");
     current_volunteers := number_of (data !! "current_volunteers") |}.

(** [fetchOpportunity]: [.eq('id', id).single()]; on an error the state
    is left as it is. *)
Definition fetchOpportunity (s : Store) (p : Page) : Page :=
  match single (select Opportunities [("id", VStr (route_id p))] s) with
  | Some data => setOpportunity (Some (transformedData data)) p
  | None => p
  end.

(** [checkUserStatus], the registration half. *)
Definition checkUserStatus (ss : Session) (s : Store) (p : Page) : Page :=
  match user ss with
  | None => p
  | Some uid =>
      let registeredData :=
        single (select VolunteerRegistrations
                  [("user_id", VStr uid);
                   ("opportunity_id", VStr (route_id p))] s) in
      setIsRegistered (bool_decide (is_Some registeredData)) p
  end.

(** The effect run on mount: both fetches, on a fresh page. *)
Definition mount (ss : Session) (s : Store) (id : string) : Page :=
  checkUserStatus ss s (fetchOpportunity s (initial id)).

Inductive outcome :=
| NotOffered              (* no enabled Register button on the page *)
| NavigateLogin           (* navigate('/login') *)
| AlertOnlyStudents       (* 'Only students can register ...' *)
| AlertFailedToRegister   (* 'Failed to register for opportunity. ...' *)
| Registered.

(** [(opportunity?.current_volunteers || 0) + 1] *)
Definition next_count (o : option Opportunity) : Z :=
  match o with
  | Some o => current_volunteers o + 1
  | None => 0 + 1
  end.

(** [registerForOpportunity].  [now] is [new Date().toISOString()];
    [r_insert] and [r_count] are the store's answers to the two writes.
    The answer to the second write is not looked at. *)
Definition registerForOpportunity
    (ss : Session) (now : string) (r_insert r_count : reply)
    (p : Page) (b : Backend) : Backend * Page * outcome :=
  match user ss with
  | None => (b, p, NavigateLogin)
  | Some uid =>
      if negb (is_str "student" (profile_field ss "user_type"))
      then (b, p, AlertOnlyStudents)
      else
        let '(b1, error) :=
          send (Insert VolunteerRegistrations
                  {[ "user_id" := VStr uid;
                     "opportunity_id" := VStr (route_id p);
                     "registered_at" := VStr now;
                     "status" := VStr "registered" ]})
               r_insert b in
        if error then (b1, p, AlertFailedToRegister)
        else
          let p1 := setIsRegistered true p in
          let '(b2, _) :=
            send (Update Opportunities
                    {[ "current_volunteers" :=
                         VNum (next_count (opportunity p)) ]}
                    [("id", VStr (route_id p))])
                 r_count b1 in
          let p2 :=
            match opportunity p with
            | Some o =>
                setOpportunity
                  (Some (set_current_volunteers (current_volunteers o + 1) o))
                  p1
            | None => p1
            end in
          (b2, p2, Registered)
  end.

(** The "Get Involved" card. *)
Inductive action_card :=
| YoureRegistered
| RegisterButton (disabled : bool).

Definition getInvolved (p : Page) : option action_card :=
  match opportunity p with
  | None => None            (* "Opportunity not found" *)
  | Some o =>
      Some (if isRegistered p then YoureRegistered
            else RegisterButton (max_volunteers o <=? current_volunteers o))
  end.

(** A click on the card: the handler runs only from an enabled button. *)
Definition clickRegister
    (ss : Session) (now : string) (r_insert r_count : reply)
    (p : Page) (b : Backend) : Backend * Page * outcome :=
  match getInvolved p with
  | Some (RegisterButton false) =>
      registerForOpportunity ss now r_insert r_count p b
  | _ => (b, p, NotOffered)
  end.

End OpportunityDetail.

(** ** pages/MyOpportunities.tsx *)

Module MyOpportunities.

(** [interface RegisteredOpportunity]: a row of [volunteer_registrations]
    ([own]) with the opportunity joined to it. *)
Record RegisteredOpportunity := {
  own : row;
  opportunity : row
}.

#[global] Instance RegisteredOpportunity_eq_dec :
  EqDecision RegisteredOpportunity.
Proof. solve_decision. Defined.

(** [{...item, ...fields}] *)
Definition spread (fields : row) (item : RegisteredOpportunity)
  : RegisteredOpportunity :=
  {| own := fields ∪ own item; opportunity := opportunity item |}.

Record Page := {
  registeredOpportunities : list RegisteredOpportunity;
  editingHours : option val;
  hoursInput : string
}.

Definition setRegisteredOpportunities
    (l : list RegisteredOpportunity) (p : Page) : Page :=
  {| registeredOpportunities := l; editingHours := editingHours p;
     hoursInput := hoursInput p |}.

Definition setEditingHours (e : option val) (p : Page) : Page :=
  {| registeredOpportunities := registeredOpportunities p;
     editingHours := e; hoursInput := hoursInput p |}.

Definition setHoursInput (t : string) (p : Page) : Page :=
  {| registeredOpportunities := registeredOpportunities p;
     editingHours := editingHours p; hoursInput := t |}.

Definition initial : Page :=
  {| registeredOpportunities := []; editingHours := None;
     hoursInput := "" |}.

(** [fetchUserOpportunities], the registrations half: the user's rows,
    each with its opportunity.  The order of the rows is not modelled,
    and the joined object keeps every column of the opportunity where
    the query names nine of them; the page reads [hours_needed] only. *)
Definition fetchUserOpportunities (ss : Session) (s : Store) (p : Page)
  : Page :=
  match user ss with
  | None => p
  | Some uid =>
      setRegisteredOpportunities
        (map (fun r =>
                {| own := r;
                   opportunity :=
                     default ∅
                       (single (select Opportunities
                          [("id", default VNull (r !! "opportunity_id"))]
                          s)) |})
             (select VolunteerRegistrations [("user_id", VStr uid)] s))
        p
  end.

(** [registeredOpportunities.reduce((sum, item) =>
      sum + (item.hours_completed || 0), 0)] *)
Definition total_hours (l : list RegisteredOpportunity) : Z :=
  fold_left (fun sum item => sum + or_zero (own item !! "hours_completed"))
            l 0.

(** [{ hours_completed: hours,
       status: hours > 0 ? 'completed' : 'registered' }] *)
Definition hours_fields (hours : Z) : row :=
  {[ "hours_completed" := VNum hours;
     "status" := VStr (if 0 <? hours then "completed" else "registered") ]}.

Inductive outcome :=
| SaveNotOffered
| AlertFailedToUpdate     (* 'Failed to update hours. Please try again.' *)
| HoursSaved.

(** [updateHoursCompleted].  [r_hours] and [r_total] are the store's
    answers to the two writes; the second answer is not looked at.  The
    total is computed from [registeredOpportunities] of the render the
    handler belongs to, that is from the list before this update. *)
Definition updateHoursCompleted
    (ss : Session) (registrationId : string) (hours : Z)
    (r_hours r_total : reply) (p : Page) (b : Backend)
  : Backend * Page * outcome :=
  let '(b1, error) :=
    send (Update VolunteerRegistrations (hours_fields hours)
            [("id", VStr registrationId)])
         r_hours b in
  if error then (b1, p, AlertFailedToUpdate)
  else
    let p1 :=
      setRegisteredOpportunities
        (map (fun item =>
                if is_str registrationId (own item !! "id")
                then spread (hours_fields hours) item
                else item)
             (registeredOpportunities p))
        p in
    let b2 :=
      match userProfile ss with
      | Some profile =>
          let totalHours := total_hours (registeredOpportunities p) + hours in
          (send (Update Profiles {[ "total_hours_logged" := VNum totalHours ]}
                   [("id", default VNull (profile !! "id"))])
                r_total b1).1
      | None => b1
      end in
    (b2, setHoursInput "" (setEditingHours None p1), HoursSaved).

(** The "Log Hours" button of a registration. *)
Definition clickLogHours (registration : RegisteredOpportunity) (p : Page)
  : Page :=
  setHoursInput
    (match own registration !! "hours_completed" with
     | Some (VNum n) => toString n
     | _ => ""
     end)
    (setEditingHours (own registration !! "id") p).

(** The hours field and Save are rendered for a registration of the list
    whose status is 'registered' and which is the one being edited. *)
Definition save_offered (registration : RegisteredOpportunity) (p : Page)
  : bool :=
  bool_decide (registration ∈ registeredOpportunities p)
  && is_str "registered" (own registration !! "status")
  && bool_decide (editingHours p = own registration !! "id").

(** [onClick={() => updateHoursCompleted(registration.id,
                                         parseInt(hoursInput) || 0)}] *)
Definition clickSave
    (ss : Session) (registration : RegisteredOpportunity)
    (r_hours r_total : reply) (p : Page) (b : Backend)
  : Backend * Page * outcome :=
  match own registration !! "id" with
  | Some (VStr registrationId) =>
      if save_offered registration p
      then updateHoursCompleted ss registrationId
             (parseInt_or_zero (hoursInput p)) r_hours r_total p b
      else (b, p, SaveNotOffered)
  | _ => (b, p, SaveNotOffered)
  end.

End MyOpportunities.

(** ** pages/ForOrganizations.tsx *)

Module ForOrganizations.

Record Page := {
  opportunities : list row;
  showForm : bool;
  editingOpportunity : option row;
  formData : row
}.

(** The form as [useState] creates it and as every reset leaves it. *)
Definition emptyForm : row :=
  {[ "title" := VStr ""; "description" := VStr "";
     "cause_category" := VStr "STEM"; "hours_needed" := VNum 2;
     "max_volunteers" := VNum 10; "date" := VStr ""; "time" := VStr "";
     "city" := VStr ""; "state" := VStr "TX"; "zip_code" := VStr "";
     "requirements" := VStr "" ]}.

Definition initial : Page :=
  {| opportunities := []; showForm := false; editingOpportunity := None;
     formData := emptyForm |}.

(** The dashboard is rendered for a signed-in organization only; anyone
    else gets the information page. *)
Definition dashboard (ss : Session) : bool :=
  bool_decide (is_Some (user ss))
  && is_str "organization" (profile_field ss "user_type").

(** [fetchOrganizationOpportunities]: the rows owned by [user.id] (their
    order is not modelled).  [error] tells whether the store answered the
    query with an error, after which the list is left as it is. *)
Definition fetchOrganizationOpportunities
    (ss : Session) (error : bool) (s : Store) (p : Page) : Page :=
  if error then p
  else
    {| opportunities :=
         select Opportunities
           [("organization_id", from_option VStr VNull (user ss))] s;
       showForm := showForm p;
       editingOpportunity := editingOpportunity p;
       formData := formData p |}.

(** [setFormData(prev => ({ ...prev, [name]: value }))] *)
Definition handleInputChange (name value : string) (p : Page) : Page :=
  {| opportunities := opportunities p; showForm := showForm p;
     editingOpportunity := editingOpportunity p;
     formData := <[ name := VStr value ]> (formData p) |}.

(** [k: opportunity.k] for each listed [k]; a field the row lacks stays
    absent. *)
Definition copy_fields (keys : list string) (src : row) : row :=
  list_to_map (omap (fun k => (fun v => (k, v)) <$> src !! k) keys).

Definition handleEdit (opportunity : row) (p : Page) : Page :=
  {| opportunities := opportunities p;
     showForm := true;
     editingOpportunity := Some opportunity;
     formData :=
       {[ "state" := VStr "TX"; "zip_code" := VStr "";
          "requirements" := VStr "" ]}
       ∪ copy_fields
           ["title"; "description"; "cause_category"; "hours_needed";
            "max_volunteers"; "date"; "time"; "city"]%string
           opportunity |}.

(** The state after a successful save, before the list is fetched again. *)
Definition resetForm (p : Page) : Page :=
  {| opportunities := opportunities p; showForm := false;
     editingOpportunity := None; formData := emptyForm |}.

(** [{ ...formData, organization_id: user.id, status: 'active',
       current_volunteers: 0, created_at: new Date().toISOString() }]:
    the four named fields come after the spread and win over it. *)
Definition opportunityData (uid now : string) (form : row) : row :=
  {[ "organization_id" := VStr uid; "status" := VStr "active";
     "current_volunteers" := VNum 0; "created_at" := VStr now ]}
  ∪ form.

Inductive outcome :=
| AlertOnlyOrganizations  (* 'Only organizations can post opportunities.' *)
| AlertMustBeVerified     (* 'Your organization must be verified before
                              posting opportunities. ...' *)
| AlertFailedToSave       (* 'Failed to save opportunity. ...' *)
| Saved.

(** The write that the form sends: an update of the opportunity being
    edited, or an insert. *)
Definition save_request (uid now : string) (p : Page) : request :=
  match editingOpportunity p with
  | Some editing =>
      Update Opportunities (opportunityData uid now (formData p))
             [("id", default VNull (editing !! "id"))]
  | None =>
      Insert Opportunities (opportunityData uid now (formData p))
  end.

(** [handleSubmit].  [r] is the store's answer to the write;
    [fetch_error] tells whether the fetch of the list that follows a
    successful write came back with an error.  The fetch is not awaited;
    it is answered here from the store as the write left it. *)
Definition handleSubmit
    (ss : Session) (now : string) (r : reply) (fetch_error : bool)
    (p : Page) (b : Backend) : Backend * Page * outcome :=
  match user ss with
  | None => (b, p, AlertOnlyOrganizations)
  | Some uid =>
      if negb (is_str "organization" (profile_field ss "user_type"))
      then (b, p, AlertOnlyOrganizations)
      else if negb (truthy (profile_field ss "verified"))
      then (b, p, AlertMustBeVerified)
      else
        let '(b1, error) := send (save_request uid now p) r b in
        if error then (b1, p, AlertFailedToSave)
        else (b1,
              fetchOrganizationOpportunities ss fetch_error (db b1)
                (resetForm p),
              Saved)
  end.

Inductive delete_outcome :=
| DeleteCancelled         (* the confirm dialog was dismissed *)
| AlertFailedToDelete     (* 'Failed to delete opportunity. ...' *)
| Deleted.

(** [handleDelete]; [confirmed] is the answer to [confirm(...)]. *)
Definition handleDelete
    (ss : Session) (opportunityId : val) (confirmed : bool) (r : reply)
    (fetch_error : bool) (p : Page) (b : Backend)
  : Backend * Page * delete_outcome :=
  if negb confirmed then (b, p, DeleteCancelled)
  else
    let '(b1, error) :=
      send (Delete Opportunities [("id", opportunityId)]) r b in
    if error then (b1, p, AlertFailedToDelete)
    else (b1, fetchOrganizationOpportunities ss fetch_error (db b1) p,
          Deleted).

(** The Delete button of a listed opportunity. *)
Definition clickDelete
    (ss : Session) (opportunity : row) (confirmed : bool) (r : reply)
    (fetch_error : bool) (p : Page) (b : Backend)
  : Backend * Page * delete_outcome :=
  handleDelete ss (default VNull (opportunity !! "id")) confirmed r
    fetch_error p b.

End ForOrganizations.

(** ** contexts/AuthContext.tsx *)

Module AuthContext.

(** Modelled from the spec: [updateProfile] of contexts/AuthContext.tsx,
    which is not among the sources.  Section 6 of the specification gives
    the store one [update(entityType, id, fields)], and section 4.1 lets an
    account update its own profile fields: the fields handed over are sent
    unchanged as one update of the row of [profiles] whose id is
    [user.id], and the error flag of the store comes back.  Without a
    signed-in user nothing is sent. *)
Definition updateProfile
    (ss : Session) (updates : row) (r : reply) (b : Backend)
  : Backend * bool :=
  match user ss with
  | Some uid => send (Update Profiles updates [("id", VStr uid)]) r b
  | None => (b, true)
  end.

End AuthContext.

(** ** pages/Profile.tsx *)

Module Profile.

Inductive message := Success | Error.

Record Page := {
  isEditing : bool;
  message_shown : option message;
  formData : row
}.

(** [updates.k = formData.k]; an undefined value is not serialised. *)
Definition assign (k : string) (form updates : row) : row :=
  match form !! k with
  | Some v => <[ k := v ]> updates
  | None => updates
  end.

(** [parseInt(formData.service_hours_goal.toString())], as it reaches the
    payload: [NaN] is serialised as null.  [None] stands for the
    TypeError of calling [toString] on undefined or null. *)
Definition parsed_goal (form : row) : option val :=
  let text :=
    match form !! "service_hours_goal" with
    | Some (VNum n) => Some (toString n)
    | Some (VStr s) => Some s
    | Some (VBool b) => Some (if b then "true" else "false")%string
    | Some VNull | None => None
    end in
  (fun s => from_option VNum VNull (parseInt s)) <$> text.

(** The [updates] object handed to [updateProfile]; [None] when building
    it throws. *)
Definition updates_of (ss : Session) (form : row) : option row :=
  if is_str "student" (profile_field ss "user_type") then
    (fun goal =>
       <[ "service_hours_goal" := goal ]> (assign "full_name" form ∅))
    <$> parsed_goal form
  else if is_str "organization" (profile_field ss "user_type") then
    Some (assign "phone" form
           (assign "zip_code" form
             (assign "state" form
               (assign "city" form
                 (assign "address" form
                   (assign "organization_name" form
                     (assign "full_name" form ∅)))))))
  else Some ∅.

Definition finish (m : message) (p : Page) : Page :=
  {| isEditing := match m with Success => false | Error => isEditing p end;
     message_shown := Some m;
     formData := formData p |}.

Definition handleSubmit
    (ss : Session) (r : reply) (p : Page) (b : Backend) : Backend * Page :=
  match updates_of ss (formData p) with
  | None => (b, finish Error p)        (* caught: 'An unexpected error ...' *)
  | Some updates =>
      let '(b1, error) := AuthContext.updateProfile ss updates r b in
      (b1, finish (if error then Error else Success) p)
  end.

(** The form as the effect on [userProfile] fills it: name, goal and
    organization name from the profile, the address fields always blank
    and the state 'TX'. *)
Definition profileForm (profile : row) : row :=
  {[ "full_name" := js_or (profile !! "full_name") (VStr "");
     "service_hours_goal" := js_or (profile !! "service_hours_goal") (VNum 100);
     "organization_name" := js_or (profile !! "organization_name") (VStr "");
     "address" := VStr ""; "city" := VStr ""; "state" := VStr "TX";
     "zip_code" := VStr ""; "phone" := VStr "" ]}.

Definition loadForm (ss : Session) (p : Page) : Page :=
  match userProfile ss with
  | Some profile =>
      {| isEditing := isEditing p; message_shown := message_shown p;
         formData := profileForm profile |}
  | None => p
  end.

(** The state of the first render, and of the render after the effect. *)
Definition initial : Page :=
  {| isEditing := false; message_shown := None;
     formData :=
       {[ "full_name" := VStr ""; "service_hours_goal" := VNum 100;
          "organization_name" := VStr ""; "address" := VStr "";
          "city" := VStr ""; "state" := VStr "TX"; "zip_code" := VStr "";
          "phone" := VStr "" ]} |}.

Definition mount (ss : Session) : Page := loadForm ss initial.

(** The "Edit Profile" button. *)
Definition startEditing (p : Page) : Page :=
  {| isEditing := true; message_shown := message_shown p;
     formData := formData p |}.

(** [setFormData(prev => ({ ...prev, [name]: value }))] *)
Definition handleInputChange (name value : string) (p : Page) : Page :=
  {| isEditing := isEditing p; message_shown := message_shown p;
     formData := <[ name := VStr value ]> (formData p) |}.

(** The "Cancel" button: the form goes back to what the profile gives. *)
Definition cancelEdit (ss : Session) (p : Page) : Page :=
  {| isEditing := false; message_shown := None;
     formData := match userProfile ss with
                 | Some profile => profileForm profile
                 | None => formData p
                 end |}.

End Profile.

(** ** components/auth/OrganizationRegister.tsx *)

Module OrganizationRegister.

Record Form := {
  organizationName : string;
  contactPerson : string;
  address : string;
  city : string;
  state : string;
  zipCode : string;
  phone : string
}.

(** The account data handed to [signUp]. *)
Definition userData (f : Form) : row :=
  {[ "full_name" := VStr (contactPerson f);
     "user_type" := VStr "organization";
     "organization_name" := VStr (organizationName f);
     "verified" := VBool false;
     "address" :=
       VStr (address f ++ ", " ++ city f ++ ", " ++ state f ++ " "
             ++ zipCode f);
     "phone" := VStr (phone f) ]}.

(** The remaining fields of the registration form.  A JavaScript string
    is a sequence of UTF-16 code units: [!==] compares the two sequences
    and [length] counts the units.  The two passwords are kept as their
    code units, so that both tests are those of the code whatever was
    typed. *)
Record Credentials := {
  email : string;
  password : list N;
  confirmPassword : list N
}.

Inductive outcome :=
| PasswordsDoNotMatch         (* 'Passwords do not match' *)
| PasswordTooShort            (* 'Password must be at least 6 characters long' *)
| SignUpFailed                (* the error of signUp is shown *)
| NavigateForOrganizations.   (* navigate('/for-organizations') *)

(** [handleSubmit].  [signUp] belongs to the auth context; what is modelled
    of it is the call, [Some (email, password, userData)] when it is made,
    and whether it came back with an error, which is an input. *)
Definition handleSubmit (f : Form) (c : Credentials) (signUp_error : bool)
  : option (string * list N * row) * outcome :=
  if negb (bool_decide (password c = confirmPassword c))
  then (None, PasswordsDoNotMatch)
  else if (List.length (password c) <? 6)%nat
  then (None, PasswordTooShort)
  else (Some (email c, password c, userData f),
        if signUp_error then SignUpFailed else NavigateForOrganizations).

End OrganizationRegister.

(** ** Sample data *)

Module Sample.

Definition student_profile : row :=
  {[ "id" := VStr "u1"; "user_type" := VStr "student";
     "full_name" := VStr "Sam"; "verified" := VBool false;
     "service_hours_goal" := VNum 100; "total_hours_logged" := VNum 2 ]}.

Definition organization_profile : row :=
  {[ "id" := VStr "org1"; "user_type" := VStr "organization";
     "full_name" := VStr "Olga"; "organization_name" := VStr "Food Bank";
     "verified" := VBool false ]}.

Definition student : Session :=
  {| user := Some "u1"%string; userProfile := Some student_profile |}.

Definition organization : Session :=
  {| user := Some "org1"%string; userProfile := Some organization_profile |}.

(** The organization after an external verifier has set the flag. *)
Definition verified_organization : Session :=
  {| user := Some "org1"%string;
     userProfile := Some (<[ "verified" := VBool true ]> organization_profile) |}.

Definition food_drive : row :=
  {[ "id" := VStr "o1"; "organization_id" := VStr "org1";
     "title" := VStr "Food Drive"; "hours_needed" := VNum 5;
     "max_volunteers" := VNum 2; "current_volunteers" := VNum 1;
     "status" := VStr "active" ]}.

Definition registration : row :=
  {[ "id" := VStr "r1"; "user_id" := VStr "u1";
     "opportunity_id" := VStr "o1"; "status" := VStr "registered";
     "hours_completed" := VNum 2 ]}.

Definition store : Store :=
  {| profiles := [student_profile; organization_profile];
     opportunities := [food_drive];
     volunteer_registrations := [registration] |}.

Definition backend : Backend := {| db := store; issued := [] |}.

(** The same store before the student registered. *)
Definition store_unregistered : Store :=
  {| profiles := [student_profile; organization_profile];
     opportunities := [food_drive];
     volunteer_registrations := [] |}.

Definition backend_unregistered : Backend :=
  {| db := store_unregistered; issued := [] |}.

(** A store whose only opportunity has been set inactive. *)
Definition store_inactive : Store :=
  {| profiles := [student_profile; organization_profile];
     opportunities := [<[ "status" := VStr "inactive" ]> food_drive];
     volunteer_registrations := [] |}.

Definition backend_inactive : Backend :=
  {| db := store_inactive; issued := [] |}.

(** A store whose only opportunity has both of its places taken. *)
Definition store_full : Store :=
  {| profiles := [student_profile; organization_profile];
     opportunities := [<[ "current_volunteers" := VNum 2 ]> food_drive];
     volunteer_registrations := [] |}.

Definition backend_full : Backend := {| db := store_full; issued := [] |}.

(** The store after the owner has brought the Food Drive down to one
    place, which is taken. *)
Definition store_lowered : Store :=
  {| profiles := [student_profile; organization_profile];
     opportunities := [<[ "max_volunteers" := VNum 1 ]> food_drive];
     volunteer_registrations := [] |}.

Definition backend_lowered : Backend :=
  {| db := store_lowered; issued := [] |}.

(** Two opportunities with the texts that the list page searches. *)
Definition park_cleanup : row :=
  {[ "id" := VStr "o2"; "organization_id" := VStr "org1";
     "title" := VStr "Park Cleanup";
     "description" := VStr "Pick up litter at White Rock Lake";
     "city" := VStr "Dallas"; "cause_category" := VStr "Environment";
     "hours_needed" := VNum 3; "max_volunteers" := VNum 10;
     "current_volunteers" := VNum 0; "status" := VStr "active" ]}.

Definition catalogue : Store :=
  {| profiles := [student_profile; organization_profile];
     opportunities :=
       [ <[ "description" := VStr "Sort the donations of the week" ]>
           (<[ "city" := VStr "Plano" ]> food_drive);
         park_cleanup ];
     volunteer_registrations := [] |}.

End Sample.

(** ** What the statements below speak about *)

Module Ledger.

(** The sum of [hours_completed] over the registrations of one user. *)
Definition hours_logged (uid : string) (s : Store) : Z :=
  foldr (fun r sum => or_zero (r !! "hours_completed") + sum) 0
        (select VolunteerRegistrations [("user_id", VStr uid)] s).

(** The [total_hours_logged] column of the user's profile. *)
Definition total_hours_logged (uid : string) (s : Store) : option val :=
  single (select Profiles [("id", VStr uid)] s)
    ≫= (fun r => r !! "total_hours_logged").

(** [0 ≤ current_volunteers ≤ max_volunteers] on a row of
    [opportunities]. *)
Definition capacity_ok (r : row) : bool :=
  match r !! "current_volunteers", r !! "max_volunteers" with
  | Some (VNum c), Some (VNum m) => (0 <=? c) && (c <=? m)
  | _, _ => false
  end.

(** The [current_volunteers] column of the opportunity with this id. *)
Definition stored_count (id : string) (s : Store) : option val :=
  single (select Opportunities [("id", VStr id)] s)
    ≫= (fun r => r !! "current_volunteers").

(** The opportunity page shows what a mount on the store [s] gives: its
    copy of the opportunity and its registered flag are the fetched
    ones. *)
Definition up_to_date (ss : Session) (s : Store)
    (p : OpportunityDetail.Page) : Prop :=
  OpportunityDetail.opportunity p
  = OpportunityDetail.opportunity
      (OpportunityDetail.mount ss s (OpportunityDetail.route_id p))
  ∧ OpportunityDetail.isRegistered p
    = OpportunityDetail.isRegistered
        (OpportunityDetail.mount ss s (OpportunityDetail.route_id p)).

(** The registrations of one user for one opportunity. *)
Definition registrations_of (uid id : string) (s : Store) : list row :=
  select VolunteerRegistrations
    [("user_id", VStr uid); ("opportunity_id", VStr id)] s.

(** The answer [r_insert] to the insert of a registration of [uid] for [id]
    is one that a store enforcing the schema's
    [UNIQUE(user_id, opportunity_id)] on [volunteer_registrations] can
    give: a refusal when the store holds a registration for the pair. *)
Definition unique_enforced (uid id : string) (s : Store) (r_insert : reply)
  : Prop :=
  registrations_of uid id s ≠ [] → r_insert = Err.

(** The kind of an account and its verification flag. *)
Definition flags (r : row) : option val * option val :=
  (r !! "user_type", r !! "verified").

(** No row of [profiles] is a student with a truthy [verified]. *)
Definition students_unverified (s : Store) : bool :=
  forallb (fun r => negb (is_str "student" (r !! "user_type")
                          && truthy (r !! "verified")))
          (profiles s).

End Ledger.

(** ** Saved opportunities

    The table [saved_opportunities] and the handlers that read and write
    it: [toggleSave] and the saved half of [checkUserStatus] on the
    opportunity page, [removeSavedOpportunity] and the saved half of
    [fetchUserOpportunities] on the "My Opportunities" page.  None of these
    handlers looks at the answer of the store. *)

Module Bookmarks.

Inductive saved_request :=
| InsertSaved (payload : row)
| DeleteSaved (filters : list (string * val)).

Record SavedBackend := {
  saved_opportunities : list row;
  saved_issued : list saved_request
}.

Definition apply_saved (rq : saved_request) (gen : string) (l : list row)
  : list row :=
  match rq with
  | InsertSaved payload => l ++ [payload ∪ {[ "id" := VStr gen ]}]
  | DeleteSaved filters => List.filter (fun r => negb (matches filters r)) l
  end.

(** [await supabase.from('saved_opportunities')...], the result dropped. *)
Definition send_saved (rq : saved_request) (rp : reply) (sb : SavedBackend)
  : SavedBackend :=
  {| saved_opportunities :=
       match rp with
       | Ok gen => apply_saved rq gen (saved_opportunities sb)
       | Err => saved_opportunities sb
       end;
     saved_issued := saved_issued sb ++ [rq] |}.

(** The two [.eq] filters that select the bookmark of a user for an
    opportunity. *)
Definition bookmark_of (uid id : string) : list (string * val) :=
  [("user_id", VStr uid); ("opportunity_id", VStr id)].

Definition setIsSaved (v : bool) (p : OpportunityDetail.Page)
  : OpportunityDetail.Page :=
  {| OpportunityDetail.route_id := OpportunityDetail.route_id p;
     OpportunityDetail.opportunity := OpportunityDetail.opportunity p;
     OpportunityDetail.isSaved := v;
     OpportunityDetail.isRegistered := OpportunityDetail.isRegistered p |}.

(** [checkUserStatus], the saved half: [setIsSaved(!!savedData)] with
    [savedData] the result of [.single()]. *)
Definition checkSaved (ss : Session) (sb : SavedBackend)
    (p : OpportunityDetail.Page) : OpportunityDetail.Page :=
  match user ss with
  | None => p
  | Some uid =>
      setIsSaved
        (bool_decide
           (is_Some
              (single
                 (List.filter
                    (matches (bookmark_of uid (OpportunityDetail.route_id p)))
                    (saved_opportunities sb)))))
        p
  end.

Inductive toggle_outcome :=
| ToggleNavigateLogin     (* navigate('/login') *)
| Toggled.

(** [toggleSave]; [now] is [new Date().toISOString()]. *)
Definition toggleSave
    (ss : Session) (now : string) (rp : reply)
    (p : OpportunityDetail.Page) (sb : SavedBackend)
  : SavedBackend * OpportunityDetail.Page * toggle_outcome :=
  match user ss with
  | None => (sb, p, ToggleNavigateLogin)
  | Some uid =>
      if OpportunityDetail.isSaved p
      then (send_saved
              (DeleteSaved (bookmark_of uid (OpportunityDetail.route_id p)))
              rp sb,
            setIsSaved false p, Toggled)
      else (send_saved
              (InsertSaved
                 {[ "user_id" := VStr uid;
                    "opportunity_id" := VStr (OpportunityDetail.route_id p);
                    "saved_at" := VStr now ]})
              rp sb,
            setIsSaved true p, Toggled)
  end.

(** [interface SavedOpportunity]: a row of [saved_opportunities] with the
    opportunity joined to it. *)
Record SavedOpportunity := {
  own : row;
  opportunity : row
}.

(** [fetchUserOpportunities], the saved half (the order of the rows is not
    modelled, and the joined object keeps every column). *)
Definition fetchSaved (ss : Session) (s : Store) (sb : SavedBackend)
    (savedOpportunities : list SavedOpportunity) : list SavedOpportunity :=
  match user ss with
  | None => savedOpportunities
  | Some uid =>
      map (fun r =>
             {| own := r;
                opportunity :=
                  default ∅
                    (single (select Opportunities
                       [("id", default VNull (r !! "opportunity_id"))] s)) |})
          (List.filter (matches [("user_id", VStr uid)])
                       (saved_opportunities sb))
  end.

(** [removeSavedOpportunity]: the delete by id, then
    [prev.filter(item => item.id !== savedId)]. *)
Definition removeSavedOpportunity
    (savedId : string) (rp : reply) (sb : SavedBackend)
    (savedOpportunities : list SavedOpportunity)
  : SavedBackend * list SavedOpportunity :=
  (send_saved (DeleteSaved [("id", VStr savedId)]) rp sb,
   List.filter (fun item => negb (is_str savedId (own item !! "id")))
               savedOpportunities).

End Bookmarks.

(** ** The list of opportunities (pages/Opportunities.tsx) *)

Module OpportunitiesList.

(** [interface Opportunity] of the list page. *)
Record Opportunity := {
  opp_id : val;
  title : string;
  description : string;
  organization_name : string;
  organization_verified : bool;
  city : string;
  hours_needed : Z;
  cause_category : string;
  max_volunteers : Z;
  current_volunteers : Z
}.

Record Page := {
  opportunities : list Opportunity;
  searchTerm : string;
  selectedCategory : string;
  selectedHours : string;
  selectedLocation : string
}.

Definition initial : Page :=
  {| opportunities := []; searchTerm := ""; selectedCategory := "";
     selectedHours := ""; selectedLocation := "" |}.

(** The filters of the query builder that the page uses. *)
Inductive condition :=
| Eq (column : string) (v : val)
| Lt (column : string) (n : Z)
| Lte (column : string) (n : Z)
| Gt (column : string) (n : Z)
| Gte (column : string) (n : Z)
| ILike (column : string) (pattern : string).

(** The conditions that [fetchOpportunities] puts on the query, from the
    selections of the render it belongs to. *)
Definition conditions (p : Page) : list condition :=
  [Eq "status" (VStr "active")]
  ++ (if bool_decide (selectedCategory p = ""%string) then []
      else [Eq "cause_category" (VStr (selectedCategory p))])
  ++ (if bool_decide (selectedHours p = "<2"%string)
      then [Lt "hours_needed" 2]
      else if bool_decide (selectedHours p = "2-5"%string)
      then [Gte "hours_needed" 2; Lte "hours_needed" 5]
      else if bool_decide (selectedHours p = "5+"%string)
      then [Gt "hours_needed" 5]
      else [])
  ++ (if bool_decide (selectedLocation p = ""%string) then []
      else [ILike "city" ("%" ++ selectedLocation p ++ "%")]).

(** How the store decides a condition on a row.  The pattern matching of
    [ilike] is the store's and is left open ([ilike text pattern]). *)
Definition holds (ilike : string → string → bool) (c : condition) (r : row)
  : bool :=
  match c with
  | Eq column v => bool_decide (v ≠ VNull ∧ r !! column = Some v)
  | Lt column n =>
      match r !! column with Some (VNum m) => m <? n | _ => false end
  | Lte column n =>
      match r !! column with Some (VNum m) => m <=? n | _ => false end
  | Gt column n =>
      match r !! column with Some (VNum m) => n <? m | _ => false end
  | Gte column n =>
      match r !! column with Some (VNum m) => n <=? m | _ => false end
  | ILike column pattern =>
      match r !! column with Some (VStr t) => ilike t pattern | _ => false end
  end.

(** "Transform data to match our interface"; [organizations] is the row
    that [organization_id] refers to. *)
Definition transform (s : Store) (opp : row) : Opportunity :=
  let organizations :=
    single (select Profiles
              [("id", default VNull (opp !! "organization_id"))] s) in
  {| opp_id := default VNull (opp !! "id");
     title := str_of (opp !! "title");
     description := str_of (opp !! "description");
     organization_name :=
       str_of (Some (js_or (organizations ≫= (fun o => o !! "name"))
                           (VStr "Unknown Organization")));
     organization_verified :=
       truthy (organizations ≫= (fun o => o !! "verified"));
     city := str_of (opp !! "city");
     hours_needed := number_of (opp !! "hours_needed");
     cause_category := str_of (opp !! "cause_category");
     max_volunteers := number_of (opp !! "max_volunteers");
     current_volunteers := number_of (opp !! "current_volunteers") |}.

(** The rows that the query of [fetchOpportunities] selects (their order,
    by date, is not modelled). *)
Definition selected_rows (ilike : string → string → bool) (s : Store)
    (p : Page) : list row :=
  List.filter (fun r => forallb (fun c => holds ilike c r) (conditions p))
              (Db.opportunities s).

(** [fetchOpportunities]; [error] tells whether the store answered the
    query with an error, after which the list is left as it is. *)
Definition fetchOpportunities (ilike : string → string → bool)
    (error : bool) (s : Store) (p : Page) : Page :=
  if error then p
  else
    {| opportunities := map (transform s) (selected_rows ilike s p);
       searchTerm := searchTerm p;
       selectedCategory := selectedCategory p;
       selectedHours := selectedHours p;
       selectedLocation := selectedLocation p |}.

(** The effect has no dependency: it runs once, on the first render. *)
Definition mount (ilike : string → string → bool) (error : bool)
    (s : Store) : Page :=
  fetchOpportunities ilike error s initial.

Definition setSearchTerm (t : string) (p : Page) : Page :=
  {| opportunities := opportunities p; searchTerm := t;
     selectedCategory := selectedCategory p;
     selectedHours := selectedHours p;
     selectedLocation := selectedLocation p |}.

Definition setSelectedCategory (c : string) (p : Page) : Page :=
  {| opportunities := opportunities p; searchTerm := searchTerm p;
     selectedCategory := c; selectedHours := selectedHours p;
     selectedLocation := selectedLocation p |}.

Definition setSelectedHours (h : string) (p : Page) : Page :=
  {| opportunities := opportunities p; searchTerm := searchTerm p;
     selectedCategory := selectedCategory p; selectedHours := h;
     selectedLocation := selectedLocation p |}.

Definition setSelectedLocation (l : string) (p : Page) : Page :=
  {| opportunities := opportunities p; searchTerm := searchTerm p;
     selectedCategory := selectedCategory p;
     selectedHours := selectedHours p; selectedLocation := l |}.

Definition clearFilters (p : Page) : Page :=
  {| opportunities := opportunities p; searchTerm := "";
     selectedCategory := ""; selectedHours := ""; selectedLocation := "" |}.

(** What a visitor does on the page: type in the search box, choose in
    one of the three selects, press "Clear all". *)
Inductive event :=
| TypeSearch (t : string)
| ChooseCategory (c : string)
| ChooseHours (h : string)
| ChooseLocation (l : string)
| ClearAll.

Definition handle (p : Page) (e : event) : Page :=
  match e with
  | TypeSearch t => setSearchTerm t p
  | ChooseCategory c => setSelectedCategory c p
  | ChooseHours h => setSelectedHours h p
  | ChooseLocation l => setSelectedLocation l p
  | ClearAll => clearFilters p
  end.

(** The test of [filteredOpportunities] on one opportunity. *)
Definition found (toLowerCase : string → string) (term : string)
    (opp : Opportunity) : bool :=
  includes (toLowerCase (title opp)) (toLowerCase term)
  || includes (toLowerCase (description opp)) (toLowerCase term)
  || includes (toLowerCase (organization_name opp)) (toLowerCase term)
  || includes (toLowerCase (city opp)) (toLowerCase term).

Definition filteredOpportunities (toLowerCase : string → string) (p : Page)
  : list Opportunity :=
  List.filter (found toLowerCase (searchTerm p)) (opportunities p).

(** The four texts that the search reads hold ASCII characters only. *)
Definition ascii_texts (opp : Opportunity) : bool :=
  is_ascii (title opp) && is_ascii (description opp)
  && is_ascii (organization_name opp) && is_ascii (city opp).

End OpportunitiesList.

(** ** parseInt on sample texts *)

Example parseInt_digits : parseInt "42" = Some 42.
Proof. reflexivity. Qed.

Example parseInt_negative : parseInt " -3" = Some (-3).
Proof. reflexivity. Qed.

Example parseInt_stops_at_letters : parseInt "12px" = Some 12.
Proof. reflexivity. Qed.

Example parseInt_fraction : parseInt "2.5" = Some 2.
Proof. reflexivity. Qed.

Example parseInt_hexadecimal : parseInt "0x1F" = Some 31.
Proof. reflexivity. Qed.

Example parseInt_letters : parseInt "abc" = None.
Proof. reflexivity. Qed.

Example parseInt_empty : parseInt "" = None.
Proof. reflexivity. Qed.

Example parseInt_of_toString : parseInt (toString (-120)) = Some (-120).
Proof. reflexivity. Qed.

(** ** Facts about the store *)

Section StoreFacts.

Implicit Types (r payload : row) (s : Store) (b : Backend) (t : table).

Lemma rows_set_rows_same t l s : rows t (set_rows t l s) = l.
Proof. by destruct t. Qed.

Lemma rows_set_rows_other t t' l s :
  t ≠ t' → rows t' (set_rows t l s) = rows t' s.
Proof. by destruct t, t'. Qed.

Lemma apply_other_table rq gen s t :
  table_of rq ≠ t → rows t (apply rq gen s) = rows t s.
Proof.
  destruct rq; simpl; intros Hne; by rewrite rows_set_rows_other.
Qed.

Lemma apply_update_rows t payload filters gen s :
  rows t (apply (Update t payload filters) gen s)
  = map (fun r => if matches filters r then payload ∪ r else r) (rows t s).
Proof. simpl. by rewrite rows_set_rows_same. Qed.

Lemma apply_insert_rows t payload gen s :
  rows t (apply (Insert t payload) gen s)
  = rows t s ++ [payload ∪ ({[ "id" := VStr gen ]} ∪ defaults t)].
Proof. simpl. by rewrite rows_set_rows_same. Qed.

Lemma apply_delete_rows t filters gen s :
  rows t (apply (Delete t filters) gen s)
  = List.filter (fun r => negb (matches filters r)) (rows t s).
Proof. simpl. by rewrite rows_set_rows_same. Qed.

Lemma send_Ok rq gen b :
  send rq (Ok gen) b
  = ({| db := apply rq gen (db b); issued := issued b ++ [rq] |}, false).
Proof. reflexivity. Qed.

Lemma send_Err rq b :
  send rq Err b = ({| db := db b; issued := issued b ++ [rq] |}, true).
Proof. reflexivity. Qed.

Lemma send_issued rq rp b : issued (send rq rp b).1 = issued b ++ [rq].
Proof. by destruct rp. Qed.

Lemma send_other_table rq rp b t :
  table_of rq ≠ t → rows t (db (send rq rp b).1) = rows t (db b).
Proof.
  destruct rp; simpl; [apply apply_other_table | done].
Qed.

(** One [.eq] filter on a column that holds a string. *)
Lemma matches_eq_str col v r :
  matches [(col, VStr v)] r = bool_decide (r !! col = Some (VStr v)).
Proof.
  unfold matches. cbn [forallb]. rewrite andb_true_r.
  apply bool_decide_ext. cbn [fst snd]. split; [by intros [_ ?] | by split].
Qed.

Lemma matches_null col r : matches [(col, VNull)] r = false.
Proof.
  unfold matches. cbn [forallb]. rewrite andb_true_r.
  apply bool_decide_eq_false. intros [Hne _]. by apply Hne.
Qed.

(** An update filtered on one string column rewrites a row that holds
    the string there, in place. *)
Lemma lookup_updated_row t payload col v gen s (i : nat) r :
  rows t s !! i = Some r →
  r !! col = Some (VStr v) →
  rows t (apply (Update t payload [(col, VStr v)]) gen s) !! i
  = Some (payload ∪ r).
Proof.
  intros Hrow Hcol. rewrite apply_update_rows, list_lookup_fmap, Hrow.
  cbn [fmap option_fmap option_map].
  by rewrite matches_eq_str, bool_decide_eq_true_2.
Qed.

(** A field named by the payload takes the payload's value, any other
    field keeps the row's. *)
Lemma updated_field payload r k v :
  payload !! k = Some v → (payload ∪ r) !! k = Some v.
Proof. intros H. by apply lookup_union_Some_l. Qed.

Lemma untouched_field payload r k :
  payload !! k = None → (payload ∪ r) !! k = r !! k.
Proof. intros H. by apply lookup_union_r. Qed.

End StoreFacts.

(** ** Logging hours *)

Section LoggingHours.

Import MyOpportunities.

Implicit Types (ss : Session) (p : Page) (b : Backend) (r : row).

Lemma hours_fields_hours h : hours_fields h !! "hours_completed" = Some (VNum h).
Proof. reflexivity. Qed.

Lemma hours_fields_status h :
  hours_fields h !! "status"
  = Some (VStr (if 0 <? h then "completed" else "registered")).
Proof. reflexivity. Qed.

(** The backend after an hours update that the store applied: the
    registration table is rewritten by the first write, and the second
    write, whatever its answer, goes to [profiles]. *)
Lemma updateHoursCompleted_registrations ss rid h gen r_total p b :
  volunteer_registrations
    (db (updateHoursCompleted ss rid h (Ok gen) r_total p b).1.1)
  = map (fun r => if bool_decide (r !! "id" = Some (VStr rid))
                  then hours_fields h ∪ r else r)
        (volunteer_registrations (db b)).
Proof.
  unfold updateHoursCompleted. rewrite send_Ok. cbn [fst snd].
  set (b1 := {| db := _; issued := _ |}).
  assert (Hb1 : volunteer_registrations (db b1)
                = map (fun r => if bool_decide (r !! "id" = Some (VStr rid))
                                then hours_fields h ∪ r else r)
                      (volunteer_registrations (db b))).
  { subst b1. cbn [db].
    change (volunteer_registrations ?s) with (rows VolunteerRegistrations s).
    rewrite apply_update_rows. apply map_ext. intros r.
    by rewrite matches_eq_str. }
  destruct (userProfile ss) as [profile|]; cbn [fst snd]; [|done].
  change (volunteer_registrations ?s) with (rows VolunteerRegistrations s).
  rewrite send_other_table; [|done]. exact Hb1.
Qed.

Lemma updateHoursCompleted_outcome ss rid h gen r_total p b :
  (updateHoursCompleted ss rid h (Ok gen) r_total p b).2 = HoursSaved.
Proof. unfold updateHoursCompleted. rewrite send_Ok. reflexivity. Qed.

End LoggingHours.

(** C5.  A successful update of [hoursCompleted] to [h] (the store applied
    the write) leaves the registration with these hours and with status
    'completed' when [h > 0] and 'registered' otherwise. *)
Theorem hours_update_sets_status
    (ss : Session) (rid : string) (h : Z) (gen : string) (r_total : reply)
    (p : MyOpportunities.Page) (b : Backend) (i : nat) (r : row) :
  volunteer_registrations (db b) !! i = Some r →
  r !! "id" = Some (VStr rid) →
  (MyOpportunities.updateHoursCompleted ss rid h (Ok gen) r_total p b).2
  = MyOpportunities.HoursSaved
  ∧ ∃ r',
      volunteer_registrations
        (db (MyOpportunities.updateHoursCompleted
               ss rid h (Ok gen) r_total p b).1.1) !! i = Some r'
      ∧ r' !! "hours_completed" = Some (VNum h)
      ∧ r' !! "status"
        = Some (VStr (if 0 <? h then "completed" else "registered")).
Proof.
  intros Hrow Hid. split; [apply updateHoursCompleted_outcome|].
  rewrite updateHoursCompleted_registrations.
  exists (MyOpportunities.hours_fields h ∪ r). split.
  - rewrite list_lookup_fmap, Hrow. cbn. by rewrite bool_decide_eq_true_2.
  - split; apply updated_field; [apply hours_fields_hours | apply hours_fields_status].
Qed.

(** On the sample store: 3 hours are logged on the registration, which
    becomes 'completed'. *)
Lemma hours_update_sets_status_witness :
  (MyOpportunities.updateHoursCompleted
     Sample.student "r1" 3 (Ok "") (Ok "") MyOpportunities.initial
     Sample.backend).2
  = MyOpportunities.HoursSaved
  ∧ ∃ r',
      volunteer_registrations
        (db (MyOpportunities.updateHoursCompleted
               Sample.student "r1" 3 (Ok "") (Ok "") MyOpportunities.initial
               Sample.backend).1.1) !! 0%nat = Some r'
      ∧ r' !! "hours_completed" = Some (VNum 3)
      ∧ r' !! "status" = Some (VStr "completed").
Proof.
  apply (hours_update_sets_status Sample.student "r1" 3 "" (Ok "")
           MyOpportunities.initial Sample.backend 0 Sample.registration);
    reflexivity.
Defined.

Section HoursTotal.

Import MyOpportunities.

(** The total that a successful update sends to [profiles]: the sum over
    the list as it was before the update, plus the new hours. *)
Lemma updateHoursCompleted_total_written
    (ss : Session) (profile : row) rid h gen r_total (p : Page) (b : Backend) :
  userProfile ss = Some profile →
  last (issued (updateHoursCompleted ss rid h (Ok gen) r_total p b).1.1)
  = Some (Update Profiles
            {[ "total_hours_logged" :=
                 VNum (total_hours (registeredOpportunities p) + h) ]}
            [("id", default VNull (profile !! "id"))]).
Proof.
  intros Hprofile. unfold updateHoursCompleted.
  rewrite send_Ok, Hprofile. cbn [fst snd].
  rewrite send_issued. apply last_snoc.
Qed.

Lemma fold_hours_acc (l : list RegisteredOpportunity) (a : Z) :
  fold_left (fun sum item => sum + or_zero (own item !! "hours_completed")) l a
  = a + total_hours l.
Proof.
  unfold total_hours. revert a.
  induction l as [|x l IH]; intros a; cbn [fold_left]; [lia|].
  rewrite (IH (a + _)), (IH (0 + _)). lia.
Qed.

Lemma total_hours_cons (x : RegisteredOpportunity) l :
  total_hours (x :: l) = or_zero (own x !! "hours_completed") + total_hours l.
Proof. unfold total_hours at 1. cbn [fold_left]. by rewrite fold_hours_acc. Qed.

Lemma total_hours_app (l1 l2 : list RegisteredOpportunity) :
  total_hours (l1 ++ l2) = total_hours l1 + total_hours l2.
Proof.
  induction l1 as [|x l1 IH]; [done|].
  cbn [app]. rewrite !total_hours_cons, IH. lia.
Qed.

(** The page's list after a successful update. *)
Lemma updateHoursCompleted_list (ss : Session) rid h gen r_total (p : Page)
    (b : Backend) :
  registeredOpportunities
    (updateHoursCompleted ss rid h (Ok gen) r_total p b).1.2
  = map (fun item =>
           if is_str rid (own item !! "id")
           then spread (hours_fields h) item else item)
        (registeredOpportunities p).
Proof. unfold updateHoursCompleted. by rewrite send_Ok. Qed.

(** Where the written total is the sum: the registration that is updated
    occurs once in the list and had no hours.  Then the sum over the list
    after the update is the old sum plus the new hours, which is what
    [updateHoursCompleted] sends. *)
Lemma total_hours_first_log (l1 l2 : list RegisteredOpportunity) item rid h :
  own item !! "id" = Some (VStr rid) →
  or_zero (own item !! "hours_completed") = 0 →
  (∀ x, In x (l1 ++ l2) → own x !! "id" ≠ Some (VStr rid)) →
  total_hours
    (map (fun item =>
            if is_str rid (own item !! "id")
            then spread (hours_fields h) item else item)
         (l1 ++ item :: l2))
  = total_hours (l1 ++ item :: l2) + h.
Proof.
  intros Hid Hzero Hothers.
  assert (Hsame : ∀ l,
            (∀ x, In x l → own x !! "id" ≠ Some (VStr rid)) →
            map (fun item =>
                   if is_str rid (own item !! "id")
                   then spread (hours_fields h) item else item) l = l).
  { induction l as [|x l IH]; intros Hl; [done|].
    cbn [map]. unfold is_str at 1.
    rewrite bool_decide_eq_false_2 by (apply Hl; by left).
    rewrite IH; [done|]. intros y Hy. apply Hl. by right. }
  rewrite map_app. cbn [map]. unfold is_str at 2.
  rewrite bool_decide_eq_true_2 by done.
  rewrite !Hsame by (intros x Hx; apply Hothers, in_or_app; auto).
  rewrite !total_hours_app, !total_hours_cons, Hzero.
  cbn [spread own]. rewrite (updated_field _ _ _ (VNum h)) by done.
  cbn [or_zero]. lia.
Qed.

End HoursTotal.

(** C1, evaluated where it fails.  The student has one registration, with 2
    hours logged and status 'registered'; the page has fetched it.  They open
    "Log Hours", enter 3 (the opportunity needs 5) and save; the store
    applies both writes.  The registration now holds 3 hours, which is the
    sum over the student's registrations, while [total_hours_logged] has
    been set to 2 + 3 = 5. *)
Theorem hours_total_counts_replaced_hours_twice :
  let ss := Sample.student in
  let p0 := MyOpportunities.fetchUserOpportunities ss Sample.store
              MyOpportunities.initial in
  let reg := {| MyOpportunities.own := Sample.registration;
                MyOpportunities.opportunity := Sample.food_drive |} in
  let p1 := MyOpportunities.setHoursInput "3"
              (MyOpportunities.clickLogHours reg p0) in
  let result := MyOpportunities.clickSave ss reg (Ok "") (Ok "") p1
                  Sample.backend in
  MyOpportunities.registeredOpportunities p0 = [reg]
  ∧ result.2 = MyOpportunities.HoursSaved
  ∧ Ledger.hours_logged "u1" (db result.1.1) = 3
  ∧ Ledger.total_hours_logged "u1" (db result.1.1) = Some (VNum 5).
Proof. vm_compute. repeat split; reflexivity. Qed.

(** The same state arises from the pages alone.  A fresh registration (0
    hours) is logged with -3, which is written and leaves it 'registered';
    it is then logged with 4.  The sum of the hours is 4 and the stored
    total is -3 + 4 = 1. *)
Example hours_total_after_negative_log :
  let ss := Sample.student in
  let fresh := <[ "hours_completed" := VNum 0 ]> Sample.registration in
  let s0 := {| profiles := profiles Sample.store;
               opportunities := opportunities Sample.store;
               volunteer_registrations := [fresh] |} in
  let p0 := MyOpportunities.fetchUserOpportunities ss s0
              MyOpportunities.initial in
  let reg0 := {| MyOpportunities.own := fresh;
                 MyOpportunities.opportunity := Sample.food_drive |} in
  let first := MyOpportunities.clickSave ss reg0 (Ok "") (Ok "")
                 (MyOpportunities.setHoursInput "-3"
                    (MyOpportunities.clickLogHours reg0 p0))
                 {| db := s0; issued := [] |} in
  let reg1 := {| MyOpportunities.own :=
                   MyOpportunities.hours_fields (-3) ∪ fresh;
                 MyOpportunities.opportunity := Sample.food_drive |} in
  let second := MyOpportunities.clickSave ss reg1 (Ok "") (Ok "")
                  (MyOpportunities.setHoursInput "4"
                     (MyOpportunities.clickLogHours reg1 first.1.2))
                  first.1.1 in
  MyOpportunities.registeredOpportunities first.1.2 = [reg1]
  ∧ second.2 = MyOpportunities.HoursSaved
  ∧ Ledger.hours_logged "u1" (db second.1.1) = 4
  ∧ Ledger.total_hours_logged "u1" (db second.1.1) = Some (VNum 1).
Proof. vm_compute. repeat split; reflexivity. Qed.

Section SaveButton.

Import MyOpportunities.

(** The first write of an hours update is sent whatever the hours are. *)
Lemma updateHoursCompleted_first_request
    (ss : Session) rid h r_hours r_total (p : Page) (b : Backend) :
  issued (updateHoursCompleted ss rid h r_hours r_total p b).1.1
    !! List.length (issued b)
  = Some (Update VolunteerRegistrations (hours_fields h)
            [("id", VStr rid)]).
Proof.
  unfold updateHoursCompleted.
  destruct r_hours as [gen|].
  - rewrite send_Ok. cbn [fst snd].
    destruct (userProfile ss) as [profile|]; cbn [fst snd].
    + rewrite send_issued. cbn [issued].
      rewrite <- (assoc_L (++)). by apply list_lookup_middle.
    + cbn [issued]. by apply list_lookup_middle.
  - rewrite send_Err. cbn [fst snd issued]. by apply list_lookup_middle.
Qed.

Lemma clickSave_offered
    (ss : Session) reg rid r_hours r_total (p : Page) (b : Backend) :
  own reg !! "id" = Some (VStr rid) →
  save_offered reg p = true →
  clickSave ss reg r_hours r_total p b
  = updateHoursCompleted ss rid (parseInt_or_zero (hoursInput p))
      r_hours r_total p b.
Proof. intros Hid Hoff. unfold clickSave. by rewrite Hid, Hoff. Qed.

Lemma updateHoursCompleted_not_refused
    (ss : Session) rid h r_hours r_total (p : Page) (b : Backend) :
  (updateHoursCompleted ss rid h r_hours r_total p b).2 ≠ SaveNotOffered.
Proof.
  unfold updateHoursCompleted. by destruct r_hours; cbn.
Qed.

End SaveButton.

(** C8 as stated fails: the text "abc" is not a number, and saving it is
    not rejected.  It is read as 0 hours, the update is sent, and the store
    (which applies it) ends with 0 hours on the registration. *)
Lemma non_numeric_hours_are_sent :
  let reg := {| MyOpportunities.own := Sample.registration;
                MyOpportunities.opportunity := Sample.food_drive |} in
  let p := MyOpportunities.setHoursInput "abc"
             (MyOpportunities.clickLogHours reg
                (MyOpportunities.fetchUserOpportunities Sample.student
                   Sample.store MyOpportunities.initial)) in
  let result := MyOpportunities.clickSave Sample.student reg (Ok "") (Ok "")
                  p Sample.backend in
  parseInt "abc" = None
  ∧ result.2 = MyOpportunities.HoursSaved
  ∧ issued result.1.1
    = [Update VolunteerRegistrations (MyOpportunities.hours_fields 0)
         [("id", VStr "r1")];
       Update Profiles {[ "total_hours_logged" := VNum 2 ]}
         [("id", VStr "u1")]]
  ∧ Ledger.hours_logged "u1" (db result.1.1) = 0.
Proof. vm_compute. repeat split; reflexivity. Qed.

(** C8, amended.  When the hours field holds text that is not a number, or
    a number between 0 and the opportunity's [hours_needed], Save does not
    reject it: it answers with saved or with the failure alert, and the
    update of the registration is sent to the store.  Text that is not a
    number is logged as 0 hours with status 'registered'; a number in the
    range is logged as it is. *)
Theorem save_sends_hours_as_read
    (ss : Session) (reg : MyOpportunities.RegisteredOpportunity)
    (rid : string) (r_hours r_total : reply)
    (p : MyOpportunities.Page) (b : Backend) :
  MyOpportunities.own reg !! "id" = Some (VStr rid) →
  MyOpportunities.save_offered reg p = true →
  (parseInt (MyOpportunities.hoursInput p) = None
   ∨ ∃ n, parseInt (MyOpportunities.hoursInput p) = Some n
          ∧ 0 ≤ n ≤ number_of (MyOpportunities.opportunity reg !! "hours_needed")) →
  let h := default 0 (parseInt (MyOpportunities.hoursInput p)) in
  let result := MyOpportunities.clickSave ss reg r_hours r_total p b in
  result.2 ≠ MyOpportunities.SaveNotOffered
  ∧ issued result.1.1 !! List.length (issued b)
    = Some (Update VolunteerRegistrations
              {[ "hours_completed" := VNum h;
                 "status" := VStr (if 0 <? h then "completed" else "registered") ]}
              [("id", VStr rid)])
  ∧ (parseInt (MyOpportunities.hoursInput p) = None →
     h = 0 ∧ (if 0 <? h then "completed" else "registered") = "registered"%string).
Proof.
  intros Hid Hoff _ h result. subst result.
  rewrite (clickSave_offered _ _ rid) by done.
  split; [apply updateHoursCompleted_not_refused|].
  split; [apply updateHoursCompleted_first_request|].
  intros Hnan. subst h. by rewrite Hnan.
Qed.

(** On the sample page: the text "4" for an opportunity that needs 5
    hours; the store applies the update and refuses the total. *)
Lemma save_sends_hours_as_read_witness :
  let reg := {| MyOpportunities.own := Sample.registration;
                MyOpportunities.opportunity := Sample.food_drive |} in
  let p := MyOpportunities.setHoursInput "4"
             (MyOpportunities.clickLogHours reg
                (MyOpportunities.fetchUserOpportunities Sample.student
                   Sample.store MyOpportunities.initial)) in
  let h := default 0 (parseInt (MyOpportunities.hoursInput p)) in
  let result := MyOpportunities.clickSave Sample.student reg (Ok "") Err p
                  Sample.backend in
  result.2 ≠ MyOpportunities.SaveNotOffered
  ∧ issued result.1.1 !! List.length (issued Sample.backend)
    = Some (Update VolunteerRegistrations
              {[ "hours_completed" := VNum h;
                 "status" := VStr (if 0 <? h then "completed" else "registered") ]}
              [("id", VStr "r1")])
  ∧ (parseInt (MyOpportunities.hoursInput p) = None →
     h = 0 ∧ (if 0 <? h then "completed" else "registered") = "registered"%string).
Proof.
  intros reg p.
  apply (save_sends_hours_as_read Sample.student reg "r1" (Ok "") Err p
           Sample.backend).
  - reflexivity.
  - reflexivity.
  - right. exists 4. split; [reflexivity | vm_compute; split; discriminate].
Defined.

(** ** Registering for an opportunity *)

Section Registering.

Import OpportunityDetail.

Implicit Types (ss : Session) (p : Page) (b : Backend) (r : row)
  (o : Opportunity).

Lemma filter_singleton_elem (f : row → bool) (l : list row) r data :
  List.filter f l = [data] → In r l → f r = true → r = data.
Proof.
  intros Hsel Hin Hf.
  assert (Hr : In r (List.filter f l)) by (apply filter_In; done).
  rewrite Hsel in Hr. by destruct Hr as [->|[]].
Qed.

Lemma single_Some (l : list row) data : single l = Some data → l = [data].
Proof. destruct l as [|x [|y l]]; cbn; congruence. Qed.

Lemma filter_map_comm (f : row → bool) (g : row → row) (l : list row) :
  (∀ r, f (g r) = f r) →
  List.filter f (map g l) = map g (List.filter f l).
Proof.
  intros Hfg. induction l as [|x l IH]; [done|].
  cbn. rewrite Hfg. destruct (f x); cbn; by rewrite IH.
Qed.

(** What the page's copy says about the stored row it was made from. *)
Lemma up_to_date_copy ss s p o :
  Ledger.up_to_date ss s p → opportunity p = Some o →
  ∃ data,
    select Opportunities [("id", VStr (route_id p))] s = [data]
    ∧ o = transformedData data.
Proof.
  intros [Hopp _] Ho. rewrite Ho in Hopp.
  unfold mount, checkUserStatus in Hopp.
  assert (Hfetch : Some o = opportunity (fetchOpportunity s (initial (route_id p)))).
  { by destruct (user ss). }
  unfold fetchOpportunity in Hfetch. cbn [route_id initial] in Hfetch.
  destruct (single _) as [data|] eqn:Hsingle; [|done].
  exists data. split; [by apply single_Some|].
  cbn in Hfetch. congruence.
Qed.

(** The handler, reply by reply, for a signed-in student. *)
Lemma registerForOpportunity_student ss uid now r_insert r_count p b :
  user ss = Some uid →
  profile_field ss "user_type" = Some (VStr "student") →
  registerForOpportunity ss now r_insert r_count p b
  = let rq1 := Insert VolunteerRegistrations
                 {[ "user_id" := VStr uid;
                    "opportunity_id" := VStr (route_id p);
                    "registered_at" := VStr now;
                    "status" := VStr "registered" ]} in
    let rq2 := Update Opportunities
                 {[ "current_volunteers" := VNum (next_count (opportunity p)) ]}
                 [("id", VStr (route_id p))] in
    match r_insert with
    | Err => ((send rq1 Err b).1, p, AlertFailedToRegister)
    | Ok gen =>
        ((send rq2 r_count (send rq1 (Ok gen) b).1).1,
         match opportunity p with
         | Some o =>
             setOpportunity
               (Some (set_current_volunteers (current_volunteers o + 1) o))
               (setIsRegistered true p)
         | None => setIsRegistered true p
         end,
         Registered)
    end.
Proof.
  intros Huser Htype. unfold registerForOpportunity, is_str.
  rewrite Huser, Htype. rewrite bool_decide_eq_true_2 by done.
  cbn [negb]. destruct r_insert as [gen|].
  - rewrite send_Ok. cbn [fst snd]. by destruct (send _ r_count _).
  - by rewrite send_Err.
Qed.

(** A click that registers came from an enabled button, pressed by a
    signed-in student, and the store accepted the insert. *)
Lemma clickRegister_Registered ss now r_insert r_count p b :
  (clickRegister ss now r_insert r_count p b).2 = Registered →
  ∃ uid o gen,
    user ss = Some uid
    ∧ profile_field ss "user_type" = Some (VStr "student")
    ∧ isRegistered p = false
    ∧ opportunity p = Some o
    ∧ current_volunteers o < max_volunteers o
    ∧ r_insert = Ok gen
    ∧ clickRegister ss now r_insert r_count p b
      = registerForOpportunity ss now r_insert r_count p b.
Proof.
  unfold clickRegister, getInvolved.
  destruct (opportunity p) as [o|] eqn:Ho; [|done].
  destruct (isRegistered p) eqn:Hreg; [done|].
  destruct (max_volunteers o <=? current_volunteers o) eqn:Hfull; [done|].
  apply Z.leb_gt in Hfull.
  unfold registerForOpportunity.
  destruct (user ss) as [uid|] eqn:Huser; [|done].
  unfold is_str.
  destruct (bool_decide _) eqn:Htype; cbn [negb]; [|done].
  apply bool_decide_eq_true_1 in Htype.
  destruct r_insert as [gen|].
  - intros _. exists uid, o, gen. by repeat split.
  - by rewrite send_Err.
Qed.

End Registering.

Section Capacity.

Import OpportunityDetail.

Implicit Types (ss : Session) (p : Page) (b : Backend) (r : row)
  (o : Opportunity).

(** The [opportunities] table after a click: untouched, or rewritten by
    the count update, which only an enabled button can send. *)
Lemma clickRegister_opportunities ss now r_insert r_count p b :
  opportunities (db (clickRegister ss now r_insert r_count p b).1.1)
  = opportunities (db b)
  ∨ ∃ o,
      opportunity p = Some o
      ∧ current_volunteers o < max_volunteers o
      ∧ opportunities (db (clickRegister ss now r_insert r_count p b).1.1)
        = map (fun r =>
                 if bool_decide (r !! "id" = Some (VStr (route_id p)))
                 then {[ "current_volunteers" :=
                           VNum (current_volunteers o + 1) ]} ∪ r
                 else r)
              (opportunities (db b)).
Proof.
  destruct ((clickRegister ss now r_insert r_count p b).2) eqn:Hout;
    try (left;
         revert Hout; unfold clickRegister, getInvolved, registerForOpportunity;
         repeat (case_match; try done);
         simplify_eq; cbn [fst snd db]; intros; try done;
         match goal with
         | H : send _ ?rp _ = _ |- _ =>
             destruct rp; [rewrite send_Ok in H | rewrite send_Err in H];
             by simplify_eq
         end).
  destruct (clickRegister_Registered _ _ _ _ _ _ Hout)
    as (uid & o & gen & Huser & Htype & Hreg & Ho & Hlt & -> & ->).
  rewrite (registerForOpportunity_student _ uid) by done.
  cbn zeta. cbn [fst snd].
  change (opportunities ?s) with (rows Opportunities s).
  destruct r_count as [gen2|].
  - right. exists o. split; [done|]. split; [done|].
    rewrite send_Ok. cbn [fst db]. rewrite apply_update_rows.
    rewrite send_other_table by done.
    rewrite Ho. cbn [next_count].
    apply map_ext. intros r. by rewrite matches_eq_str.
  - left. rewrite send_Err. cbn [fst db]. by rewrite send_other_table.
Qed.

Lemma capacity_ok_spec r :
  Ledger.capacity_ok r = true ↔
  ∃ c m, r !! "current_volunteers" = Some (VNum c)
         ∧ r !! "max_volunteers" = Some (VNum m) ∧ 0 ≤ c ≤ m.
Proof.
  unfold Ledger.capacity_ok. split.
  - repeat case_match; try done.
    intros [?%Z.leb_le ?%Z.leb_le]%andb_true_iff. eexists _, _.
    split; [done|]. split; [done|]. lia.
  - intros (c & m & -> & -> & Hc).
    apply andb_true_iff. split; apply Z.leb_le; lia.
Qed.

(** The count stays within capacity even when the page's copy is old,
    provided the copy's count is not negative and the stored
    [max_volunteers] has not dropped below the copy's: the value written is
    the copy's count plus one, and the button was enabled for it. *)
Lemma clickRegister_keeps_capacity ss now r_insert r_count p b :
  (∀ o r,
     opportunity p = Some o →
     In r (opportunities (db b)) →
     r !! "id" = Some (VStr (route_id p)) →
     0 ≤ current_volunteers o
     ∧ ∃ m, r !! "max_volunteers" = Some (VNum m) ∧ max_volunteers o ≤ m) →
  Forall (fun r => Ledger.capacity_ok r = true) (opportunities (db b)) →
  Forall (fun r => Ledger.capacity_ok r = true)
    (opportunities (db (clickRegister ss now r_insert r_count p b).1.1)).
Proof.
  intros Hcopy Hinv.
  destruct (clickRegister_opportunities ss now r_insert r_count p b)
    as [-> | (o & Ho & Hlt & ->)]; [done|].
  rewrite Forall_forall in Hinv. apply Forall_forall.
  intros r' (r & -> & Hin)%list_elem_of_fmap.
  case_bool_decide as Hid; [|by apply Hinv].
  destruct (Hcopy o r Ho) as (Hpos & m & Hm & Hle);
    [by apply list_elem_of_In | done |].
  apply capacity_ok_spec. exists (current_volunteers o + 1), m.
  split; [by apply updated_field|].
  split; [by rewrite untouched_field|]. lia.
Qed.

End Capacity.

(** C3 as stated fails.  The student opened the page of the Food Drive when
    one of its two places was taken; the owner has since brought it down to
    one place, so that the stored opportunity is full and within its
    bounds.  The page still shows one of two, its button is enabled, and
    the click writes the page's count plus one: the stored count is 2 with
    a maximum of 1. *)
Lemma registration_from_old_page_exceeds_capacity :
  let p := OpportunityDetail.mount Sample.student Sample.store_unregistered
             "o1" in
  let result := OpportunityDetail.clickRegister Sample.student "2025-01-01"
                  (Ok "r9") (Ok "") p Sample.backend_lowered in
  forallb Ledger.capacity_ok (opportunities (db Sample.backend_lowered))
  = true
  ∧ (single (select Opportunities [("id", VStr "o1")]
               (db Sample.backend_lowered))
       ≫= (fun r => r !! "max_volunteers")) = Some (VNum 1)
  ∧ Ledger.stored_count "o1" (db Sample.backend_lowered) = Some (VNum 1)
  ∧ result.2 = OpportunityDetail.Registered
  ∧ Ledger.stored_count "o1" (db result.1.1) = Some (VNum 2)
  ∧ (single (select Opportunities [("id", VStr "o1")] (db result.1.1))
       ≫= (fun r => r !! "max_volunteers")) = Some (VNum 1)
  ∧ forallb Ledger.capacity_ok (opportunities (db result.1.1)) = false.
Proof. vm_compute. repeat split; reflexivity. Qed.

(** C3, amended.  On a page that shows the opportunity as the store holds
    it, a Create Registration keeps
    [0 ≤ current_volunteers ≤ max_volunteers] on every opportunity,
    whatever the store answers to the two writes; and against an
    opportunity whose count has reached [max_volunteers] the Register
    button is disabled, so that nothing is sent and nothing changes. *)
Theorem registration_keeps_capacity
    (ss : Session) (now : string) (r_insert r_count : reply)
    (p : OpportunityDetail.Page) (b : Backend) :
  Ledger.up_to_date ss (db b) p →
  Forall (fun r => Ledger.capacity_ok r = true) (opportunities (db b)) →
  Forall (fun r => Ledger.capacity_ok r = true)
    (opportunities
       (db (OpportunityDetail.clickRegister ss now r_insert r_count p b).1.1))
  ∧ ∀ data c,
      select Opportunities [("id", VStr (OpportunityDetail.route_id p))] (db b)
      = [data] →
      data !! "current_volunteers" = Some (VNum c) →
      data !! "max_volunteers" = Some (VNum c) →
      OpportunityDetail.clickRegister ss now r_insert r_count p b
      = (b, p, OpportunityDetail.NotOffered).
Proof.
  intros Hfresh Hinv. split.
  - apply clickRegister_keeps_capacity; [|done].
    intros o r Ho Hin Hid.
    destruct (up_to_date_copy _ _ _ _ Hfresh Ho) as (data & Hsel & ->).
    assert (r = data) as ->.
    { eapply filter_singleton_elem; [exact Hsel | done |].
      by rewrite matches_eq_str, bool_decide_eq_true_2. }
    rewrite Forall_forall in Hinv.
    destruct (proj1 (capacity_ok_spec data)) as (c & m & Hc & Hm & Hcm).
    { by apply Hinv, list_elem_of_In. }
    cbn. unfold number_of. rewrite Hc, Hm. cbn.
    split; [lia|]. by exists m.
  - intros data c Hsel Hc Hm.
    unfold OpportunityDetail.clickRegister, OpportunityDetail.getInvolved.
    destruct (OpportunityDetail.opportunity p) as [o|] eqn:Ho; [|done].
    destruct (up_to_date_copy _ _ _ _ Hfresh Ho) as (data' & Hsel' & ->).
    assert (data' = data) as -> by congruence.
    destruct (OpportunityDetail.isRegistered p); [done|].
    cbn. unfold number_of. rewrite Hc, Hm. cbn.
    by rewrite Z.leb_refl.
Qed.

(** On the sample store the student takes the second of the two places
    of the Food Drive; on the store where both are taken the page offers
    nothing. *)
Lemma registration_keeps_capacity_witness :
  Forall (fun r => Ledger.capacity_ok r = true)
    (opportunities
       (db (OpportunityDetail.clickRegister Sample.student "2025-01-01"
              (Ok "r9") (Ok "")
              (OpportunityDetail.mount Sample.student
                 Sample.store_unregistered "o1")
              Sample.backend_unregistered).1.1))
  ∧ OpportunityDetail.clickRegister Sample.student "2025-01-01"
      (Ok "r9") (Ok "")
      (OpportunityDetail.mount Sample.student Sample.store_full "o1")
      Sample.backend_full
    = (Sample.backend_full,
       OpportunityDetail.mount Sample.student Sample.store_full "o1",
       OpportunityDetail.NotOffered).
Proof.
  split.
  - apply (registration_keeps_capacity Sample.student "2025-01-01" (Ok "r9")
             (Ok "")
             (OpportunityDetail.mount Sample.student Sample.store_unregistered
                "o1")
             Sample.backend_unregistered).
    + split; reflexivity.
    + repeat constructor.
  - apply (registration_keeps_capacity Sample.student "2025-01-01" (Ok "r9")
             (Ok "")
             (OpportunityDetail.mount Sample.student Sample.store_full "o1")
             Sample.backend_full)
      with (data := <[ "current_volunteers" := VNum 2 ]> Sample.food_drive)
           (c := 2).
    + split; reflexivity.
    + repeat constructor.
    + reflexivity.
    + reflexivity.
    + reflexivity.
Defined.

Section RegistrationWrites.

Import OpportunityDetail.

Implicit Types (ss : Session) (p : Page) (b : Backend) (r : row).

(** Unless the click registers, the tables stay as they are. *)
Lemma clickRegister_no_change ss now r_insert r_count p b :
  (clickRegister ss now r_insert r_count p b).2 ≠ Registered →
  db (clickRegister ss now r_insert r_count p b).1.1 = db b.
Proof.
  unfold clickRegister, getInvolved, registerForOpportunity.
  repeat (case_match; try done); simplify_eq; cbn [fst snd]; try done.
  all: match goal with
       | H : send _ ?rp _ = _ |- _ =>
           destruct rp; [rewrite send_Ok in H | rewrite send_Err in H];
           by simplify_eq
       end.
Qed.

(** The count update leaves the [id] column alone, so it selects and
    rewrites the same rows. *)
Lemma select_after_count_update id n gen (s : Store) :
  select Opportunities [("id", VStr id)]
    (apply (Update Opportunities {[ "current_volunteers" := VNum n ]}
              [("id", VStr id)]) gen s)
  = map (fun r => {[ "current_volunteers" := VNum n ]} ∪ r)
        (select Opportunities [("id", VStr id)] s).
Proof.
  unfold select. rewrite apply_update_rows.
  induction (rows Opportunities s) as [|r l IH]; [done|].
  cbn [map List.filter].
  destruct (matches [("id", VStr id)] r) eqn:Hm.
  - assert (matches [("id", VStr id)]
              ({[ "current_volunteers" := VNum n ]} ∪ r) = true) as ->.
    { rewrite matches_eq_str in *. apply bool_decide_eq_true_1 in Hm.
      apply bool_decide_eq_true_2. by rewrite untouched_field. }
    cbn [map]. by rewrite IH.
  - rewrite Hm. exact IH.
Qed.

End RegistrationWrites.

(** With both places of the Food Drive taken the button is disabled: a
    click sends nothing. *)
Example full_opportunity_is_not_offered :
  let full := {| profiles := profiles Sample.store;
                 opportunities :=
                   [<[ "current_volunteers" := VNum 2 ]> Sample.food_drive];
                 volunteer_registrations := [] |} in
  let p := OpportunityDetail.mount Sample.student full "o1" in
  OpportunityDetail.getInvolved p
  = Some (OpportunityDetail.RegisterButton true)
  ∧ OpportunityDetail.clickRegister Sample.student "2025-01-01" (Ok "r9")
      (Ok "") p {| db := full; issued := [] |}
    = ({| db := full; issued := [] |}, p, OpportunityDetail.NotOffered).
Proof. vm_compute. split; reflexivity. Qed.

(** C2 as stated fails.  The student registers for the Food Drive (1 of 2
    places taken); the store applies the insert and refuses the update of
    the count.  The page reports a registration, the Registration is in the
    store, and [current_volunteers] is still 1. *)
Lemma registration_can_leave_count_behind :
  let p := OpportunityDetail.mount Sample.student Sample.store_unregistered
             "o1" in
  let result := OpportunityDetail.clickRegister Sample.student "2025-01-01"
                  (Ok "r9") Err p Sample.backend_unregistered in
  result.2 = OpportunityDetail.Registered
  ∧ select VolunteerRegistrations
      [("user_id", VStr "u1"); ("opportunity_id", VStr "o1")]
      Sample.store_unregistered = []
  ∧ List.length
      (select VolunteerRegistrations
         [("user_id", VStr "u1"); ("opportunity_id", VStr "o1")]
         (db result.1.1)) = 1%nat
  ∧ Ledger.stored_count "o1" Sample.store_unregistered = Some (VNum 1)
  ∧ Ledger.stored_count "o1" (db result.1.1) = Some (VNum 1).
Proof. vm_compute. repeat split; reflexivity. Qed.

(** C2, amended.  Create Registration sends two separate writes, the insert
    of the Registration and then the update of the count.  On a page that
    shows the opportunity as the store holds it, with stored count [c]:
    when the call does not report a registration (in particular when the
    store refuses the insert) no table has changed; when it does, the
    Registration has been added, and [current_volunteers] is [c + 1] if the
    store applied the second write and still [c] if it refused it. *)
Theorem registration_writes
    (ss : Session) (now : string) (r_insert r_count : reply)
    (p : OpportunityDetail.Page) (b : Backend) (c : Z) :
  Ledger.up_to_date ss (db b) p →
  Ledger.stored_count (OpportunityDetail.route_id p) (db b) = Some (VNum c) →
  let result := OpportunityDetail.clickRegister ss now r_insert r_count p b in
  (result.2 ≠ OpportunityDetail.Registered → db result.1.1 = db b)
  ∧ (result.2 = OpportunityDetail.Registered →
     ∃ uid gen,
       user ss = Some uid ∧ r_insert = Ok gen
       ∧ profiles (db result.1.1) = profiles (db b)
       ∧ volunteer_registrations (db result.1.1)
         = volunteer_registrations (db b)
           ++ [ {[ "user_id" := VStr uid;
                   "opportunity_id" := VStr (OpportunityDetail.route_id p);
                   "registered_at" := VStr now;
                   "status" := VStr "registered" ]}
                ∪ ({[ "id" := VStr gen ]} ∪ defaults VolunteerRegistrations) ]
       ∧ Ledger.stored_count (OpportunityDetail.route_id p) (db result.1.1)
         = Some (VNum (match r_count with Ok _ => c + 1 | Err => c end))).
Proof.
  intros Hfresh Hcount result. subst result.
  split; [apply clickRegister_no_change|].
  intros Hout.
  destruct (clickRegister_Registered _ _ _ _ _ _ Hout)
    as (uid & o & gen & Huser & Htype & Hreg & Ho & Hlt & -> & ->).
  exists uid, gen. split; [done|]. split; [done|].
  rewrite (registerForOpportunity_student _ uid) by done.
  cbn zeta. cbn [fst snd].
  destruct (up_to_date_copy _ _ _ _ Hfresh Ho) as (data & Hsel & ->).
  unfold Ledger.stored_count in Hcount. rewrite Hsel in Hcount.
  cbn in Hcount.
  split; [|split].
  - change (profiles ?s) with (rows Profiles s).
    by rewrite !send_other_table.
  - change (volunteer_registrations ?s) with (rows VolunteerRegistrations s).
    rewrite send_other_table by done.
    rewrite send_Ok. cbn [fst db]. by rewrite apply_insert_rows.
  - unfold Ledger.stored_count. destruct r_count as [gen2|].
    + rewrite send_Ok. cbn [fst db].
      rewrite select_after_count_update.
      assert (select Opportunities
                [("id", VStr (OpportunityDetail.route_id p))]
                (db (send
                       (Insert VolunteerRegistrations
                          {[ "user_id" := VStr uid;
                             "opportunity_id" :=
                               VStr (OpportunityDetail.route_id p);
                             "registered_at" := VStr now;
                             "status" := VStr "registered" ]})
                       (Ok gen) b).1) = [data]) as ->.
      { unfold select in *. by rewrite send_other_table. }
      cbn. rewrite Ho. cbn. unfold number_of. rewrite Hcount. cbn.
      by rewrite lookup_union_l'.
    + rewrite send_Err. cbn [fst db].
      assert (select Opportunities
                [("id", VStr (OpportunityDetail.route_id p))]
                (db (send
                       (Insert VolunteerRegistrations
                          {[ "user_id" := VStr uid;
                             "opportunity_id" :=
                               VStr (OpportunityDetail.route_id p);
                             "registered_at" := VStr now;
                             "status" := VStr "registered" ]})
                       (Ok gen) b).1) = [data]) as ->.
      { unfold select in *. by rewrite send_other_table. }
      done.
Qed.

(** On the sample store, with both writes applied: the count goes from 1
    to 2. *)
Lemma registration_writes_witness :
  let p := OpportunityDetail.mount Sample.student Sample.store_unregistered
             "o1" in
  let result := OpportunityDetail.clickRegister Sample.student "2025-01-01"
                  (Ok "r9") (Ok "") p Sample.backend_unregistered in
  (result.2 ≠ OpportunityDetail.Registered →
   db result.1.1 = db Sample.backend_unregistered)
  ∧ (result.2 = OpportunityDetail.Registered →
     ∃ uid gen,
       user Sample.student = Some uid ∧ Ok "r9" = Ok gen
       ∧ profiles (db result.1.1) = profiles (db Sample.backend_unregistered)
       ∧ volunteer_registrations (db result.1.1)
         = volunteer_registrations (db Sample.backend_unregistered)
           ++ [ {[ "user_id" := VStr uid;
                   "opportunity_id" := VStr (OpportunityDetail.route_id p);
                   "registered_at" := VStr "2025-01-01";
                   "status" := VStr "registered" ]}
                ∪ ({[ "id" := VStr gen ]} ∪ defaults VolunteerRegistrations) ]
       ∧ Ledger.stored_count (OpportunityDetail.route_id p) (db result.1.1)
         = Some (VNum (1 + 1))).
Proof.
  intros p.
  apply (registration_writes Sample.student "2025-01-01" (Ok "r9") (Ok "") p
           Sample.backend_unregistered 1).
  - split; reflexivity.
  - reflexivity.
Defined.

(** C4 as stated fails.  The only opportunity of the store is inactive; a
    student who has no Registration for it opens its page and registers,
    and the registration succeeds. *)
Lemma registration_ignores_status :
  let p := OpportunityDetail.mount Sample.student Sample.store_inactive "o1" in
  let result := OpportunityDetail.clickRegister Sample.student "2025-01-01"
                  (Ok "r9") (Ok "") p Sample.backend_inactive in
  (single (select Opportunities [("id", VStr "o1")] Sample.store_inactive)
     ≫= (fun r => r !! "status")) = Some (VStr "inactive")
  ∧ result.2 = OpportunityDetail.Registered
  ∧ List.length (volunteer_registrations (db result.1.1)) = 1%nat.
Proof. vm_compute. repeat split; reflexivity. Qed.

Section Uniqueness.

Import OpportunityDetail.

Implicit Types (ss : Session) (p : Page) (b : Backend) (r : row).

(** The registration that the page inserts is one for its pair. *)
Lemma inserted_registration_matches uid id now (rest : row) :
  matches [("user_id", VStr uid); ("opportunity_id", VStr id)]
    ({[ "user_id" := VStr uid; "opportunity_id" := VStr id;
        "registered_at" := VStr now; "status" := VStr "registered" ]}
     ∪ rest) = true.
Proof.
  unfold matches. cbn [forallb fst snd].
  rewrite !bool_decide_eq_true_2; [done| |];
    (split; [done|]); by apply updated_field.
Qed.

(** The registrations of the pair after a click that registered: those
    there were, and the new one. *)
Lemma registrations_after_click ss uid now gen r_count p b :
  user ss = Some uid →
  profile_field ss "user_type" = Some (VStr "student") →
  ∃ new,
    Ledger.registrations_of uid (route_id p)
      (db (registerForOpportunity ss now (Ok gen) r_count p b).1.1)
    = Ledger.registrations_of uid (route_id p) (db b) ++ [new].
Proof.
  intros Huser Htype.
  rewrite (registerForOpportunity_student _ uid) by done.
  cbn zeta. cbn [fst snd].
  eexists. unfold Ledger.registrations_of, select.
  rewrite send_other_table by done.
  rewrite send_Ok. cbn [fst db]. rewrite apply_insert_rows.
  rewrite List.filter_app. f_equal. cbn [List.filter].
  by rewrite inserted_registration_matches.
Qed.

(** On a store that enforces the uniqueness of the pair, a click of a
    student whose pair is taken registers nothing, from whatever page it
    comes. *)
Lemma clickRegister_refused ss uid now r_insert r_count p b :
  user ss = Some uid →
  profile_field ss "user_type" = Some (VStr "student") →
  Ledger.registrations_of uid (route_id p) (db b) ≠ [] →
  Ledger.unique_enforced uid (route_id p) (db b) r_insert →
  ((clickRegister ss now r_insert r_count p b).2 = NotOffered
   ∨ (clickRegister ss now r_insert r_count p b).2 = AlertFailedToRegister)
  ∧ db (clickRegister ss now r_insert r_count p b).1.1 = db b.
Proof.
  intros Huser Htype Htaken Hunique.
  rewrite (Hunique Htaken).
  unfold clickRegister.
  destruct (getInvolved p) as [[|[|]]|]; try (split; [by left | done]).
  rewrite (registerForOpportunity_student _ uid) by done.
  cbn zeta match. rewrite send_Err. cbn [fst snd db].
  split; [by right | done].
Qed.

End Uniqueness.

(** C4, amended.  On a store that enforces the schema's
    [UNIQUE(user_id, opportunity_id)] on the registrations, Create
    Registration from the opportunity page succeeds only when the actor is
    signed in as a student, no Registration exists for the pair of the
    actor and the opportunity, and the opportunity has
    [current_volunteers < max_volunteers] on the page, which is the stored
    row when the page shows the store; the status of the opportunity is not
    looked at.  After a success the store holds exactly one Registration
    for the pair, and a second Create Registration for the pair never
    succeeds: the page that made the first offers none (a click sends
    nothing), and from any other page of the opportunity the attempt is
    not offered or ends in the failure alert, the store unchanged. *)
Theorem registration_conditions
    (ss : Session) (now : string) (r_insert r_count : reply)
    (p : OpportunityDetail.Page) (b : Backend) :
  (∀ uid, user ss = Some uid →
          Ledger.unique_enforced uid (OpportunityDetail.route_id p) (db b)
            r_insert) →
  let result := OpportunityDetail.clickRegister ss now r_insert r_count p b in
  result.2 = OpportunityDetail.Registered →
  ∃ uid,
    user ss = Some uid
    ∧ profile_field ss "user_type" = Some (VStr "student")
    ∧ Ledger.registrations_of uid (OpportunityDetail.route_id p) (db b) = []
    ∧ OpportunityDetail.isRegistered p = false
    ∧ (∃ o, OpportunityDetail.opportunity p = Some o
            ∧ OpportunityDetail.current_volunteers o
              < OpportunityDetail.max_volunteers o)
    ∧ (Ledger.up_to_date ss (db b) p →
       ∃ data,
         select Opportunities [("id", VStr (OpportunityDetail.route_id p))]
           (db b) = [data]
         ∧ number_of (data !! "current_volunteers")
           < number_of (data !! "max_volunteers"))
    ∧ (∃ gen, r_insert = Ok gen)
    ∧ List.length
        (Ledger.registrations_of uid (OpportunityDetail.route_id p)
           (db result.1.1)) = 1%nat
    ∧ OpportunityDetail.isRegistered result.1.2 = true
    ∧ (∀ ss' now' r1 r2 b',
         OpportunityDetail.clickRegister ss' now' r1 r2 result.1.2 b'
         = (b', result.1.2, OpportunityDetail.NotOffered))
    ∧ (∀ now' r1 r2 p',
         OpportunityDetail.route_id p' = OpportunityDetail.route_id p →
         Ledger.unique_enforced uid (OpportunityDetail.route_id p)
           (db result.1.1) r1 →
         let second :=
           OpportunityDetail.clickRegister ss now' r1 r2 p' result.1.1 in
         (second.2 = OpportunityDetail.NotOffered
          ∨ second.2 = OpportunityDetail.AlertFailedToRegister)
         ∧ db second.1.1 = db result.1.1).
Proof.
  intros Hunique result Hout. subst result.
  destruct (clickRegister_Registered _ _ _ _ _ _ Hout)
    as (uid & o & gen & Huser & Htype & Hreg & Ho & Hlt & -> & Hclick).
  rewrite Hclick.
  assert (Hfree : Ledger.registrations_of uid (OpportunityDetail.route_id p)
                    (db b) = []).
  { destruct (Ledger.registrations_of uid (OpportunityDetail.route_id p)
                (db b)) as [|x l] eqn:Hsel; [done|].
    specialize (Hunique uid Huser). unfold Ledger.unique_enforced in Hunique.
    rewrite Hsel in Hunique. by discriminate Hunique. }
  destruct (registrations_after_click ss uid now gen r_count p b Huser Htype)
    as (new & Hafter).
  rewrite Hfree in Hafter. cbn [app] in Hafter.
  exists uid.
  split; [done|]. split; [done|]. split; [done|]. split; [done|].
  split; [by exists o|]. split; [|split; [by exists gen|]].
  - intros Hfresh.
    destruct (up_to_date_copy _ _ _ _ Hfresh Ho) as (data & Hsel & ->).
    by exists data.
  - split; [by rewrite Hafter|]. split; [|split].
    + rewrite (registerForOpportunity_student _ uid) by done.
      cbn zeta. cbn [fst snd]. by rewrite Ho.
    + intros ss' now' r1 r2 b'.
      rewrite (registerForOpportunity_student _ uid) by done.
      cbn zeta. cbn [fst snd]. by rewrite Ho.
    + intros now' r1 r2 p' Hroute Hunique' second. subst second.
      rewrite <- Hroute in Hafter, Hunique'.
      apply (clickRegister_refused ss uid); [done | done | | done].
      by rewrite Hafter.
Qed.

(** On the sample store: the student, who has no registration for the Food
    Drive, registers once; any further attempt is turned down. *)
Lemma registration_conditions_witness :
  let p := OpportunityDetail.mount Sample.student Sample.store_unregistered
             "o1" in
  let b := Sample.backend_unregistered in
  let result := OpportunityDetail.clickRegister Sample.student "2025-01-01"
                  (Ok "r9") (Ok "") p b in
  ∃ uid,
    user Sample.student = Some uid
    ∧ profile_field Sample.student "user_type" = Some (VStr "student")
    ∧ Ledger.registrations_of uid (OpportunityDetail.route_id p) (db b) = []
    ∧ OpportunityDetail.isRegistered p = false
    ∧ (∃ o, OpportunityDetail.opportunity p = Some o
            ∧ OpportunityDetail.current_volunteers o
              < OpportunityDetail.max_volunteers o)
    ∧ (Ledger.up_to_date Sample.student (db b) p →
       ∃ data,
         select Opportunities [("id", VStr (OpportunityDetail.route_id p))]
           (db b) = [data]
         ∧ number_of (data !! "current_volunteers")
           < number_of (data !! "max_volunteers"))
    ∧ (∃ gen, Ok "r9" = Ok gen)
    ∧ List.length
        (Ledger.registrations_of uid (OpportunityDetail.route_id p)
           (db result.1.1)) = 1%nat
    ∧ OpportunityDetail.isRegistered result.1.2 = true
    ∧ (∀ ss' now' r1 r2 b',
         OpportunityDetail.clickRegister ss' now' r1 r2 result.1.2 b'
         = (b', result.1.2, OpportunityDetail.NotOffered))
    ∧ (∀ now' r1 r2 p',
         OpportunityDetail.route_id p' = OpportunityDetail.route_id p →
         Ledger.unique_enforced uid (OpportunityDetail.route_id p)
           (db result.1.1) r1 →
         let second :=
           OpportunityDetail.clickRegister Sample.student now' r1 r2 p'
             result.1.1 in
         (second.2 = OpportunityDetail.NotOffered
          ∨ second.2 = OpportunityDetail.AlertFailedToRegister)
         ∧ db second.1.1 = db result.1.1).
Proof.
  intros p b.
  apply (registration_conditions Sample.student "2025-01-01" (Ok "r9") (Ok "")
           p b).
  - intros uid [= <-] Htaken. exfalso. apply Htaken. reflexivity.
  - reflexivity.
Defined.

(** The second attempt from another page.  The student has the page of the
    Food Drive open twice and registers on the first; the second still
    offers the Register button, and its click is turned down by the store:
    the failure alert, and no second Registration. *)
Example second_registration_from_another_page :
  let p := OpportunityDetail.mount Sample.student Sample.store_unregistered
             "o1" in
  let first := OpportunityDetail.clickRegister Sample.student "2025-01-01"
                 (Ok "r9") (Ok "") p Sample.backend_unregistered in
  let second := OpportunityDetail.clickRegister Sample.student "2025-01-02"
                  Err (Ok "") p first.1.1 in
  first.2 = OpportunityDetail.Registered
  ∧ OpportunityDetail.getInvolved p
    = Some (OpportunityDetail.RegisterButton false)
  ∧ second.2 = OpportunityDetail.AlertFailedToRegister
  ∧ db second.1.1 = db first.1.1
  ∧ List.length (Ledger.registrations_of "u1" "o1" (db second.1.1)) = 1%nat.
Proof. vm_compute. repeat split; reflexivity. Qed.

(** ** The organization dashboard *)

Section Dashboard.

Import ForOrganizations.

Implicit Types (ss : Session) (p : Page) (b : Backend) (r : reply)
  (fetch_error : bool).

(** The four fields written after the spread are in every payload,
    whatever the form holds. *)
Lemma opportunityData_organization_id uid now form :
  opportunityData uid now form !! "organization_id" = Some (VStr uid).
Proof. by apply updated_field. Qed.

Lemma opportunityData_status uid now form :
  opportunityData uid now form !! "status" = Some (VStr "active").
Proof. by apply updated_field. Qed.

Lemma opportunityData_current_volunteers uid now form :
  opportunityData uid now form !! "current_volunteers" = Some (VNum 0).
Proof. by apply updated_field. Qed.

(** A save that succeeds passed both gates and was applied by the
    store. *)
Lemma handleSubmit_Saved ss now r fetch_error p b :
  (handleSubmit ss now r fetch_error p b).2 = Saved →
  ∃ uid gen,
    user ss = Some uid
    ∧ profile_field ss "user_type" = Some (VStr "organization")
    ∧ truthy (profile_field ss "verified") = true
    ∧ r = Ok gen
    ∧ (handleSubmit ss now r fetch_error p b).1.1
      = (send (save_request uid now p) (Ok gen) b).1.
Proof.
  unfold handleSubmit.
  destruct (user ss) as [uid|]; [|done].
  unfold is_str. case_bool_decide as Htype; cbn [negb]; [|done].
  destruct (truthy _) eqn:Hverified; cbn [negb]; [|done].
  destruct r as [gen|]; [|by rewrite send_Err].
  rewrite send_Ok. cbn [fst snd]. intros _. by exists uid, gen.
Qed.

(** A verified organization's save goes through when the store applies
    it. *)
Lemma handleSubmit_verified ss uid now gen fetch_error p b :
  user ss = Some uid →
  profile_field ss "user_type" = Some (VStr "organization") →
  truthy (profile_field ss "verified") = true →
  handleSubmit ss now (Ok gen) fetch_error p b
  = ((send (save_request uid now p) (Ok gen) b).1,
     fetchOrganizationOpportunities ss fetch_error
       (db (send (save_request uid now p) (Ok gen) b).1) (resetForm p),
     Saved).
Proof.
  intros Huser Htype Hverified. unfold handleSubmit, is_str.
  rewrite Huser, Htype, Hverified.
  by rewrite bool_decide_eq_true_2.
Qed.

(** An organization that is not verified is stopped before anything is
    sent, on the insert path and on the update path alike. *)
Lemma handleSubmit_unverified ss uid now r fetch_error p b :
  user ss = Some uid →
  profile_field ss "user_type" = Some (VStr "organization") →
  truthy (profile_field ss "verified") = false →
  handleSubmit ss now r fetch_error p b = (b, p, AlertMustBeVerified).
Proof.
  intros Huser Htype Hverified. unfold handleSubmit, is_str.
  rewrite Huser, Htype, Hverified.
  by rewrite bool_decide_eq_true_2.
Qed.

(** The dashboard lists the signed-in user's own opportunities. *)
Lemma listed_opportunity_is_own ss (s : Store) p opportunity :
  In opportunity
    (opportunities (fetchOrganizationOpportunities ss false s p)) →
  ∃ uid, user ss = Some uid
         ∧ opportunity !! "organization_id" = Some (VStr uid)
         ∧ In opportunity (Db.opportunities s).
Proof.
  cbn [opportunities fetchOrganizationOpportunities]. unfold select.
  intros [Hin Hm]%filter_In.
  destruct (user ss) as [uid|]; cbn [from_option] in Hm.
  - exists uid. rewrite matches_eq_str in Hm.
    by apply bool_decide_eq_true_1 in Hm.
  - by rewrite matches_null in Hm.
Qed.

End Dashboard.

(** C6.  Create Opportunity goes through only for a signed-in organization
    whose [verified] flag is set, and the row it creates carries the actor's
    id as [organization_id].  An organization whose flag is not set gets the
    verification alert (the denial for lack of verification) and nothing is
    sent; once the flag has been set from outside, the same form is saved
    when the store applies the insert. *)
Theorem create_opportunity_needs_verification
    (ss : Session) (now : string) (r : reply)
    (p : ForOrganizations.Page) (b : Backend)
    (fetch_error : bool) :
  ForOrganizations.editingOpportunity p = None →
  let created uid gen :=
    ForOrganizations.opportunityData uid now (ForOrganizations.formData p)
    ∪ ({[ "id" := VStr gen ]} ∪ defaults Opportunities) in
  ((ForOrganizations.handleSubmit ss now r
        fetch_error p b).2 = ForOrganizations.Saved →
   ∃ uid gen,
     user ss = Some uid
     ∧ profile_field ss "user_type" = Some (VStr "organization")
     ∧ truthy (profile_field ss "verified") = true
     ∧ r = Ok gen
     ∧ opportunities (db (ForOrganizations.handleSubmit ss now r
           fetch_error p b).1.1)
       = opportunities (db b) ++ [created uid gen]
     ∧ created uid gen !! "organization_id" = Some (VStr uid))
  ∧ ∀ uid profile,
      user ss = Some uid →
      userProfile ss = Some profile →
      profile !! "user_type" = Some (VStr "organization") →
      truthy (profile !! "verified") = false →
      ForOrganizations.handleSubmit ss now r fetch_error p b
      = (b, p, ForOrganizations.AlertMustBeVerified)
      ∧ ∀ gen,
          let verified_ss :=
            {| user := Some uid;
               userProfile := Some (<[ "verified" := VBool true ]> profile) |} in
          (ForOrganizations.handleSubmit verified_ss now (Ok gen)
                fetch_error p b).2
          = ForOrganizations.Saved
          ∧ opportunities
              (db (ForOrganizations.handleSubmit verified_ss now (Ok gen)
                     fetch_error p b).1.1)
            = opportunities (db b) ++ [created uid gen]
          ∧ created uid gen !! "organization_id" = Some (VStr uid)
          ∧ created uid gen !! "current_volunteers" = Some (VNum 0)
          ∧ created uid gen !! "status" = Some (VStr "active").
Proof.
  intros Hnew created.
  assert (Hrequest : ∀ uid gen,
            opportunities
              (db (send (ForOrganizations.save_request uid now p) (Ok gen) b).1)
            = opportunities (db b) ++ [created uid gen]).
  { intros uid gen. unfold ForOrganizations.save_request. rewrite Hnew.
    rewrite send_Ok. cbn [fst db].
    change (opportunities ?s) with (rows Opportunities s).
    by rewrite apply_insert_rows. }
  assert (Howner : ∀ uid gen,
            created uid gen !! "organization_id" = Some (VStr uid)).
  { intros uid gen. apply updated_field, opportunityData_organization_id. }
  split.
  - intros Hsaved.
    destruct (handleSubmit_Saved _ _ _ _ _ _ Hsaved)
      as (uid & gen & Huser & Htype & Hverified & -> & ->).
    exists uid, gen. by rewrite Hrequest.
  - intros uid profile Huser Hprofile Htype Hunverified.
    assert (Hfield : ∀ k, profile_field ss k = profile !! k).
    { intros k. unfold profile_field. by rewrite Hprofile. }
    split.
    + apply (handleSubmit_unverified _ uid); [done|..]; by rewrite Hfield.
    + intros gen verified_ss.
      rewrite (handleSubmit_verified verified_ss uid).
      * cbn [fst snd]. rewrite Hrequest. repeat split; [done|..].
        -- apply updated_field, opportunityData_current_volunteers.
        -- apply updated_field, opportunityData_status.
      * done.
      * unfold profile_field. cbn. by rewrite lookup_insert_ne.
      * unfold profile_field. cbn. by rewrite lookup_insert_eq.
Qed.

(** On the sample store: the organization is stopped while unverified and
    creates the Food Drive once verified. *)
Lemma create_opportunity_needs_verification_witness :
  let p := ForOrganizations.handleInputChange "title" "Food Drive"
             ForOrganizations.initial in
  let created uid gen :=
    ForOrganizations.opportunityData uid "2025-01-01"
      (ForOrganizations.formData p)
    ∪ ({[ "id" := VStr gen ]} ∪ defaults Opportunities) in
  (ForOrganizations.handleSubmit Sample.organization "2025-01-01"
      (Ok "o2") false
     p Sample.backend
   = (Sample.backend, p, ForOrganizations.AlertMustBeVerified))
  ∧ (ForOrganizations.handleSubmit Sample.verified_organization
       "2025-01-01" (Ok "o2") false p Sample.backend).2
    = ForOrganizations.Saved
  ∧ opportunities
      (db (ForOrganizations.handleSubmit Sample.verified_organization
             "2025-01-01" (Ok "o2") false p Sample.backend).1.1)
    = opportunities (db Sample.backend) ++ [created "org1" "o2"]%string.
Proof.
  intros p created.
  destruct (create_opportunity_needs_verification Sample.organization
              "2025-01-01" (Ok "o2") p Sample.backend false eq_refl)
    as [_ Hdenied].
  destruct (Hdenied "org1"%string Sample.organization_profile
              eq_refl eq_refl eq_refl eq_refl)
    as [Halert Hafter].
  destruct (Hafter "o2"%string) as (Hsaved & Hrows & _).
  split; [exact Halert|]. split; [exact Hsaved | exact Hrows].
Defined.

(** The scenario of the specification: the unverified organization is
    stopped, and after the external verification the same form creates the
    opportunity with no volunteers and status 'active'. *)
Example food_drive_scenario :
  let p := ForOrganizations.handleInputChange "max_volunteers" "10"
             (ForOrganizations.handleInputChange "title" "Food Drive"
                ForOrganizations.initial) in
  ForOrganizations.handleSubmit Sample.organization "2025-01-01"
      (Ok "o2") false p
    Sample.backend
  = (Sample.backend, p, ForOrganizations.AlertMustBeVerified)
  ∧ (ForOrganizations.handleSubmit Sample.verified_organization "2025-01-01"
       (Ok "o2") false p Sample.backend).2 = ForOrganizations.Saved
  ∧ (single (select Opportunities [("id", VStr "o2")]
               (db (ForOrganizations.handleSubmit Sample.verified_organization
                      "2025-01-01" (Ok "o2") false p Sample.backend).1.1))
       ≫= fun r => r !! "title") = Some (VStr "Food Drive").
Proof. vm_compute. repeat split; reflexivity. Qed.

(** C7 as stated fails for Update.  The organization owns the Food Drive
    and is not verified; it opens the edit form, changes the title and
    submits.  The update is stopped by the verification alert: nothing is
    sent and the row keeps its title. *)
Lemma unverified_owner_cannot_update :
  let p0 := ForOrganizations.fetchOrganizationOpportunities
              Sample.organization false Sample.store ForOrganizations.initial in
  let p := ForOrganizations.handleInputChange "title" "Food Drive 2"
             (ForOrganizations.handleEdit Sample.food_drive p0) in
  ForOrganizations.dashboard Sample.organization = true
  ∧ ForOrganizations.opportunities p0 = [Sample.food_drive]
  ∧ Sample.food_drive !! "organization_id" = Some (VStr "org1")
  ∧ truthy (profile_field Sample.organization "verified") = false
  ∧ ForOrganizations.handleSubmit Sample.organization "2025-01-01" (Ok "") false
      p Sample.backend
    = (Sample.backend, p, ForOrganizations.AlertMustBeVerified).
Proof. vm_compute. repeat split; reflexivity. Qed.

(** C7, amended.  For an opportunity listed on the dashboard of a signed-in
    organization (the dashboard lists the actor's own opportunities only):
    Delete needs nothing more, the [verified] flag is not looked at and the
    store is asked to delete the row; Update through the form is gated like
    Create: with [verified] set the update of that row is sent, without it
    the form is refused with the verification alert and nothing is sent. *)
Theorem manage_opportunity_conditions
    (ss : Session) (now gen oid : string) (opportunity : row)
    (p : ForOrganizations.Page) (b : Backend)
    (fetch_error : bool) :
  ForOrganizations.dashboard ss = true →
  In opportunity
     (ForOrganizations.opportunities
        (ForOrganizations.fetchOrganizationOpportunities ss false (db b) p)) →
  opportunity !! "id" = Some (VStr oid) →
  let editing := ForOrganizations.handleEdit opportunity p in
  ∃ uid,
    user ss = Some uid
    ∧ opportunity !! "organization_id" = Some (VStr uid)
    ∧ (ForOrganizations.clickDelete ss opportunity true (Ok gen)
          fetch_error p b).2
      = ForOrganizations.Deleted
    ∧ opportunities
        (db (ForOrganizations.clickDelete ss opportunity true (Ok gen)
              fetch_error p b).1.1)
      = List.filter
          (fun r => negb (bool_decide (r !! "id" = Some (VStr oid))))
          (opportunities (db b))
    ∧ (truthy (profile_field ss "verified") = true →
       (ForOrganizations.handleSubmit ss now (Ok gen) fetch_error editing b).2
       = ForOrganizations.Saved
       ∧ issued (ForOrganizations.handleSubmit ss now (Ok gen)
             fetch_error editing b).1.1
         = issued b
           ++ [Update Opportunities
                 (ForOrganizations.opportunityData uid now
                    (ForOrganizations.formData editing))
                 [("id", VStr oid)]])
    ∧ (truthy (profile_field ss "verified") = false →
       ForOrganizations.handleSubmit ss now (Ok gen) fetch_error editing b
       = (b, editing, ForOrganizations.AlertMustBeVerified)).
Proof.
  intros Hdash Hlisted Hid editing.
  destruct (listed_opportunity_is_own _ _ _ _ Hlisted)
    as (uid & Huser & Howner & _).
  unfold ForOrganizations.dashboard in Hdash.
  apply andb_true_iff in Hdash as [_ Htype].
  apply bool_decide_eq_true_1 in Htype.
  exists uid. split; [done|]. split; [done|].
  unfold ForOrganizations.clickDelete, ForOrganizations.handleDelete.
  rewrite Hid. cbn [from_option id negb]. rewrite send_Ok. cbn [fst snd db].
  split; [done|]. split.
  - change (opportunities ?s) with (rows Opportunities s).
    rewrite apply_delete_rows.
    induction (rows Opportunities (db b)) as [|r l IH]; [done|].
    cbn [List.filter]. by rewrite matches_eq_str, IH.
  - split.
    + intros Hverified.
      rewrite (handleSubmit_verified _ uid) by done.
      cbn [fst snd]. split; [done|].
      rewrite send_issued. unfold ForOrganizations.save_request.
      subst editing. cbn [ForOrganizations.editingOpportunity
                            ForOrganizations.handleEdit].
      rewrite Hid. by cbn [from_option id].
    + intros Hunverified. by apply (handleSubmit_unverified _ uid).
Qed.

(** On the sample store: the unverified organization deletes the Food
    Drive it owns and is stopped when it edits it. *)
Lemma manage_opportunity_conditions_witness :
  let editing := ForOrganizations.handleEdit Sample.food_drive
                   ForOrganizations.initial in
  ∃ uid,
    user Sample.organization = Some uid
    ∧ Sample.food_drive !! "organization_id" = Some (VStr uid)
    ∧ (ForOrganizations.clickDelete Sample.organization Sample.food_drive
         true (Ok "") false ForOrganizations.initial Sample.backend).2
      = ForOrganizations.Deleted
    ∧ opportunities
        (db (ForOrganizations.clickDelete Sample.organization
               Sample.food_drive true (Ok "") false ForOrganizations.initial
               Sample.backend).1.1)
      = List.filter
          (fun r => negb (bool_decide (r !! "id" = Some (VStr "o1"))))
          (opportunities (db Sample.backend))
    ∧ (truthy (profile_field Sample.organization "verified") = true →
       (ForOrganizations.handleSubmit Sample.organization "2025-01-01"
          (Ok "") false editing Sample.backend).2
       = ForOrganizations.Saved
       ∧ issued (ForOrganizations.handleSubmit Sample.organization
                   "2025-01-01" (Ok "") false editing Sample.backend).1.1
         = issued Sample.backend
           ++ [Update Opportunities
                 (ForOrganizations.opportunityData uid "2025-01-01"
                    (ForOrganizations.formData editing))
                 [("id", VStr "o1")]])
    ∧ (truthy (profile_field Sample.organization "verified") = false →
       ForOrganizations.handleSubmit Sample.organization "2025-01-01"
         (Ok "") false editing Sample.backend
       = (Sample.backend, editing, ForOrganizations.AlertMustBeVerified)).
Proof.
  apply (manage_opportunity_conditions Sample.organization "2025-01-01" ""
           "o1" Sample.food_drive ForOrganizations.initial Sample.backend).
  - reflexivity.
  - left. reflexivity.
  - reflexivity.
Defined.

(** The unverified organization of the sample does delete its
    opportunity. *)
Example unverified_owner_can_delete :
  opportunities
    (db (ForOrganizations.clickDelete Sample.organization Sample.food_drive
           true (Ok "") false ForOrganizations.initial Sample.backend).1.1) = [].
Proof. reflexivity. Qed.

(** C10.  A successful Update Opportunity through the dashboard form leaves
    the edited row with [current_volunteers = 0] and [status = 'active'],
    whatever the row held before and whatever the form holds. *)
Theorem edit_resets_count_and_status
    (ss : Session) (now oid : string) (r : reply) (editing row0 : row)
    (p : ForOrganizations.Page) (b : Backend) (i : nat)
    (fetch_error : bool) :
  ForOrganizations.editingOpportunity p = Some editing →
  editing !! "id" = Some (VStr oid) →
  (ForOrganizations.handleSubmit ss now r
        fetch_error p b).2 = ForOrganizations.Saved →
  opportunities (db b) !! i = Some row0 →
  row0 !! "id" = Some (VStr oid) →
  ∃ row1,
    opportunities (db (ForOrganizations.handleSubmit ss now r
          fetch_error p b).1.1) !! i
    = Some row1
    ∧ row1 !! "current_volunteers" = Some (VNum 0)
    ∧ row1 !! "status" = Some (VStr "active").
Proof.
  intros Hediting Hid Hsaved Hrow Hrowid.
  destruct (handleSubmit_Saved _ _ _ _ _ _ Hsaved)
    as (uid & gen & _ & _ & _ & -> & ->).
  unfold ForOrganizations.save_request. rewrite Hediting, Hid.
  cbn [from_option id]. rewrite send_Ok. cbn [fst db].
  change (opportunities ?s) with (rows Opportunities s).
  exists (ForOrganizations.opportunityData uid now (ForOrganizations.formData p)
          ∪ row0).
  split.
  - by apply lookup_updated_row.
  - split; apply updated_field;
      [apply opportunityData_current_volunteers | apply opportunityData_status].
Qed.

(** On the sample store with the inactive Food Drive, which has one
    volunteer: the verified organization edits it, and it is active again
    with no volunteers. *)
Lemma edit_resets_count_and_status_witness :
  ∃ row1,
    opportunities
      (db (ForOrganizations.handleSubmit Sample.verified_organization
             "2025-01-01" (Ok "") false
             (ForOrganizations.handleEdit
                (<[ "status" := VStr "inactive" ]> Sample.food_drive)
                ForOrganizations.initial)
             Sample.backend_inactive).1.1) !! 0%nat
    = Some row1
    ∧ row1 !! "current_volunteers" = Some (VNum 0)
    ∧ row1 !! "status" = Some (VStr "active").
Proof.
  apply (edit_resets_count_and_status Sample.verified_organization
           "2025-01-01" "o1" (Ok "")
           (<[ "status" := VStr "inactive" ]> Sample.food_drive)
           (<[ "status" := VStr "inactive" ]> Sample.food_drive)
           (ForOrganizations.handleEdit
              (<[ "status" := VStr "inactive" ]> Sample.food_drive)
              ForOrganizations.initial)
           Sample.backend_inactive 0); reflexivity.
Defined.

(** ** The verified flag *)

Section Verified.

Implicit Types (ss : Session) (b : Backend) (r : row) (s : Store).

Lemma assign_other k k' (form updates : row) :
  k ≠ k' → Profile.assign k form updates !! k' = updates !! k'.
Proof.
  intros Hne. unfold Profile.assign.
  destruct (form !! k); [by rewrite lookup_insert_ne | done].
Qed.

(** The fields a profile form can send: never [verified], never
    [user_type]. *)
Lemma updates_of_fields ss form updates :
  Profile.updates_of ss form = Some updates →
  updates !! "verified" = None ∧ updates !! "user_type" = None.
Proof.
  unfold Profile.updates_of.
  destruct (is_str "student" _).
  - destruct (Profile.parsed_goal form) as [goal|]; [|done].
    intros [= <-].
    by rewrite !lookup_insert_ne, !assign_other.
  - destruct (is_str "organization" _); intros [= <-]; [|done].
    by rewrite !assign_other.
Qed.

(** A write leaves the two columns of every profile as they are, unless
    it is an update of [profiles] that names them. *)
Lemma update_keeps_flags t payload filters rp b :
  payload !! "verified" = None →
  payload !! "user_type" = None →
  map Ledger.flags (profiles (db (send (Update t payload filters) rp b).1))
  = map Ledger.flags (profiles (db b)).
Proof.
  intros Hv Hu.
  destruct (decide (t = Profiles)) as [->|Hne].
  - destruct rp as [gen|]; [|done].
    rewrite send_Ok. cbn [fst db].
    change (profiles ?s) with (rows Profiles s).
    rewrite apply_update_rows, map_map. apply map_ext. intros r.
    destruct (matches filters r); [|done].
    unfold Ledger.flags. by rewrite !untouched_field.
  - change (profiles ?s) with (rows Profiles s).
    by rewrite send_other_table.
Qed.

Lemma students_unverified_flags s s' :
  map Ledger.flags (profiles s) = map Ledger.flags (profiles s') →
  Ledger.students_unverified s = Ledger.students_unverified s'.
Proof.
  unfold Ledger.students_unverified.
  generalize (profiles s) (profiles s'). clear.
  induction l as [|r l IH]; intros [|r' l']; try done.
  cbn [map forallb]. intros [= Hu Hv Hl].
  by rewrite Hu, Hv, (IH l').
Qed.

End Verified.

(** C9.  Whatever the profile form holds, the fields that
    [Profile.handleSubmit] hands over do not include [verified]; the only
    write it can cause is an update of the actor's own row with these
    fields, so the update leaves the [verified] flag (and the kind) of every
    account as it was, and it cannot make a student account verified.  An
    organization account starts with [verified = false]. *)
Theorem profile_update_keeps_verified
    (ss : Session) (rp : reply) (p : Profile.Page) (b : Backend) :
  (∀ updates,
     Profile.updates_of ss (Profile.formData p) = Some updates →
     updates !! "verified" = None)
  ∧ (issued (Profile.handleSubmit ss rp p b).1 = issued b
     ∨ ∃ uid updates,
         user ss = Some uid
         ∧ updates !! "verified" = None
         ∧ issued (Profile.handleSubmit ss rp p b).1
           = issued b ++ [Update Profiles updates [("id", VStr uid)]])
  ∧ map Ledger.flags (profiles (db (Profile.handleSubmit ss rp p b).1))
    = map Ledger.flags (profiles (db b))
  ∧ Ledger.students_unverified (db (Profile.handleSubmit ss rp p b).1)
    = Ledger.students_unverified (db b)
  ∧ ∀ f, OrganizationRegister.userData f !! "verified" = Some (VBool false).
Proof.
  assert (Hflags :
            map Ledger.flags (profiles (db (Profile.handleSubmit ss rp p b).1))
            = map Ledger.flags (profiles (db b))
            ∧ (issued (Profile.handleSubmit ss rp p b).1 = issued b
               ∨ ∃ uid updates,
                   user ss = Some uid
                   ∧ updates !! "verified" = None
                   ∧ issued (Profile.handleSubmit ss rp p b).1
                     = issued b ++ [Update Profiles updates [("id", VStr uid)]])).
  { unfold Profile.handleSubmit.
    destruct (Profile.updates_of ss (Profile.formData p)) as [updates|] eqn:Hupd;
      [|by split; [|left]].
    destruct (updates_of_fields _ _ _ Hupd) as [Hv Hu].
    unfold AuthContext.updateProfile.
    destruct (user ss) as [uid|] eqn:Huser; [|by split; [|left]].
    destruct (send _ rp b) as [b1 error] eqn:Hsend. cbn [fst].
    assert (b1 = (send (Update Profiles updates [("id", VStr uid)]) rp b).1)
      as -> by (by rewrite Hsend).
    split; [by apply update_keeps_flags|].
    right. exists uid, updates. by rewrite send_issued. }
  destruct Hflags as [Hflags Hissued].
  split; [intros updates Hupd; by destruct (updates_of_fields _ _ _ Hupd)|].
  split; [done|]. split; [done|].
  split; [by apply students_unverified_flags|].
  intros f. reflexivity.
Qed.

(** A student whose form carries a [verified] field, as if an input of that
    name had been added to the page: the field is not sent and the row
    stays unverified. *)
Example student_cannot_verify_themselves :
  let form := <[ "verified" := VBool true ]>
                (<[ "full_name" := VStr "Sam S." ]>
                   (<[ "service_hours_goal" := VStr "120" ]> ∅)) in
  let p := {| Profile.isEditing := true; Profile.message_shown := None;
              Profile.formData := form |} in
  let result := Profile.handleSubmit Sample.student (Ok "") p Sample.backend in
  issued result.1
  = [Update Profiles
       {[ "full_name" := VStr "Sam S."; "service_hours_goal" := VNum 120 ]}
       [("id", VStr "u1")]]
  ∧ (single (select Profiles [("id", VStr "u1")] (db result.1))
       ≫= fun r => r !! "verified") = Some (VBool false)
  ∧ (single (select Profiles [("id", VStr "u1")] (db result.1))
       ≫= fun r => r !! "service_hours_goal") = Some (VNum 120).
Proof. vm_compute. repeat split; reflexivity. Qed.

(** ** More about parseInt and toString *)

Section Decimal.

(** Reading the digits of a decimal numeral continues the value read so
    far. *)
Lemma digits_string_of_uint (d d' : Decimal.uint) :
  digits 10 (NilEmpty.string_of_uint d)
         (Some (Z.of_N (Unsigned.of_lu d')))
  = Some (Z.of_N (Unsigned.of_lu (Decimal.revapp d d'))).
Proof.
  revert d'. induction d as [|d IH|d IH|d IH|d IH|d IH|d IH|d IH|d IH|d IH|d IH];
    intros d'; [done|..];
    cbn [NilEmpty.string_of_uint Decimal.revapp]; rewrite <- IH;
    cbn [digits]; vm_compute digit_value;
    cbn [Z.ltb Z.compare Pos.compare Pos.compare_cont default from_option id];
    do 2 f_equal; cbn [Unsigned.of_lu]; lia.
Qed.

(** A decimal numeral starts with a digit: no white space, no sign and no
    [0x] prefix is stripped from it, and its first digit starts the value. *)
Lemma parse_numeral (d : Decimal.uint) :
  d ≠ Decimal.Nil →
  skip_white_space (NilEmpty.string_of_uint d) = NilEmpty.string_of_uint d
  ∧ strip_sign (NilEmpty.string_of_uint d) = (1, NilEmpty.string_of_uint d)
  ∧ strip_prefix (NilEmpty.string_of_uint d)
    = (10, NilEmpty.string_of_uint d)
  ∧ digits 10 (NilEmpty.string_of_uint d) None
    = Some (Z.of_N (Pos.of_uint d)).
Proof.
  intros Hd. rewrite Unsigned.of_uint_alt. unfold Decimal.rev.
  destruct d as [|d|d|d|d|d|d|d|d|d|d]; [done|..];
    (split; [reflexivity|]); (split; [reflexivity|]);
    (split; [try reflexivity|]).
  - by destruct d.
  - apply (digits_string_of_uint d (Decimal.D0 Decimal.Nil)).
  - apply (digits_string_of_uint d (Decimal.D1 Decimal.Nil)).
  - apply (digits_string_of_uint d (Decimal.D2 Decimal.Nil)).
  - apply (digits_string_of_uint d (Decimal.D3 Decimal.Nil)).
  - apply (digits_string_of_uint d (Decimal.D4 Decimal.Nil)).
  - apply (digits_string_of_uint d (Decimal.D5 Decimal.Nil)).
  - apply (digits_string_of_uint d (Decimal.D6 Decimal.Nil)).
  - apply (digits_string_of_uint d (Decimal.D7 Decimal.Nil)).
  - apply (digits_string_of_uint d (Decimal.D8 Decimal.Nil)).
  - apply (digits_string_of_uint d (Decimal.D9 Decimal.Nil)).
Qed.

End Decimal.

(** Writing an integer with [toString] and reading the text back with
    [parseInt] gives the integer again, for every integer. *)
Lemma parseInt_toString (n : Z) : parseInt (toString n) = Some n.
Proof.
  unfold toString.
  rewrite <- (DecimalZ.of_to n) at 2.
  destruct n as [|p|p]; [reflexivity|..]; cbn [Z.to_int NilZero.string_of_int].
  - pose proof (Unsigned.to_uint_nonnil p) as Hnil.
    destruct (parse_numeral _ Hnil) as (Hws & Hsign & Hprefix & Hdigits).
    unfold NilZero.string_of_uint.
    destruct (Pos.to_uint p) eqn:Hd; [done|..]; rewrite <- Hd in *;
      unfold parseInt; rewrite Hws, Hsign, Hprefix, Hdigits;
      cbn [fmap option_fmap option_map Z.of_int]; unfold Z.of_uint;
      f_equal; lia.
  - pose proof (Unsigned.to_uint_nonnil p) as Hnil.
    destruct (parse_numeral _ Hnil) as (Hws & Hsign & Hprefix & Hdigits).
    unfold NilZero.string_of_uint.
    destruct (Pos.to_uint p) eqn:Hd; [done|..]; rewrite <- Hd in *;
      unfold parseInt; cbn [skip_white_space is_white_space strip_sign];
      change (is_white_space "-") with false; cbn [strip_sign];
      rewrite Hprefix, Hdigits;
      cbn [fmap option_fmap option_map Z.of_int]; unfold Z.of_uint;
      f_equal; lia.
Qed.

(** ** More about logging hours *)

Section HoursLedger.

Import MyOpportunities.

Implicit Types (ss : Session) (p : Page) (b : Backend) (r : row).

(** The sum over the list that a fetch builds is the sum over the rows it
    was built from. *)
Lemma total_hours_of_rows (mk : row → RegisteredOpportunity) (l : list row) :
  (∀ r, own (mk r) = r) →
  total_hours (map mk l)
  = foldr (fun r sum => or_zero (r !! "hours_completed") + sum) 0 l.
Proof.
  intros Hmk. induction l as [|r l IH]; [done|].
  cbn [map foldr]. by rewrite total_hours_cons, Hmk, IH.
Qed.

Lemma filter_app_rows (f : row → bool) (l1 l2 : list row) :
  List.filter f (l1 ++ l2) = List.filter f l1 ++ List.filter f l2.
Proof.
  induction l1 as [|x l1 IH]; [done|].
  cbn. destruct (f x); cbn; by rewrite IH.
Qed.

Lemma foldr_hours_app (l1 l2 : list row) :
  foldr (fun r sum => or_zero (r !! "hours_completed") + sum) 0 (l1 ++ l2)
  = foldr (fun r sum => or_zero (r !! "hours_completed") + sum) 0 l1
    + foldr (fun r sum => or_zero (r !! "hours_completed") + sum) 0 l2.
Proof. induction l1 as [|x l1 IH]; cbn; [done|]. rewrite IH. lia. Qed.

(** Rows with another id pass the hours update as they are. *)
Lemma hours_update_other_rows rid h (l : list row) :
  (∀ x, In x l → x !! "id" ≠ Some (VStr rid)) →
  map (fun r => if bool_decide (r !! "id" = Some (VStr rid))
                then hours_fields h ∪ r else r) l = l.
Proof.
  induction l as [|x l IH]; intros Hl; [done|].
  cbn [map]. rewrite bool_decide_eq_false_2 by (apply Hl; by left).
  rewrite IH; [done|]. intros y Hy. apply Hl. by right.
Qed.

End HoursLedger.

(** X1.  The first log on a registration is exact.  The page has fetched
    the student's registrations; the registration that is updated is the
    only row with its id, belongs to the student and has no hours yet; the
    student has one profile row.  When the store applies both writes, the
    stored [total_hours_logged] is the sum of [hours_completed] over the
    student's registrations. *)
Theorem first_log_total_is_exact
    (ss : Session) (uid rid : string) (profile own_profile r : row) (h : Z)
    (gen gen' : string) (l1 l2 : list row) (b : Backend) :
  user ss = Some uid →
  userProfile ss = Some profile →
  profile !! "id" = Some (VStr uid) →
  select Profiles [("id", VStr uid)] (db b) = [own_profile] →
  volunteer_registrations (db b) = l1 ++ r :: l2 →
  r !! "id" = Some (VStr rid) →
  r !! "user_id" = Some (VStr uid) →
  or_zero (r !! "hours_completed") = 0 →
  (∀ x, In x (l1 ++ l2) → x !! "id" ≠ Some (VStr rid)) →
  let p := MyOpportunities.fetchUserOpportunities ss (db b)
             MyOpportunities.initial in
  let b' := (MyOpportunities.updateHoursCompleted ss rid h (Ok gen) (Ok gen')
               p b).1.1 in
  Ledger.total_hours_logged uid (db b')
  = Some (VNum (Ledger.hours_logged uid (db b'))).
Proof.
  intros Huser Hprofile Hpid Hown Hregs Hrid Hruid Hzero Hothers p b'.
  set (user_rows := fun l : list row =>
         List.filter (matches [("user_id", VStr uid)]) l).
  set (sum := foldr (fun (x : row) acc =>
                       or_zero (x !! "hours_completed") + acc) 0).
  (* the total that is written *)
  assert (Hlist : MyOpportunities.total_hours
                    (MyOpportunities.registeredOpportunities p)
                  = sum (user_rows l1) + sum (user_rows l2)).
  { subst p. unfold MyOpportunities.fetchUserOpportunities. rewrite Huser.
    cbn [MyOpportunities.registeredOpportunities
           MyOpportunities.setRegisteredOpportunities].
    rewrite total_hours_of_rows by done.
    unfold select. cbn [rows]. rewrite Hregs.
    rewrite filter_app_rows. cbn [List.filter].
    rewrite matches_eq_str, bool_decide_eq_true_2 by done.
    fold (user_rows l1) (user_rows l2). fold sum.
    subst sum. rewrite foldr_hours_app. cbn [foldr]. lia. }
  (* the registrations after the update *)
  assert (Hafter : Ledger.hours_logged uid (db b')
                   = sum (user_rows l1) + h + sum (user_rows l2)).
  { unfold Ledger.hours_logged, select. cbn [rows]. subst b'.
    rewrite updateHoursCompleted_registrations, Hregs.
    rewrite map_app. cbn [map].
    rewrite bool_decide_eq_true_2 by done.
    rewrite !hours_update_other_rows
      by (intros x Hx; apply Hothers, in_or_app; auto).
    rewrite filter_app_rows. cbn [List.filter].
    rewrite matches_eq_str.
    rewrite bool_decide_eq_true_2 by (by rewrite untouched_field).
    fold (user_rows l1) (user_rows l2). fold sum.
    subst sum. rewrite foldr_hours_app. cbn [foldr].
    rewrite (updated_field _ _ _ (VNum h)) by done. cbn [or_zero]. lia. }
  rewrite Hafter.
  (* the profile after the update *)
  unfold Ledger.total_hours_logged, select. cbn [rows]. subst b'.
  unfold MyOpportunities.updateHoursCompleted.
  rewrite send_Ok, Hprofile, Hpid. cbn [fst snd from_option id].
  rewrite send_Ok. cbn [fst db].
  change (profiles ?s) with (rows Profiles s).
  rewrite apply_update_rows.
  rewrite apply_other_table by done.
  rewrite filter_map_comm.
  - unfold select in Hown. rewrite Hown. cbn [map].
    assert (matches [("id", VStr uid)] own_profile = true) as ->.
    { assert (In own_profile
                (List.filter (matches [("id", VStr uid)])
                             (rows Profiles (db b)))) as Hin
        by (rewrite Hown; by left).
      by apply filter_In in Hin as [_ ?]. }
    cbn. rewrite lookup_union_l'; [|done].
    rewrite lookup_singleton_eq. do 2 f_equal. rewrite Hlist. lia.
  - intros x. destruct (matches [("id", VStr uid)] x) eqn:Hm; [|done].
    rewrite matches_eq_str in *. apply bool_decide_eq_true_1 in Hm.
    apply bool_decide_eq_true_2. by rewrite untouched_field.
Qed.

(** On the sample store with a registration that has no hours yet:
    logging 3 hours leaves a total of 3. *)
Lemma first_log_total_is_exact_witness :
  let fresh := <[ "hours_completed" := VNum 0 ]> Sample.registration in
  let b := {| db := {| profiles := profiles Sample.store;
                       opportunities := opportunities Sample.store;
                       volunteer_registrations := [fresh] |};
              issued := [] |} in
  let p := MyOpportunities.fetchUserOpportunities Sample.student (db b)
             MyOpportunities.initial in
  let b' := (MyOpportunities.updateHoursCompleted Sample.student "r1" 3
               (Ok "") (Ok "") p b).1.1 in
  Ledger.total_hours_logged "u1" (db b')
  = Some (VNum (Ledger.hours_logged "u1" (db b'))).
Proof.
  intros fresh b.
  apply (first_log_total_is_exact Sample.student "u1" "r1"
           Sample.student_profile Sample.student_profile fresh 3 "" ""
           [] [] b); try reflexivity.
  intros x [].
Defined.

(** X2.  "Log Hours" fills the field with the hours the registration has,
    so a Save without typing sends these very hours again (0 when it has
    none), for a listed registration whose status is 'registered'. *)
Theorem save_without_typing_resends_hours
    (ss : Session) (reg : MyOpportunities.RegisteredOpportunity)
    (rid : string) (r_hours r_total : reply)
    (p : MyOpportunities.Page) (b : Backend) :
  MyOpportunities.own reg !! "id" = Some (VStr rid) →
  MyOpportunities.own reg !! "status" = Some (VStr "registered") →
  reg ∈ MyOpportunities.registeredOpportunities p →
  issued (MyOpportunities.clickSave ss reg r_hours r_total
            (MyOpportunities.clickLogHours reg p) b).1.1
    !! List.length (issued b)
  = Some (Update VolunteerRegistrations
            (MyOpportunities.hours_fields
               (or_zero (MyOpportunities.own reg !! "hours_completed")))
            [("id", VStr rid)]).
Proof.
  intros Hid Hstatus Hin.
  rewrite (clickSave_offered _ _ rid); [|done|].
  - rewrite updateHoursCompleted_first_request. do 3 f_equal.
    unfold MyOpportunities.clickLogHours, parseInt_or_zero.
    cbn [MyOpportunities.hoursInput MyOpportunities.setHoursInput].
    destruct (MyOpportunities.own reg !! "hours_completed") as [[| n | |]|];
      try reflexivity.
    by rewrite parseInt_toString.
  - unfold MyOpportunities.save_offered, MyOpportunities.clickLogHours, is_str.
    cbn [MyOpportunities.registeredOpportunities
           MyOpportunities.editingHours MyOpportunities.setHoursInput
           MyOpportunities.setEditingHours].
    by rewrite !bool_decide_eq_true_2.
Qed.

(** On the sample page: the registration with 2 hours is sent with 2 hours
    again. *)
Lemma save_without_typing_resends_hours_witness :
  let reg := {| MyOpportunities.own := Sample.registration;
                MyOpportunities.opportunity := Sample.food_drive |} in
  let p := MyOpportunities.fetchUserOpportunities Sample.student Sample.store
             MyOpportunities.initial in
  issued (MyOpportunities.clickSave Sample.student reg (Ok "") (Ok "")
            (MyOpportunities.clickLogHours reg p) Sample.backend).1.1
    !! List.length (issued Sample.backend)
  = Some (Update VolunteerRegistrations
            (MyOpportunities.hours_fields
               (or_zero (MyOpportunities.own reg !! "hours_completed")))
            [("id", VStr "r1")]).
Proof.
  intros reg p.
  apply (save_without_typing_resends_hours Sample.student reg "r1" (Ok "")
           (Ok "") p Sample.backend).
  - reflexivity.
  - reflexivity.
  - by apply list_elem_of_In; left.
Defined.

(** X3.  Hours above zero can be logged once: after a successful update
    with [h > 0], no render of the page offers Save for the registration
    that was updated, whichever registration is being edited. *)
Theorem positive_hours_close_the_registration
    (ss : Session) (rid : string) (h : Z) (gen : string) (r_total : reply)
    (p q : MyOpportunities.Page) (b : Backend)
    (item : MyOpportunities.RegisteredOpportunity) :
  0 < h →
  item ∈ MyOpportunities.registeredOpportunities
           (MyOpportunities.updateHoursCompleted ss rid h (Ok gen) r_total
              p b).1.2 →
  MyOpportunities.own item !! "id" = Some (VStr rid) →
  MyOpportunities.own item !! "status" = Some (VStr "completed")
  ∧ MyOpportunities.own item !! "hours_completed" = Some (VNum h)
  ∧ MyOpportunities.save_offered item q = false.
Proof.
  intros Hpos Hin Hid. rewrite updateHoursCompleted_list in Hin.
  apply list_elem_of_fmap in Hin as (x & -> & _).
  unfold is_str in *. case_bool_decide as Hx; [|done].
  assert (Hstatus : MyOpportunities.own
                      (MyOpportunities.spread (MyOpportunities.hours_fields h) x)
                      !! "status" = Some (VStr "completed")).
  { cbn [MyOpportunities.spread MyOpportunities.own].
    apply updated_field. rewrite hours_fields_status.
    by rewrite (proj2 (Z.ltb_lt 0 h) Hpos). }
  split; [done|]. split.
  - cbn [MyOpportunities.spread MyOpportunities.own].
    apply updated_field, hours_fields_hours.
  - unfold MyOpportunities.save_offered, is_str. rewrite Hstatus.
    rewrite (bool_decide_eq_false_2 (Some (VStr "completed")
                                     = Some (VStr "registered"))) by done.
    by rewrite andb_false_r.
Qed.

(** On the sample page: after 3 hours are logged on the registration, Save
    is not offered for it. *)
Lemma positive_hours_close_the_registration_witness :
  let p := MyOpportunities.fetchUserOpportunities Sample.student Sample.store
             MyOpportunities.initial in
  let item := MyOpportunities.spread (MyOpportunities.hours_fields 3)
                {| MyOpportunities.own := Sample.registration;
                   MyOpportunities.opportunity := Sample.food_drive |} in
  MyOpportunities.own item !! "status" = Some (VStr "completed")
  ∧ MyOpportunities.own item !! "hours_completed" = Some (VNum 3)
  ∧ MyOpportunities.save_offered item
      (MyOpportunities.clickLogHours item p) = false.
Proof.
  intros p item.
  apply (positive_hours_close_the_registration Sample.student "r1" 3 ""
           (Ok "") p (MyOpportunities.clickLogHours item p) Sample.backend
           item).
  - lia.
  - by apply list_elem_of_In; left.
  - reflexivity.
Defined.

(** ** What a write leaves alone *)

Section Frames.

Implicit Types (ss : Session) (b : Backend) (r payload : row) (t : table).

(** An update keeps the number and the order of the rows; a row keeps
    every column the payload does not name, and a row that the filters do
    not select is kept whole. *)
Lemma update_rows_frame t payload filters rp b (i : nat) r :
  rows t (db b) !! i = Some r →
  ∃ r',
    rows t (db (send (Update t payload filters) rp b).1) !! i = Some r'
    ∧ (∀ k, payload !! k = None → r' !! k = r !! k)
    ∧ (matches filters r = false → r' = r).
Proof.
  intros Hrow. destruct rp as [gen|].
  - rewrite send_Ok. cbn [fst db].
    rewrite apply_update_rows, list_lookup_fmap, Hrow.
    cbn [fmap option_fmap option_map].
    destruct (matches filters r); eexists; (split; [done|]).
    + split; [|done]. intros k Hk. by apply untouched_field.
    + done.
  - rewrite send_Err. cbn [fst db]. by exists r.
Qed.

Lemma matches_one_column col v r :
  matches [(col, v)] r = true → v ≠ VNull ∧ r !! col = Some v.
Proof.
  unfold matches. cbn [forallb]. rewrite andb_true_r.
  by intros ?%bool_decide_eq_true_1.
Qed.

End Frames.


(** ** Saved opportunities *)

Section Saved.

Import Bookmarks.

Implicit Types (ss : Session) (sb : SavedBackend) (r : row)
  (p : OpportunityDetail.Page).

Lemma filter_none (f : row → bool) (l : list row) :
  List.filter f (List.filter (fun r => negb (f r)) l) = [].
Proof.
  induction l as [|x l IH]; [done|].
  cbn. destruct (f x) eqn:Hx; cbn; [done|]. by rewrite Hx.
Qed.

Lemma filter_all (f : row → bool) (l : list row) :
  List.filter f l = [] → List.filter (fun r => negb (f r)) l = l.
Proof.
  induction l as [|x l IH]; [done|].
  cbn. destruct (f x); cbn; [done|]. intros H. by rewrite IH.
Qed.

(** The row that [toggleSave] inserts is the bookmark of the user for the
    opportunity of the page. *)
Lemma inserted_bookmark_matches uid id now gen :
  matches (bookmark_of uid id)
    ({[ "user_id" := VStr uid; "opportunity_id" := VStr id;
        "saved_at" := VStr now ]} ∪ {[ "id" := VStr gen ]}) = true.
Proof.
  unfold matches, bookmark_of. cbn [forallb fst snd].
  rewrite !bool_decide_eq_true_2; [done|split; [done|]..].
  - by apply updated_field.
  - by apply updated_field.
Qed.

Lemma checkSaved_flag ss uid sb p :
  user ss = Some uid →
  OpportunityDetail.isSaved (checkSaved ss sb p)
  = bool_decide
      (is_Some
         (single
            (List.filter
               (matches (bookmark_of uid (OpportunityDetail.route_id p)))
               (saved_opportunities sb)))).
Proof. intros Huser. unfold checkSaved. by rewrite Huser. Qed.

End Saved.

(** X5.  Saving and reloading agree.  A signed-in user toggles the heart on
    a page whose flag is the one a reload would show; the store, which holds
    at most one bookmark of theirs for the opportunity, applies the write.
    Then the flag has flipped, and it is the flag that a reload of the page
    shows. *)
Theorem toggleSave_agrees_with_reload
    (ss : Session) (uid now gen : string)
    (p : OpportunityDetail.Page) (sb : Bookmarks.SavedBackend) :
  user ss = Some uid →
  OpportunityDetail.isSaved p
  = OpportunityDetail.isSaved (Bookmarks.checkSaved ss sb p) →
  (List.length
     (List.filter
        (matches (Bookmarks.bookmark_of uid (OpportunityDetail.route_id p)))
        (Bookmarks.saved_opportunities sb)) ≤ 1)%nat →
  let result := Bookmarks.toggleSave ss now (Ok gen) p sb in
  OpportunityDetail.isSaved result.1.2 = negb (OpportunityDetail.isSaved p)
  ∧ OpportunityDetail.isSaved
      (Bookmarks.checkSaved ss result.1.1 result.1.2)
    = OpportunityDetail.isSaved result.1.2.
Proof.
  intros Huser Hshown Hunique result. subst result.
  rewrite (checkSaved_flag _ uid) in Hshown by done.
  unfold Bookmarks.toggleSave. rewrite Huser.
  destruct (OpportunityDetail.isSaved p) eqn:Hsaved; cbn [fst snd].
  - split; [done|]. rewrite (checkSaved_flag _ uid) by done.
    cbn [Bookmarks.send_saved Bookmarks.saved_opportunities
           Bookmarks.apply_saved Bookmarks.setIsSaved
           OpportunityDetail.route_id OpportunityDetail.isSaved].
    by rewrite filter_none.
  - split; [done|]. rewrite (checkSaved_flag _ uid) by done.
    cbn [Bookmarks.send_saved Bookmarks.saved_opportunities
           Bookmarks.apply_saved Bookmarks.setIsSaved
           OpportunityDetail.route_id OpportunityDetail.isSaved].
    rewrite filter_app_rows. cbn [List.filter].
    rewrite inserted_bookmark_matches.
    destruct (List.filter _ (Bookmarks.saved_opportunities sb))
      as [|x [|y l]] eqn:Hfound.
    + done.
    + symmetry in Hshown. apply bool_decide_eq_false_1 in Hshown.
      destruct Hshown. by eexists.
    + cbn in Hunique. lia.
Qed.

(** A student saves an opportunity that was not saved: the reload shows it
    saved. *)
Lemma toggleSave_agrees_with_reload_witness :
  let sb := {| Bookmarks.saved_opportunities := [];
               Bookmarks.saved_issued := [] |} in
  let p := OpportunityDetail.mount Sample.student Sample.store "o1" in
  let result := Bookmarks.toggleSave Sample.student "2025-01-01" (Ok "s1")
                  p sb in
  OpportunityDetail.isSaved result.1.2 = negb (OpportunityDetail.isSaved p)
  ∧ OpportunityDetail.isSaved
      (Bookmarks.checkSaved Sample.student result.1.1 result.1.2)
    = OpportunityDetail.isSaved result.1.2.
Proof.
  intros sb p.
  apply (toggleSave_agrees_with_reload Sample.student "u1" "2025-01-01" "s1"
           p sb).
  - reflexivity.
  - reflexivity.
  - cbn. lia.
Defined.

(** X6.  [toggleSave] does not look at the answer of the store.  When the
    store refuses the write, the table is unchanged and the flag flips all
    the same, so that the page now shows the opposite of what a reload
    shows. *)
Theorem toggleSave_ignores_refusal
    (ss : Session) (uid now : string)
    (p : OpportunityDetail.Page) (sb : Bookmarks.SavedBackend) :
  user ss = Some uid →
  OpportunityDetail.isSaved p
  = OpportunityDetail.isSaved (Bookmarks.checkSaved ss sb p) →
  let result := Bookmarks.toggleSave ss now Err p sb in
  Bookmarks.saved_opportunities result.1.1 = Bookmarks.saved_opportunities sb
  ∧ OpportunityDetail.isSaved result.1.2 = negb (OpportunityDetail.isSaved p)
  ∧ OpportunityDetail.isSaved
      (Bookmarks.checkSaved ss result.1.1 result.1.2)
    = negb (OpportunityDetail.isSaved result.1.2).
Proof.
  intros Huser Hshown result. subst result.
  rewrite (checkSaved_flag _ uid) in Hshown by done.
  unfold Bookmarks.toggleSave. rewrite Huser.
  destruct (OpportunityDetail.isSaved p) eqn:Hsaved; cbn [fst snd];
    (split; [done|]); (split; [done|]);
    rewrite (checkSaved_flag _ uid) by done;
    cbn [Bookmarks.send_saved Bookmarks.saved_opportunities
           Bookmarks.setIsSaved OpportunityDetail.route_id
           OpportunityDetail.isSaved];
    by rewrite <- Hshown.
Qed.

(** The student's save is refused: the heart is filled, the reload shows it
    empty. *)
Lemma toggleSave_ignores_refusal_witness :
  let sb := {| Bookmarks.saved_opportunities := [];
               Bookmarks.saved_issued := [] |} in
  let p := OpportunityDetail.mount Sample.student Sample.store "o1" in
  let result := Bookmarks.toggleSave Sample.student "2025-01-01" Err p sb in
  Bookmarks.saved_opportunities result.1.1 = Bookmarks.saved_opportunities sb
  ∧ OpportunityDetail.isSaved result.1.2 = negb (OpportunityDetail.isSaved p)
  ∧ OpportunityDetail.isSaved
      (Bookmarks.checkSaved Sample.student result.1.1 result.1.2)
    = negb (OpportunityDetail.isSaved result.1.2).
Proof.
  intros sb p.
  apply (toggleSave_ignores_refusal Sample.student "u1" "2025-01-01" p sb);
    reflexivity.
Defined.

(** X7.  Saving an opportunity that was not saved and then removing the
    bookmark again, both writes applied, leaves [saved_opportunities] as it
    was, the bookmarks of other users and opportunities included. *)
Theorem save_then_unsave_restores_table
    (ss : Session) (uid now now' gen gen' : string)
    (p : OpportunityDetail.Page) (sb : Bookmarks.SavedBackend) :
  user ss = Some uid →
  OpportunityDetail.isSaved p = false →
  List.filter
    (matches (Bookmarks.bookmark_of uid (OpportunityDetail.route_id p)))
    (Bookmarks.saved_opportunities sb) = [] →
  let first := Bookmarks.toggleSave ss now (Ok gen) p sb in
  let second := Bookmarks.toggleSave ss now' (Ok gen') first.1.2 first.1.1 in
  Bookmarks.saved_opportunities second.1.1 = Bookmarks.saved_opportunities sb
  ∧ OpportunityDetail.isSaved second.1.2 = false
  ∧ List.length (Bookmarks.saved_issued second.1.1)
    = (List.length (Bookmarks.saved_issued sb) + 2)%nat.
Proof.
  intros Huser Hsaved Hnone first second. subst second first.
  unfold Bookmarks.toggleSave. rewrite Huser, Hsaved. cbn [fst snd].
  cbn [Bookmarks.setIsSaved OpportunityDetail.isSaved
         OpportunityDetail.route_id Bookmarks.send_saved
         Bookmarks.saved_opportunities Bookmarks.saved_issued
         Bookmarks.apply_saved].
  split; [|split; [done|]];
    cbn [fst snd Bookmarks.send_saved Bookmarks.saved_opportunities
           Bookmarks.saved_issued Bookmarks.apply_saved].
  - rewrite filter_app_rows. cbn [List.filter].
    rewrite inserted_bookmark_matches. cbn [negb].
    rewrite app_nil_r. by apply filter_all.
  - rewrite !length_app. cbn. lia.
Qed.

(** The student saves the Food Drive and removes the bookmark again: the
    bookmark of another user is still there. *)
Lemma save_then_unsave_restores_table_witness :
  let other := {[ "id" := VStr "s0"; "user_id" := VStr "u2";
                  "opportunity_id" := VStr "o1" ]} : row in
  let sb := {| Bookmarks.saved_opportunities := [other];
               Bookmarks.saved_issued := [] |} in
  let p := OpportunityDetail.mount Sample.student Sample.store "o1" in
  let first := Bookmarks.toggleSave Sample.student "2025-01-01" (Ok "s1")
                 p sb in
  let second := Bookmarks.toggleSave Sample.student "2025-01-02" (Ok "")
                  first.1.2 first.1.1 in
  Bookmarks.saved_opportunities second.1.1 = Bookmarks.saved_opportunities sb
  ∧ OpportunityDetail.isSaved second.1.2 = false
  ∧ List.length (Bookmarks.saved_issued second.1.1)
    = (List.length (Bookmarks.saved_issued sb) + 2)%nat.
Proof.
  intros other sb p.
  apply (save_then_unsave_restores_table Sample.student "u1" "2025-01-01"
           "2025-01-02" "s1" "" p sb); reflexivity.
Defined.

Section SavedList.

Import Bookmarks.

Lemma filter_of_map {A B : Type} (g : B → bool) (f : A → B) (l : list A) :
  List.filter g (map f l) = map f (List.filter (fun x => g (f x)) l).
Proof.
  induction l as [|x l IH]; [done|].
  cbn. destruct (g (f x)); cbn; by rewrite IH.
Qed.

Lemma filter_swap {A : Type} (f g : A → bool) (l : list A) :
  List.filter f (List.filter g l) = List.filter g (List.filter f l).
Proof.
  induction l as [|x l IH]; [done|].
  cbn. destruct (f x) eqn:Hf, (g x) eqn:Hg; cbn; rewrite ?Hf, ?Hg, IH; done.
Qed.

Lemma fetchSaved_list (ss : Session) uid (s : Store) sb prev :
  user ss = Some uid →
  fetchSaved ss s sb prev
  = map (fun r =>
           {| own := r;
              opportunity :=
                default ∅
                  (single (select Opportunities
                     [("id", default VNull (r !! "opportunity_id"))] s)) |})
        (List.filter (matches [("user_id", VStr uid)])
                     (saved_opportunities sb)).
Proof. intros Huser. unfold fetchSaved. by rewrite Huser. Qed.

End SavedList.

(** X8.  Removing a saved opportunity from "My Opportunities" agrees with
    the store that applies the delete: the list the page keeps is the list a
    new fetch gives, and it holds no item with the removed id. *)
Theorem removal_agrees_with_refetch
    (ss : Session) (uid savedId gen : string) (s : Store)
    (sb : Bookmarks.SavedBackend)
    (prev prev' : list Bookmarks.SavedOpportunity) :
  user ss = Some uid →
  let listed := Bookmarks.fetchSaved ss s sb prev in
  let result := Bookmarks.removeSavedOpportunity savedId (Ok gen) sb listed in
  result.2 = Bookmarks.fetchSaved ss s result.1 prev'
  ∧ ∀ item, In item result.2 →
            Bookmarks.own item !! "id" ≠ Some (VStr savedId).
Proof.
  intros Huser listed result. subst result listed.
  unfold Bookmarks.removeSavedOpportunity. cbn [fst snd]. split.
  - rewrite !(fetchSaved_list _ uid) by done.
    cbn [Bookmarks.send_saved Bookmarks.saved_opportunities
           Bookmarks.apply_saved].
    rewrite filter_of_map. cbn [Bookmarks.own]. f_equal.
    rewrite filter_swap. f_equal.
    apply filter_ext. intros r. by rewrite matches_eq_str.
  - intros item [_ Hid]%filter_In Heq. unfold is_str in Hid.
    by rewrite bool_decide_eq_true_2 in Hid.
Qed.

(** The student removes one of two saved opportunities. *)
Lemma removal_agrees_with_refetch_witness :
  let sb := {| Bookmarks.saved_opportunities :=
                 [ {[ "id" := VStr "s1"; "user_id" := VStr "u1";
                      "opportunity_id" := VStr "o1" ]};
                   {[ "id" := VStr "s2"; "user_id" := VStr "u1";
                      "opportunity_id" := VStr "o7" ]} ];
               Bookmarks.saved_issued := [] |} in
  let listed := Bookmarks.fetchSaved Sample.student Sample.store sb [] in
  let result := Bookmarks.removeSavedOpportunity "s1" (Ok "") sb listed in
  result.2 = Bookmarks.fetchSaved Sample.student Sample.store result.1 []
  ∧ ∀ item, In item result.2 →
            Bookmarks.own item !! "id" ≠ Some (VStr "s1").
Proof.
  intros sb.
  apply (removal_agrees_with_refetch Sample.student "u1" "s1" ""
           Sample.store sb [] []).
  reflexivity.
Defined.

(** X9.  [removeSavedOpportunity] does not look at the answer of the store
    either.  When the store refuses the delete, the item leaves the list of
    the page while its row stays in the table, and a new fetch lists it
    again. *)
Theorem removal_ignores_refusal
    (ss : Session) (uid savedId : string) (s : Store)
    (sb : Bookmarks.SavedBackend)
    (prev prev' : list Bookmarks.SavedOpportunity)
    (item : Bookmarks.SavedOpportunity) :
  user ss = Some uid →
  In item (Bookmarks.fetchSaved ss s sb prev) →
  Bookmarks.own item !! "id" = Some (VStr savedId) →
  let result := Bookmarks.removeSavedOpportunity savedId Err sb
                  (Bookmarks.fetchSaved ss s sb prev) in
  ¬ In item result.2
  ∧ Bookmarks.saved_opportunities result.1 = Bookmarks.saved_opportunities sb
  ∧ In item (Bookmarks.fetchSaved ss s result.1 prev').
Proof.
  intros Huser Hin Hid result. subst result.
  unfold Bookmarks.removeSavedOpportunity. cbn [fst snd].
  split; [|split; [done|]].
  - intros [_ Hkeep]%filter_In. unfold is_str in Hkeep.
    by rewrite bool_decide_eq_true_2 in Hkeep.
  - rewrite (fetchSaved_list _ uid) in * by done. exact Hin.
Qed.

(** The removal of the student's only saved opportunity is refused. *)
Lemma removal_ignores_refusal_witness :
  let saved := {[ "id" := VStr "s1"; "user_id" := VStr "u1";
                  "opportunity_id" := VStr "o1" ]} : row in
  let sb := {| Bookmarks.saved_opportunities := [saved];
               Bookmarks.saved_issued := [] |} in
  let item := {| Bookmarks.own := saved;
                 Bookmarks.opportunity := Sample.food_drive |} in
  let result := Bookmarks.removeSavedOpportunity "s1" Err sb
                  (Bookmarks.fetchSaved Sample.student Sample.store sb []) in
  ¬ In item result.2
  ∧ Bookmarks.saved_opportunities result.1 = Bookmarks.saved_opportunities sb
  ∧ In item (Bookmarks.fetchSaved Sample.student Sample.store result.1 []).
Proof.
  intros saved sb item.
  apply (removal_ignores_refusal Sample.student "u1" "s1" Sample.store sb
           [] [] item).
  - reflexivity.
  - left. reflexivity.
  - reflexivity.
Defined.

(** ** More about the dashboard *)

Section DashboardForm.

Import ForOrganizations.

Implicit Types (ss : Session) (p : Page) (b : Backend) (r : reply).


End DashboardForm.



(** X11.  A save from the dashboard form is local.  Whatever the session,
    the form and the answer of the store, it never changes [profiles] or
    [volunteer_registrations], and it keeps every row of [opportunities]
    in place; a row is kept whole unless it is the row being edited, so
    that a Create changes no existing row. *)
Theorem dashboard_save_is_local
    (ss : Session) (now : string) (r : reply)
    (p : ForOrganizations.Page) (b : Backend)
    (fetch_error : bool) :
  let result := ForOrganizations.handleSubmit ss now r fetch_error p b in
  profiles (db result.1.1) = profiles (db b)
  ∧ volunteer_registrations (db result.1.1) = volunteer_registrations (db b)
  ∧ ∀ (i : nat) row0,
      opportunities (db b) !! i = Some row0 →
      ∃ row1,
        opportunities (db result.1.1) !! i = Some row1
        ∧ ((∀ editing, ForOrganizations.editingOpportunity p = Some editing →
                       row0 !! "id" ≠ editing !! "id") →
           row1 = row0).
Proof.
  intros result. subst result. unfold ForOrganizations.handleSubmit.
  assert (Hsame : profiles (db b) = profiles (db b)
                  ∧ volunteer_registrations (db b)
                    = volunteer_registrations (db b)
                  ∧ ∀ (i : nat) row0,
                      opportunities (db b) !! i = Some row0 →
                      ∃ row1,
                        opportunities (db b) !! i = Some row1
                        ∧ ((∀ editing,
                              ForOrganizations.editingOpportunity p
                              = Some editing →
                              row0 !! "id" ≠ editing !! "id") →
                           row1 = row0)).
  { split; [done|]. split; [done|]. intros i row0 Hrow. by exists row0. }
  destruct (user ss) as [uid|]; [|exact Hsame].
  destruct (negb (is_str "organization" _)); [exact Hsame|].
  destruct (negb (truthy _)); [exact Hsame|].
  destruct (send _ r b) as [b1 error] eqn:Hsend.
  assert (b1 = (send (ForOrganizations.save_request uid now p) r b).1) as ->
    by (by rewrite Hsend).
  assert (Htable : table_of (ForOrganizations.save_request uid now p)
                   = Opportunities).
  { unfold ForOrganizations.save_request.
    by destruct (ForOrganizations.editingOpportunity p). }
  assert (Hgoal :
            profiles (db (send (ForOrganizations.save_request uid now p) r b).1)
            = profiles (db b)
            ∧ volunteer_registrations
                (db (send (ForOrganizations.save_request uid now p) r b).1)
              = volunteer_registrations (db b)
            ∧ ∀ (i : nat) row0,
                opportunities (db b) !! i = Some row0 →
                ∃ row1,
                  opportunities
                    (db (send (ForOrganizations.save_request uid now p) r b).1)
                    !! i = Some row1
                  ∧ ((∀ editing,
                        ForOrganizations.editingOpportunity p = Some editing →
                        row0 !! "id" ≠ editing !! "id") →
                     row1 = row0)).
  { split; [|split].
    - change (profiles ?s) with (rows Profiles s).
      apply send_other_table. by rewrite Htable.
    - change (volunteer_registrations ?s)
        with (rows VolunteerRegistrations s).
      apply send_other_table. by rewrite Htable.
    - intros i row0 Hrow. unfold ForOrganizations.save_request.
      destruct (ForOrganizations.editingOpportunity p) as [editing|].
      + change (opportunities ?s) with (rows Opportunities s).
        destruct (update_rows_frame Opportunities
                    (ForOrganizations.opportunityData uid now
                       (ForOrganizations.formData p))
                    [("id", default VNull (editing !! "id"))] r b i row0 Hrow)
          as (row1 & Hrow1 & _ & Hwhole).
        exists row1. split; [exact Hrow1|]. intros Hid. apply Hwhole.
        destruct (matches _ row0) eqn:Hm; [|done].
        apply matches_one_column in Hm as [Hnull Hm].
        exfalso. apply (Hid editing eq_refl). rewrite Hm.
        by destruct (editing !! "id").
      + exists row0. split; [|done].
        destruct r as [gen|]; [|done].
        rewrite send_Ok. cbn [fst db].
        change (opportunities ?s) with (rows Opportunities s).
        rewrite apply_insert_rows.
        by apply lookup_app_l_Some. }
  by destruct error.
Qed.

(** X12.  A created opportunity shows up on the dashboard once the list
    has been fetched again.  When a verified organization's new
    opportunity is applied by the store, the row is in the table and the
    form is closed and back to its empty state.  When the fetch that
    follows is answered, the list of the dashboard contains the created
    row and every row of it is the organization's own; when that fetch
    fails, the dashboard keeps the list it had. *)
Theorem created_opportunity_is_listed
    (ss : Session) (uid now gen : string) (fetch_error : bool)
    (p : ForOrganizations.Page) (b : Backend) :
  user ss = Some uid →
  profile_field ss "user_type" = Some (VStr "organization") →
  truthy (profile_field ss "verified") = true →
  ForOrganizations.editingOpportunity p = None →
  let result :=
    ForOrganizations.handleSubmit ss now (Ok gen) fetch_error p b in
  let created :=
    ForOrganizations.opportunityData uid now (ForOrganizations.formData p)
    ∪ ({[ "id" := VStr gen ]} ∪ defaults Opportunities) in
  result.2 = ForOrganizations.Saved
  ∧ In created (opportunities (db result.1.1))
  ∧ (fetch_error = false →
     In created (ForOrganizations.opportunities result.1.2)
     ∧ ∀ listed, In listed (ForOrganizations.opportunities result.1.2) →
                 listed !! "organization_id" = Some (VStr uid))
  ∧ (fetch_error = true →
     ForOrganizations.opportunities result.1.2
     = ForOrganizations.opportunities p)
  ∧ ForOrganizations.formData result.1.2 = ForOrganizations.emptyForm
  ∧ ForOrganizations.showForm result.1.2 = false
  ∧ ForOrganizations.editingOpportunity result.1.2 = None.
Proof.
  intros Huser Htype Hverified Hnew result created. subst result.
  rewrite (handleSubmit_verified _ uid) by done. cbn [fst snd].
  assert (Hstored : In created
            (opportunities
               (db (send (ForOrganizations.save_request uid now p)
                      (Ok gen) b).1))).
  { unfold ForOrganizations.save_request. rewrite Hnew.
    rewrite send_Ok. cbn [fst db].
    change (opportunities ?s) with (rows Opportunities s).
    rewrite apply_insert_rows. apply in_or_app. right. by left. }
  split; [done|]. split; [done|]. split; [|split].
  - intros ->. split.
    + cbn [ForOrganizations.opportunities
             ForOrganizations.fetchOrganizationOpportunities].
      rewrite Huser. cbn [from_option]. unfold select.
      apply filter_In. split; [done|].
      rewrite matches_eq_str. apply bool_decide_eq_true_2.
      apply updated_field, opportunityData_organization_id.
    + intros listed Hin.
      destruct (listed_opportunity_is_own _ _ _ _ Hin)
        as (uid' & Hu & Ho & _).
      congruence.
  - by intros ->.
  - by destruct fetch_error.
Qed.

(** On the sample store: the verified organization posts a second
    opportunity, and the list comes back. *)
Lemma created_opportunity_is_listed_witness :
  let p := ForOrganizations.handleInputChange "title" "Park Cleanup"
             ForOrganizations.initial in
  let result := ForOrganizations.handleSubmit Sample.verified_organization
                  "2025-01-01" (Ok "o2") false p Sample.backend in
  let created :=
    ForOrganizations.opportunityData "org1" "2025-01-01"
      (ForOrganizations.formData p)
    ∪ ({[ "id" := VStr "o2" ]} ∪ defaults Opportunities) in
  result.2 = ForOrganizations.Saved
  ∧ In created (opportunities (db result.1.1))
  ∧ (false = false →
     In created (ForOrganizations.opportunities result.1.2)
     ∧ ∀ listed, In listed (ForOrganizations.opportunities result.1.2) →
                 listed !! "organization_id" = Some (VStr "org1"))
  ∧ (false = true →
     ForOrganizations.opportunities result.1.2
     = ForOrganizations.opportunities p)
  ∧ ForOrganizations.formData result.1.2 = ForOrganizations.emptyForm
  ∧ ForOrganizations.showForm result.1.2 = false
  ∧ ForOrganizations.editingOpportunity result.1.2 = None.
Proof.
  intros p.
  apply (created_opportunity_is_listed Sample.verified_organization "org1"
           "2025-01-01" "o2" false p Sample.backend); reflexivity.
Defined.

(** X13.  [handleDelete] removes the opportunity from the table and
    nothing else, and takes nothing off the page itself.  It never changes
    [profiles] or [volunteer_registrations], so the registrations for a
    deleted opportunity stay in the store.  When it reports the deletion,
    no row with the id is left in the table and the rows with other ids
    are all still there; the list of the dashboard is without the row when
    the fetch that follows is answered, and is the list it was, the
    deleted row included, when that fetch fails.  When the deletion is not
    reported (the dialog was dismissed, or the store refused), the tables
    and the page are unchanged, and a dismissed dialog sends nothing. *)
Theorem delete_removes_only_that_opportunity
    (ss : Session) (oid : string) (confirmed : bool) (r : reply)
    (fetch_error : bool) (p : ForOrganizations.Page) (b : Backend) :
  let result :=
    ForOrganizations.handleDelete ss (VStr oid) confirmed r fetch_error p b in
  profiles (db result.1.1) = profiles (db b)
  ∧ volunteer_registrations (db result.1.1) = volunteer_registrations (db b)
  ∧ (result.2 = ForOrganizations.Deleted →
     (∀ row0, In row0 (opportunities (db result.1.1)) →
              row0 !! "id" ≠ Some (VStr oid))
     ∧ (∀ row0, In row0 (opportunities (db b)) →
                row0 !! "id" ≠ Some (VStr oid) →
                In row0 (opportunities (db result.1.1)))
     ∧ (fetch_error = false →
        ∀ row0, In row0 (ForOrganizations.opportunities result.1.2) →
                row0 !! "id" ≠ Some (VStr oid))
     ∧ (fetch_error = true → result.1.2 = p))
  ∧ (result.2 ≠ ForOrganizations.Deleted →
     db result.1.1 = db b ∧ result.1.2 = p)
  ∧ (confirmed = false → result.1.1 = b).
Proof.
  intros result. subst result. unfold ForOrganizations.handleDelete.
  destruct confirmed; cbn [negb]; [|by repeat split].
  destruct r as [gen|].
  - rewrite send_Ok. cbn [fst snd db].
    assert (Hrows : opportunities
                      (apply (Delete Opportunities [("id", VStr oid)]) gen
                             (db b))
                    = List.filter
                        (fun row0 =>
                           negb (bool_decide (row0 !! "id" = Some (VStr oid))))
                        (opportunities (db b))).
    { change (opportunities ?s) with (rows Opportunities s).
      rewrite apply_delete_rows. apply filter_ext.
      intros row0. by rewrite matches_eq_str. }
    split; [done|]. split; [done|]. split; [|split; [done|done]].
    intros _. split; [|split; [|split]].
    + intros row0. rewrite Hrows. intros [_ Hkeep]%filter_In Hid.
      by rewrite bool_decide_eq_true_2 in Hkeep.
    + intros row0 Hin Hid. rewrite Hrows. apply filter_In. split; [done|].
      by rewrite bool_decide_eq_false_2.
    + intros -> row0 Hin.
      destruct (listed_opportunity_is_own _ _ _ _ Hin)
        as (_ & _ & _ & Hstored).
      rewrite Hrows in Hstored. apply filter_In in Hstored as [_ Hkeep].
      intros Hid. by rewrite bool_decide_eq_true_2 in Hkeep.
    + by intros ->.
  - rewrite send_Err. cbn [fst snd db]. by repeat split.
Qed.

(** ** More about the profile form *)

Section ProfileForm.

Implicit Types (ss : Session) (form updates : row).

Lemma assign_same k form updates v :
  form !! k = Some v → Profile.assign k form updates !! k = Some v.
Proof.
  intros Hk. unfold Profile.assign. rewrite Hk. apply lookup_insert_eq.
Qed.

(** Whatever was typed before, the effect on [userProfile] and the Cancel
    button leave the same form. *)
Lemma loaded_form ss profile (p page : Profile.Page) :
  userProfile ss = Some profile →
  page = Profile.loadForm ss p ∨ page = Profile.cancelEdit ss p →
  Profile.formData page = Profile.profileForm profile.
Proof.
  intros Hprofile [-> | ->]; unfold Profile.loadForm, Profile.cancelEdit;
    by rewrite Hprofile.
Qed.

End ProfileForm.

(** X14.  An organization that saves its profile form as it was loaded, or
    as the Cancel button left it, sends a blank address.  The form is
    filled with the two names of the profile but always with an empty
    address, city, zip code and phone and the state 'TX', and the object
    that [handleSubmit] hands to [updateProfile] carries these values
    together with the names. *)
Theorem untouched_profile_save_blanks_address
    (ss : Session) (profile : row) (p page : Profile.Page) :
  userProfile ss = Some profile →
  profile !! "user_type" = Some (VStr "organization") →
  page = Profile.loadForm ss p ∨ page = Profile.cancelEdit ss p →
  ∃ updates,
    Profile.updates_of ss (Profile.formData (Profile.startEditing page))
    = Some updates
    ∧ updates !! "address" = Some (VStr "")
    ∧ updates !! "city" = Some (VStr "")
    ∧ updates !! "state" = Some (VStr "TX")
    ∧ updates !! "zip_code" = Some (VStr "")
    ∧ updates !! "phone" = Some (VStr "")
    ∧ updates !! "full_name"
      = Some (js_or (profile !! "full_name") (VStr ""))
    ∧ updates !! "organization_name"
      = Some (js_or (profile !! "organization_name") (VStr "")).
Proof.
  intros Hprofile Htype Hpage.
  cbn [Profile.startEditing Profile.formData].
  rewrite (loaded_form ss profile p page) by done.
  unfold Profile.updates_of, profile_field, is_str.
  rewrite Hprofile. cbn [mbind option_bind]. rewrite Htype.
  rewrite bool_decide_eq_false_2 by done.
  rewrite bool_decide_eq_true_2 by done.
  eexists. split; [reflexivity|].
  repeat split;
    repeat first [ by apply assign_same
                 | rewrite assign_other by done ].
Qed.

(** For an organization whose profile holds an address, after typing
    into the form and cancelling. *)
Lemma untouched_profile_save_blanks_address_witness :
  let located := <[ "address" := VStr "1 Main St" ]>
                   Sample.organization_profile in
  let ss := {| user := Some "org1"%string; userProfile := Some located |} in
  let page := Profile.cancelEdit ss
                (Profile.handleInputChange "address" "2 Oak Ave"
                   (Profile.startEditing (Profile.mount ss))) in
  ∃ updates,
    Profile.updates_of ss (Profile.formData (Profile.startEditing page))
    = Some updates
    ∧ updates !! "address" = Some (VStr "")
    ∧ updates !! "city" = Some (VStr "")
    ∧ updates !! "state" = Some (VStr "TX")
    ∧ updates !! "zip_code" = Some (VStr "")
    ∧ updates !! "phone" = Some (VStr "")
    ∧ updates !! "full_name"
      = Some (js_or (located !! "full_name") (VStr ""))
    ∧ updates !! "organization_name"
      = Some (js_or (located !! "organization_name") (VStr "")).
Proof.
  intros located ss page.
  apply (untouched_profile_save_blanks_address ss located
           (Profile.handleInputChange "address" "2 Oak Ave"
              (Profile.startEditing (Profile.mount ss))) page);
    [reflexivity | reflexivity | by right].
Defined.

(** X15.  A student who saves the profile form as it was loaded sends the
    goal the profile holds: the number is turned into text by the form's
    [toString] and read back by [parseInt] unchanged.  Only a goal of 0 is
    not kept: the form loads it as 100 ([service_hours_goal || 100]). *)
Theorem untouched_student_save_keeps_goal
    (ss : Session) (profile : row) (n : Z) (p page : Profile.Page) :
  userProfile ss = Some profile →
  profile !! "user_type" = Some (VStr "student") →
  profile !! "service_hours_goal" = Some (VNum n) →
  page = Profile.loadForm ss p ∨ page = Profile.cancelEdit ss p →
  Profile.updates_of ss (Profile.formData (Profile.startEditing page))
  = Some {[ "service_hours_goal" := VNum (if n =? 0 then 100 else n);
            "full_name" := js_or (profile !! "full_name") (VStr "") ]}.
Proof.
  intros Hprofile Htype Hgoal Hpage.
  cbn [Profile.startEditing Profile.formData].
  rewrite (loaded_form ss profile p page) by done.
  unfold Profile.updates_of, profile_field, is_str.
  rewrite Hprofile. cbn [mbind option_bind]. rewrite Htype.
  rewrite bool_decide_eq_true_2 by done.
  assert (Hparsed : Profile.parsed_goal (Profile.profileForm profile)
                    = Some (VNum (if n =? 0 then 100 else n))).
  { unfold Profile.parsed_goal.
    replace (Profile.profileForm profile !! "service_hours_goal")
      with (Some (js_or (profile !! "service_hours_goal") (VNum 100)))
      by reflexivity.
    rewrite Hgoal. unfold js_or, truthy.
    destruct (Z.eqb_spec n 0) as [-> | Hn].
    - reflexivity.
    - cbn [negb default from_option id fmap option_fmap option_map].
      by rewrite parseInt_toString. }
  rewrite Hparsed. cbn [fmap option_fmap option_map]. f_equal.
Qed.

Lemma untouched_student_save_keeps_goal_witness :
  let profile := <[ "service_hours_goal" := VNum 40 ]>
                   Sample.student_profile in
  let ss := {| user := Some "u1"%string; userProfile := Some profile |} in
  Profile.updates_of ss
    (Profile.formData (Profile.startEditing (Profile.mount ss)))
  = Some {[ "service_hours_goal" := VNum 40;
            "full_name" := js_or (profile !! "full_name") (VStr "") ]}.
Proof.
  intros profile ss.
  apply (untouched_student_save_keeps_goal ss profile 40 Profile.initial
           (Profile.mount ss)); [reflexivity | reflexivity | reflexivity |].
  by left.
Defined.

(** X16.  Whatever a student types into the goal field, the save does not
    throw: the object handed to [updateProfile] holds the integer that
    [parseInt] reads at the start of the text, or null when there is none
    (an emptied field, which the input lets through), together with the
    form's name and nothing else.  The handler has no check of its own on
    the goal. *)
Theorem typed_goal_is_sent_as_parsed
    (ss : Session) (profile : row) (t : string) (p : Profile.Page) :
  userProfile ss = Some profile →
  profile !! "user_type" = Some (VStr "student") →
  ∃ updates,
    Profile.updates_of ss
      (Profile.formData (Profile.handleInputChange "service_hours_goal" t p))
    = Some updates
    ∧ updates !! "service_hours_goal"
      = Some (from_option VNum VNull (parseInt t))
    ∧ updates !! "full_name" = Profile.formData p !! "full_name"
    ∧ ∀ k, k ≠ "service_hours_goal"%string → k ≠ "full_name"%string →
           updates !! k = None.
Proof.
  intros Hprofile Htype.
  unfold Profile.updates_of, profile_field, is_str.
  rewrite Hprofile. cbn [mbind option_bind]. rewrite Htype.
  rewrite bool_decide_eq_true_2 by done.
  unfold Profile.parsed_goal, Profile.handleInputChange.
  cbn [Profile.formData]. rewrite lookup_insert_eq.
  cbn [fmap option_fmap option_map].
  eexists. split; [reflexivity|]. split; [|split].
  - apply lookup_insert_eq.
  - rewrite lookup_insert_ne by done. unfold Profile.assign.
    rewrite lookup_insert_ne by done.
    destruct (Profile.formData p !! "full_name") as [v|];
      [apply lookup_insert_eq | done].
  - intros k Hgoal Hname. rewrite lookup_insert_ne by done.
    by rewrite assign_other by done.
Qed.

(** The student empties the goal field. *)
Lemma typed_goal_is_sent_as_parsed_witness :
  let ss := {| user := Some "u1"%string;
               userProfile := Some Sample.student_profile |} in
  ∃ updates,
    Profile.updates_of ss
      (Profile.formData
         (Profile.handleInputChange "service_hours_goal" EmptyString
            (Profile.mount ss)))
    = Some updates
    ∧ updates !! "service_hours_goal"
      = Some (from_option VNum VNull (parseInt EmptyString))
    ∧ updates !! "full_name"
      = Profile.formData (Profile.mount ss) !! "full_name"
    ∧ ∀ k, k ≠ "service_hours_goal"%string → k ≠ "full_name"%string →
           updates !! k = None.
Proof.
  intros ss.
  apply (typed_goal_is_sent_as_parsed ss Sample.student_profile
           EmptyString (Profile.mount ss)); reflexivity.
Defined.

(** ** Signing up as an organization *)

(** X17.  The registration form of an organization calls [signUp] exactly
    when the two passwords are equal and the password has at least six
    UTF-16 code units, which is what [length] counts; the call carries the
    email and password of the form and account data with [user_type]
    'organization' and [verified] false.  The page moves on to the
    dashboard exactly when the call was made and came back without an
    error; unequal passwords are reported before a short password. *)
Theorem signUp_needs_matching_long_password
    (f : OrganizationRegister.Form) (c : OrganizationRegister.Credentials)
    (signUp_error : bool) :
  let result := OrganizationRegister.handleSubmit f c signUp_error in
  let accepted :=
    OrganizationRegister.password c = OrganizationRegister.confirmPassword c
    ∧ (6 ≤ List.length (OrganizationRegister.password c))%nat in
  (is_Some result.1 ↔ accepted)
  ∧ (∀ email password data,
       result.1 = Some (email, password, data) →
       email = OrganizationRegister.email c
       ∧ password = OrganizationRegister.password c
       ∧ data !! "user_type" = Some (VStr "organization")
       ∧ data !! "verified" = Some (VBool false))
  ∧ (result.2 = OrganizationRegister.NavigateForOrganizations
     ↔ accepted ∧ signUp_error = false)
  ∧ (result.2 = OrganizationRegister.PasswordsDoNotMatch
     ↔ OrganizationRegister.password c
       ≠ OrganizationRegister.confirmPassword c).
Proof.
  intros result accepted. subst result accepted.
  unfold OrganizationRegister.handleSubmit.
  case_bool_decide as Heq; cbn [negb].
  - destruct (Nat.ltb_spec
                (List.length (OrganizationRegister.password c)) 6)
      as [Hshort | Hlong]; cbn [fst snd].
    + repeat split; try done;
        try (by intros [? [=]]);
        try (intros [_ ?]; lia);
        try (intros [[_ ?] _]; lia).
    + repeat split; try done;
        try (by simplify_eq);
        try (by intros [_ ->]);
        try (by destruct signUp_error).
  - cbn [fst snd].
    repeat split; try done;
      try (by intros [? [=]]);
      try (by intros [? _]);
      try (by intros [[? _] _]).
Qed.

(** ** The list page of the opportunities *)

Section Search.

Implicit Types (s t a b : string) (p : OpportunitiesList.Page).

Lemma append_assoc a s b : ((a ++ s) ++ b = a ++ s ++ b)%string.
Proof.
  induction a as [|c a IH]; [done|].
  change (String c ((a ++ s) ++ b) = String c (a ++ s ++ b))%string.
  by rewrite IH.
Qed.

Lemma prefix_spec t s :
  String.prefix t s = true ↔ ∃ b, s = (t ++ b)%string.
Proof.
  revert s. induction t as [|c t IH]; intros s.
  - split; [intros _; by exists s | by destruct s].
  - destruct s as [|c' s]; cbn [String.prefix].
    + split; [done | by intros [b [=]]].
    + destruct (ascii_dec c c') as [<- | Hne].
      * rewrite IH. split.
        -- intros [b ->]. by exists b.
        -- intros [b [= ->]]. by exists b.
      * split; [done | intros [b [= ? _]]; by subst].
Qed.

(** [includes] finds exactly the texts that occur as a run of consecutive
    characters. *)
Lemma includes_spec s t :
  includes s t = true ↔ ∃ a b, s = (a ++ t ++ b)%string.
Proof.
  induction s as [|c s IH]; cbn [includes]; rewrite orb_true_iff.
  - rewrite prefix_spec. split.
    + intros [[b ->] | [=]]. by exists ""%string, b.
    + intros (a & b & Heq). left. destruct a; [by exists b | done].
  - rewrite prefix_spec, IH. split.
    + intros [[b ->] | (a & b & ->)].
      * by exists ""%string, b.
      * by exists (String c a), b.
    + intros (a & b & Heq). destruct a as [|c' a].
      * left. by exists b.
      * right. injection Heq as _ ->. by exists a, b.
Qed.

Lemma includes_empty s : includes s "" = true.
Proof. by destruct s. Qed.

Lemma includes_part s a t b :
  includes s (a ++ t ++ b) = true → includes s t = true.
Proof.
  rewrite !includes_spec. intros (a' & b' & ->).
  exists (a' ++ a)%string, (b ++ b')%string.
  by rewrite !append_assoc.
Qed.

Lemma ascii_toLowerCase_app s t :
  ascii_toLowerCase (s ++ t)
  = (ascii_toLowerCase s ++ ascii_toLowerCase t)%string.
Proof.
  induction s as [|c s IH]; [done|].
  change (String (lower_char c) (ascii_toLowerCase (s ++ t))
          = String (lower_char c)
              (ascii_toLowerCase s ++ ascii_toLowerCase t))%string.
  by rewrite IH.
Qed.

Lemma is_ascii_app s t :
  is_ascii (s ++ t) = is_ascii s && is_ascii t.
Proof.
  induction s as [|c s IH]; [done|].
  change (is_ascii (String c (s ++ t)) = is_ascii (String c s) && is_ascii t).
  cbn [is_ascii]. by rewrite IH, andb_assoc.
Qed.

Lemma found_empty (toLowerCase : string → string)
    (opp : OpportunitiesList.Opportunity) :
  toLowerCase "" = ""%string →
  OpportunitiesList.found toLowerCase "" opp = true.
Proof.
  intros Hempty. unfold OpportunitiesList.found. rewrite Hempty.
  by rewrite includes_empty.
Qed.

(** On ASCII texts the search of the page is the search with the folding
    of the letters A to Z. *)
Lemma found_ascii (toLowerCase : string → string) t
    (opp : OpportunitiesList.Opportunity) :
  folds_ascii toLowerCase →
  is_ascii t = true →
  OpportunitiesList.ascii_texts opp = true →
  OpportunitiesList.found toLowerCase t opp
  = OpportunitiesList.found ascii_toLowerCase t opp.
Proof.
  intros Hfold Ht Hopp. unfold OpportunitiesList.ascii_texts in Hopp.
  apply andb_true_iff in Hopp as [Hopp Hcity].
  apply andb_true_iff in Hopp as [Hopp Hname].
  apply andb_true_iff in Hopp as [Htitle Hdescription].
  unfold OpportunitiesList.found.
  by rewrite !Hfold by done.
Qed.

Lemma found_part a t b (opp : OpportunitiesList.Opportunity) :
  OpportunitiesList.found ascii_toLowerCase (a ++ t ++ b) opp = true →
  OpportunitiesList.found ascii_toLowerCase t opp = true.
Proof.
  unfold OpportunitiesList.found. rewrite !ascii_toLowerCase_app.
  rewrite !orb_true_iff.
  intros [[[H | H] | H] | H]; apply includes_part in H; tauto.
Qed.

Lemma filter_narrows {A} (f g : A → bool) (l : list A) :
  (∀ x, In x l → f x = true → g x = true) →
  List.filter f (List.filter g l) = List.filter f l.
Proof.
  intros Hfg. induction l as [|x l IH]; [done|]. cbn.
  assert (IH' : List.filter f (List.filter g l) = List.filter f l).
  { apply IH. intros y Hy. apply Hfg. by right. }
  destruct (g x) eqn:Hg; cbn.
  - by rewrite IH'.
  - destruct (f x) eqn:Hf; [|done].
    apply Hfg in Hf; [congruence | by left].
Qed.

(** Nothing a visitor does on the page touches the list that was
    fetched. *)
Lemma handle_keeps_list p (es : list OpportunitiesList.event) :
  OpportunitiesList.opportunities (fold_left OpportunitiesList.handle es p)
  = OpportunitiesList.opportunities p.
Proof.
  revert p. induction es as [|e es IH]; intros p; [done|].
  cbn [fold_left]. rewrite IH. by destruct e.
Qed.

End Search.

(** X18.  The category, hours and location selects of the list page have
    no effect on what is listed.  The query is built once, by the effect of
    the first render, when the three selections are still empty; whatever
    the visitor then types or chooses, the page holds every opportunity of
    the store whose status is 'active' (or nothing, when the store answered
    with an error), and shows those that pass the search box.  This holds
    for every way the store matches [ilike] and every case folding. *)
Theorem selections_never_reach_the_query
    (toLowerCase : string → string)
    (ilike : string → string → bool) (error : bool) (s : Store)
    (es : list OpportunitiesList.event) :
  let p := fold_left OpportunitiesList.handle es
             (OpportunitiesList.mount ilike error s) in
  let active (r : row) := bool_decide (r !! "status" = Some (VStr "active")) in
  OpportunitiesList.opportunities p
  = (if error then []
     else map (OpportunitiesList.transform s)
              (List.filter active (Db.opportunities s)))
  ∧ OpportunitiesList.filteredOpportunities toLowerCase p
    = List.filter
        (OpportunitiesList.found toLowerCase
           (OpportunitiesList.searchTerm p))
        (if error then []
         else map (OpportunitiesList.transform s)
                  (List.filter active (Db.opportunities s))).
Proof.
  intros p active.
  assert (Hlist : OpportunitiesList.opportunities p
                  = (if error then []
                     else map (OpportunitiesList.transform s)
                            (List.filter active (Db.opportunities s)))).
  { subst p. rewrite handle_keeps_list.
    unfold OpportunitiesList.mount, OpportunitiesList.fetchOpportunities.
    destruct error; [done|].
    cbn [OpportunitiesList.opportunities]. f_equal.
    unfold OpportunitiesList.selected_rows. apply filter_ext. intros r.
    cbn. rewrite andb_true_r. subst active. cbn.
    apply bool_decide_ext. split; [by intros [_ ?] | by intros ?]. }
  split; [done|].
  unfold OpportunitiesList.filteredOpportunities. by rewrite Hlist.
Qed.

(** X19.  "Clear all" shows everything the page holds: with the search box
    empty every fetched opportunity passes the search, since the empty text
    occurs in every title.  All that is used of [toLowerCase] is that it
    leaves the empty text empty. *)
Theorem clearFilters_shows_every_fetched_opportunity
    (toLowerCase : string → string) (p : OpportunitiesList.Page) :
  toLowerCase "" = ""%string →
  OpportunitiesList.filteredOpportunities toLowerCase
    (OpportunitiesList.clearFilters p)
  = OpportunitiesList.opportunities p.
Proof.
  intros Hempty. unfold OpportunitiesList.filteredOpportunities. cbn.
  apply forallb_filter_id, forallb_forall. intros opp _.
  by apply found_empty.
Qed.

(** With the folding of the letters A to Z: a search for "park" shows one
    of the two opportunities of the catalogue, "Clear all" shows both. *)
Lemma clearFilters_shows_every_fetched_opportunity_witness :
  let p := OpportunitiesList.setSearchTerm "park"
             (OpportunitiesList.mount (fun _ _ => true) false
                Sample.catalogue) in
  List.length (OpportunitiesList.filteredOpportunities ascii_toLowerCase p)
  = 1%nat
  ∧ List.length (OpportunitiesList.opportunities p) = 2%nat
  ∧ OpportunitiesList.filteredOpportunities ascii_toLowerCase
      (OpportunitiesList.clearFilters p)
    = OpportunitiesList.opportunities p.
Proof.
  intros p. split; [reflexivity|]. split; [reflexivity|].
  apply (clearFilters_shows_every_fetched_opportunity ascii_toLowerCase p).
  reflexivity.
Defined.

(** X20.  On texts of ASCII characters, typing more into the search box
    only narrows the result: the opportunities shown for a text are those
    among the ones shown for any part of it that pass the longer text.
    The texts are the search text and the title, description, organization
    name and city of the fetched opportunities; outside ASCII the folding
    of a letter can depend on what follows it, and the property is not
    claimed. *)
Theorem longer_search_narrows_the_result
    (toLowerCase : string → string) (a t b : string)
    (p : OpportunitiesList.Page) :
  folds_ascii toLowerCase →
  is_ascii (a ++ t ++ b) = true →
  forallb OpportunitiesList.ascii_texts (OpportunitiesList.opportunities p)
  = true →
  OpportunitiesList.filteredOpportunities toLowerCase
    (OpportunitiesList.setSearchTerm (a ++ t ++ b) p)
  = List.filter (OpportunitiesList.found toLowerCase (a ++ t ++ b))
      (OpportunitiesList.filteredOpportunities toLowerCase
         (OpportunitiesList.setSearchTerm t p)).
Proof.
  intros Hfold Hterm Hopps.
  assert (Ht : is_ascii t = true).
  { rewrite !is_ascii_app in Hterm.
    apply andb_true_iff in Hterm as [_ Hterm].
    by apply andb_true_iff in Hterm as [Hterm _]. }
  unfold OpportunitiesList.filteredOpportunities. cbn.
  symmetry. apply filter_narrows. intros opp Hin.
  assert (Hopp : OpportunitiesList.ascii_texts opp = true).
  { by apply (proj1 (forallb_forall _ _) Hopps). }
  rewrite !(found_ascii toLowerCase) by done.
  apply found_part.
Qed.

(** On the catalogue: "a" occurs in the texts of both opportunities,
    "pArk" in those of one. *)
Lemma longer_search_narrows_the_result_witness :
  let p := OpportunitiesList.mount (fun _ _ => true) false Sample.catalogue in
  List.length
    (OpportunitiesList.filteredOpportunities ascii_toLowerCase
       (OpportunitiesList.setSearchTerm "A" p)) = 2%nat
  ∧ List.length
      (OpportunitiesList.filteredOpportunities ascii_toLowerCase
         (OpportunitiesList.setSearchTerm ("p" ++ "A" ++ "rk") p)) = 1%nat
  ∧ OpportunitiesList.filteredOpportunities ascii_toLowerCase
      (OpportunitiesList.setSearchTerm ("p" ++ "A" ++ "rk") p)
    = List.filter
        (OpportunitiesList.found ascii_toLowerCase ("p" ++ "A" ++ "rk"))
        (OpportunitiesList.filteredOpportunities ascii_toLowerCase
           (OpportunitiesList.setSearchTerm "A" p)).
Proof.
  intros p. split; [reflexivity|]. split; [reflexivity|].
  apply (longer_search_narrows_the_result ascii_toLowerCase "p" "A" "rk" p).
  - by intros s _.
  - reflexivity.
  - reflexivity.
Defined.
